(** * Event ticket scraper: a shallow embedding of [src/models.py] and
    [src/scraper.py], and the properties of its API-access layer.

    Python values are modelled as they reach the code: JSON documents as the
    values [json.loads] builds ([None], [bool], [int], [float], [str], [list],
    [dict]), Python [int] as [Z], Python [float] as the kernel's binary64
    floats, [str] as [string] (one character is one code point below 256).
    Exceptions are explicit: a computation returns [Ok], or [Raise]s. *)

From Stdlib Require Import ZArith String Ascii List Bool Lia Floats.
From Stdlib Require Import Sorted Permutation RelationClasses OrderedTypeEx.
From Stdlib Require Import DecimalString.
Import ListNotations.
Open Scope string_scope.
Open Scope Z_scope.

(* ===================================================================== *)
(** ** Exceptions and the result monad *)
(* ===================================================================== *)

Inductive exn : Type :=
| AttributeError | TypeError | KeyError | IndexError | ValueError
| OverflowError | JSONDecodeError | UnicodeDecodeError | ValidationError
| InvalidURL.

(** [Unmodelled] marks the inputs on which Python's behaviour depends on
    machinery this development does not reproduce (the comparison sequence of
    the built-in sort on keys that are not totally ordered, a sleep for a NaN
    delay). It is neither a value nor an exception: no theorem below draws a
    conclusion from it.  [Hangs] is a computation that awaits something that
    never completes: it neither returns nor raises, and nothing of the run
    happens after it. *)
Inductive result (A : Type) : Type :=
| Ok (a : A)
| Raise (e : exn)
| Unmodelled
| Hangs.
Arguments Ok {A} a.
Arguments Raise {A} e.
Arguments Unmodelled {A}.
Arguments Hangs {A}.

Definition bind {A B : Type} (m : result A) (f : A -> result B) : result B :=
  match m with
  | Ok a => f a
  | Raise e => Raise e
  | Unmodelled => Unmodelled
  | Hangs => Hangs
  end.

Declare Scope py_scope.
Delimit Scope py_scope with py.
Notation "x <- m ;; k" := (bind m (fun x => k))
  (at level 61, m at next level, right associativity) : py_scope.
Notation "'ret' a" := (Ok a) (at level 60) : py_scope.
Open Scope py_scope.

Fixpoint mapM {A B : Type} (f : A -> result B) (l : list A) : result (list B) :=
  match l with
  | [] => Ok []
  | a :: l' => b <- f a ;; bs <- mapM f l' ;; ret (b :: bs)
  end.

(* ===================================================================== *)
(** ** Strings *)
(* ===================================================================== *)

Module Str.

(** [str.isspace] on code points below 256: TAB, LF, VT, FF, CR, the four
    separators 0x1c-0x1f, SPACE, NEL (0x85) and NBSP (0xa0). *)
Definition isspace (c : ascii) : bool :=
  let n := N_of_ascii c in
  (((9 <=? n) && (n <=? 13)) || ((28 <=? n) && (n <=? 32))
   || (n =? 133) || (n =? 160))%N.

Fixpoint lstrip (s : string) : string :=
  match s with
  | EmptyString => EmptyString
  | String c s' => if isspace c then lstrip s' else s
  end.

(** [rstrip s] drops the trailing whitespace: a character survives when it
    is not a space or when something survives after it. *)
Fixpoint rstrip (s : string) : string :=
  match s with
  | EmptyString => EmptyString
  | String c s' =>
      match rstrip s' with
      | EmptyString => if isspace c then EmptyString else String c EmptyString
      | t => String c t
      end
  end.

Definition strip (s : string) : string := rstrip (lstrip s).

(** Truth value of a [str]: non-empty. *)
Definition truthy (s : string) : bool :=
  match s with EmptyString => false | _ => true end.

(** [needle in hay] for two strings. *)
Fixpoint contains (needle hay : string) : bool :=
  prefix needle hay ||
  match hay with
  | EmptyString => false
  | String _ hay' => contains needle hay'
  end.

(** [x in (a, b, ...)] for strings. *)
Definition one_of (x : string) (l : list string) : bool :=
  existsb (String.eqb x) l.

End Str.

(* ===================================================================== *)
(** ** models.py: ScraperInput and validate_input *)
(* ===================================================================== *)

Module ScraperInput.

Record t : Type := {
  api_key : string;
  mode : string;
  keyword : string;
  event_id : string;
  city : string;
  state_code : string;
  country_code : string;
  postal_code : string;
  latlong : string;
  radius : option Z;
  unit : string;
  classification_name : string;
  start_date_time : string;
  end_date_time : string;
  sort : string;
  source : string;
  include_family : string;
  max_results : Z;
  request_interval_secs : float
}.

(** The field defaults of the class. *)
Definition default : t := {|
  api_key := ""; mode := "search"; keyword := ""; event_id := "";
  city := ""; state_code := ""; country_code := ""; postal_code := "";
  latlong := ""; radius := None; unit := "miles";
  classification_name := ""; start_date_time := ""; end_date_time := "";
  sort := "relevance,desc"; source := ""; include_family := "";
  max_results := 100; request_interval_secs := 0.5%float
|}.

(** The list handed to [any(...)] in the search branch. *)
Definition search_filters (c : t) : list string :=
  [ Str.strip (keyword c); Str.strip (city c); Str.strip (state_code c);
    Str.strip (country_code c); Str.strip (postal_code c);
    Str.strip (latlong c); Str.strip (classification_name c) ].

(** [validate_input]: [Some msg] is the error string, [None] is Python's
    [None]. *)
Definition validate_input (c : t) : option string :=
  if negb (Str.truthy (Str.strip (api_key c))) then
    Some ("Ticketmaster API key is required. "
          ++ "Get one for free at https://developer.ticketmaster.com/")
  else if negb (Str.one_of (mode c) ["search"; "get_event"; "venues"]) then
    Some ("Invalid mode: '" ++ mode c
          ++ "'. Use 'search', 'get_event', or 'venues'.")
  else if (mode c =? "get_event")%string
          && negb (Str.truthy (Str.strip (event_id c))) then
    Some "Event ID is required for 'get_event' mode."
  else if (mode c =? "search")%string
          && negb (existsb Str.truthy (search_filters c)) then
    Some ("Provide at least one search filter: keyword, city, stateCode, "
          ++ "countryCode, postalCode, latlong, or classificationName.")
  else if negb (Str.one_of (unit c) ["miles"; "km"]) then
    Some ("Invalid unit: '" ++ unit c ++ "'. Use 'miles' or 'km'.")
  else None.

End ScraperInput.

(** The violations of the configuration invariant as the data model lists
    them: the mode, the event id of a lookup, the filters of a search, the
    unit. *)
Definition violates_invariant (c : ScraperInput.t) : Prop :=
  let mode := ScraperInput.mode c in
  ~ In mode ["search"; "get_event"; "venues"]
  \/ (mode = "get_event" /\ Str.strip (ScraperInput.event_id c) = "")
  \/ (mode = "search"
      /\ Forall (fun f => f = "")
           [ ScraperInput.keyword c; ScraperInput.city c;
             ScraperInput.state_code c; ScraperInput.country_code c;
             ScraperInput.postal_code c; ScraperInput.latlong c;
             ScraperInput.classification_name c ])
  \/ ~ In (ScraperInput.unit c) ["miles"; "km"].

(** What [validate_input] rejects: a blank API key, and the violations
    above with every filter read after trimming. *)
Definition rejected (c : ScraperInput.t) : Prop :=
  let mode := ScraperInput.mode c in
  Str.strip (ScraperInput.api_key c) = ""
  \/ ~ In mode ["search"; "get_event"; "venues"]
  \/ (mode = "get_event" /\ Str.strip (ScraperInput.event_id c) = "")
  \/ (mode = "search"
      /\ Forall (fun f => f = "") (ScraperInput.search_filters c))
  \/ ~ In (ScraperInput.unit c) ["miles"; "km"].

(* ===================================================================== *)
(** ** Python values decoded from JSON *)
(* ===================================================================== *)

Set Warnings "-register-all".

Inductive json : Type :=
| JNull
| JBool (b : bool)
| JInt (z : Z)
| JFloat (f : float)
| JStr (s : string)
| JArr (l : list json)
| JObj (kvs : list (string * json)).

(** A [dict] is an association list read from the left: the first binding
    of a key is its value. *)
Fixpoint lookup {V : Type} (k : string) (kvs : list (string * V)) : option V :=
  match kvs with
  | [] => None
  | (k', v) :: rest => if (k =? k')%string then Some v else lookup k rest
  end.

(** [d[k] = v]: replaces the binding of [k] in place, or appends a new one. *)
Fixpoint dict_set {V : Type} (k : string) (v : V) (kvs : list (string * V))
  : list (string * V) :=
  match kvs with
  | [] => [(k, v)]
  | (k', v') :: rest =>
      if (k =? k')%string then (k, v) :: rest else (k', v') :: dict_set k v rest
  end.

Definition dict_keys {V : Type} (kvs : list (string * V)) : list string :=
  nodup string_dec (map fst kvs).

(** *** Numbers.  Python compares [int], [bool] and [float] by their exact
    values; [xnum] is that value: an infinity or [m * 2^e]. *)
Inductive xnum : Type :=
| XNegInf
| XFin (m e : Z)
| XPosInf.

(** The value of a float; [None] for a NaN, which compares false with
    everything. *)
Definition xnum_of_float (f : float) : option xnum :=
  match Prim2SF f with
  | S754_nan => None
  | S754_infinity neg => Some (if neg then XNegInf else XPosInf)
  | S754_zero _ => Some (XFin 0 0)
  | S754_finite neg m e => Some (XFin (if neg then Z.neg m else Z.pos m) e)
  end.

Definition xnum_ltb (a b : xnum) : bool :=
  match a, b with
  | _, XNegInf => false
  | XNegInf, _ => true
  | XPosInf, _ => false
  | _, XPosInf => true
  | XFin m1 e1, XFin m2 e2 =>
      let e := Z.min e1 e2 in
      m1 * 2 ^ (e1 - e) <? m2 * 2 ^ (e2 - e)
  end.

Definition xnum_eqb (a b : xnum) : bool :=
  negb (xnum_ltb a b) && negb (xnum_ltb b a).

(** The numeric value of a Python object, when it is a number other than a
    NaN ([bool] is a subclass of [int]). *)
Definition num_of (v : json) : option xnum :=
  match v with
  | JBool b => Some (XFin (if b then 1 else 0) 0)
  | JInt z => Some (XFin z 0)
  | JFloat f => xnum_of_float f
  | _ => None
  end.

(** [float(z)] for an [int]: round to nearest even, [OverflowError] when
    the result is not finite. *)
Definition float_of_int (z : Z) : result float :=
  match binary_normalize 53 1024 z 0 false with
  | S754_infinity _ => Raise OverflowError
  | sf => Ok (SF2Prim sf)
  end.

(** *** The library functions the code calls but the repository does not
    define.  [float_of_str] is [float(s)] on a [str] ([None] is [ValueError]);
    the empty string is not a number.  [lax_float] and [lax_int] are what the
    record classes' validation makes of a value that is not already a
    [float], respectively an [int], when it fills a field of that type
    ([None] is a validation error). *)
Class Host : Type := {
  float_of_str : string -> option float;
  float_of_str_empty : float_of_str "" = None;
  lax_float : json -> option float;
  lax_int : json -> option Z
}.

Module Py.

(** [bool(v)]. *)
Definition truthy (v : json) : bool :=
  match v with
  | JNull => false
  | JBool b => b
  | JInt z => negb (z =? 0)
  | JFloat f => negb (PrimFloat.eqb f 0%float)
  | JStr s => Str.truthy s
  | JArr l => match l with [] => false | _ => true end
  | JObj kvs => match kvs with [] => false | _ => true end
  end.

(** [a or b]. *)
Definition or_ (a b : json) : json := if truthy a then a else b.

(** [v.get(k, default)]: only a [dict] has the method. *)
Definition get (v : json) (k : string) (default : json) : result json :=
  match v with
  | JObj kvs => Ok (match lookup k kvs with Some x => x | None => default end)
  | _ => Raise AttributeError
  end.

(** [v.get(k, "") or ""]. *)
Definition get_or_str (v : json) (k : string) : result json :=
  x <- get v k (JStr "") ;; ret (or_ x (JStr "")).

(** [v[0]]. *)
Definition index0 (v : json) : result json :=
  match v with
  | JArr (x :: _) => Ok x
  | JArr [] => Raise IndexError
  | JStr (String c _) => Ok (JStr (String c EmptyString))
  | JStr EmptyString => Raise IndexError
  | JObj _ => Raise KeyError
  | _ => Raise TypeError
  end.

(** [v[k]] for a string [k]. *)
Definition getitem (v : json) (k : string) : result json :=
  match v with
  | JObj kvs => match lookup k kvs with Some x => Ok x | None => Raise KeyError end
  | _ => Raise TypeError
  end.

(** The elements [for x in v] runs over. *)
Definition iter (v : json) : result (list json) :=
  match v with
  | JArr l => Ok l
  | JStr s => Ok (map (fun c => JStr (String c EmptyString)) (list_ascii_of_string s))
  | JObj kvs => Ok (map JStr (dict_keys kvs))
  | _ => Raise TypeError
  end.

(** [len(v)]. *)
Definition len (v : json) : result Z :=
  match v with
  | JArr l => Ok (Z.of_nat (List.length l))
  | JStr s => Ok (Z.of_nat (String.length s))
  | JObj kvs => Ok (Z.of_nat (List.length (dict_keys kvs)))
  | _ => Raise TypeError
  end.

(** [a == b] where both are hashable (no [list], no [dict]); two NaN read
    from a document are distinct objects and unequal. *)
Definition eqb (a b : json) : bool :=
  match a, b with
  | JNull, JNull => true
  | JStr s, JStr t => (s =? t)%string
  | _, _ =>
      match num_of a, num_of b with
      | Some x, Some y => xnum_eqb x y
      | _, _ => false
      end
  end.

(** [v == s] for a string literal [s]. *)
Definition eq_str (v : json) (s : string) : bool :=
  match v with JStr t => (t =? s)%string | _ => false end.

(** [hash(v)] succeeds. *)
Definition hashable (v : json) : bool :=
  match v with JArr _ | JObj _ => false | _ => true end.

(** [k in v] for a string [k]. *)
Definition contains (k : string) (v : json) : result bool :=
  match v with
  | JObj kvs => Ok (match lookup k kvs with Some _ => true | None => false end)
  | JArr l => Ok (existsb (fun x => eq_str x k) l)
  | JStr s => Ok (Str.contains k s)
  | _ => Raise TypeError
  end.

(** [n >= v] for an [int] [n]. *)
Definition int_ge (n : Z) (v : json) : result bool :=
  match v with
  | JBool _ | JInt _ | JFloat _ =>
      Ok (match num_of v with
          | Some x => negb (xnum_ltb (XFin n 0) x)
          | None => false
          end)
  | _ => Raise TypeError
  end.

(** [isinstance(v, dict)]. *)
Definition is_dict (v : json) : bool :=
  match v with JObj _ => true | _ => false end.

End Py.

(* ===================================================================== *)
(** ** models.py: the output records *)
(* ===================================================================== *)

Module PresaleRecord.

Record t : Type := {
  name : string;
  start_date_time : string;
  end_date_time : string;
  description : string;
  url : string
}.

End PresaleRecord.

Module EventRecord.

Record t : Type := {
  schema_version : string;
  type : string;
  event_name : string;
  event_id : string;
  event_url : string;
  local_date : string;
  local_time : string;
  datetime_utc : string;
  timezone : string;
  status : string;
  price_min : float;
  price_max : float;
  price_currency : string;
  venue_name : string;
  venue_id : string;
  venue_city : string;
  venue_state : string;
  venue_country : string;
  venue_address : string;
  venue_postal_code : string;
  venue_latitude : float;
  venue_longitude : float;
  attractions : list string;
  segment : string;
  genre : string;
  sub_genre : string;
  public_sale_start : string;
  public_sale_end : string;
  presales : list PresaleRecord.t;
  promoter : string;
  seatmap_url : string;
  images : list string;
  info : string;
  please_note : string;
  ticket_limit : string;
  accessibility_info : string;
  source : string;
  scraped_at : string
}.

(** The field defaults of the class: what [EventRecord()] holds. *)
Definition default : t := {|
  schema_version := "1.0"; type := "event";
  event_name := ""; event_id := ""; event_url := "";
  local_date := ""; local_time := ""; datetime_utc := ""; timezone := "";
  status := "";
  price_min := 0%float; price_max := 0%float; price_currency := "";
  venue_name := ""; venue_id := ""; venue_city := ""; venue_state := "";
  venue_country := ""; venue_address := ""; venue_postal_code := "";
  venue_latitude := 0%float; venue_longitude := 0%float;
  attractions := [];
  segment := ""; genre := ""; sub_genre := "";
  public_sale_start := ""; public_sale_end := ""; presales := [];
  promoter := ""; seatmap_url := ""; images := [];
  info := ""; please_note := ""; ticket_limit := ""; accessibility_info := "";
  source := "ticketmaster"; scraped_at := ""
|}.

End EventRecord.

Module VenueRecord.

Record t : Type := {
  schema_version : string;
  type : string;
  venue_name : string;
  venue_id : string;
  venue_url : string;
  city : string;
  state : string;
  country : string;
  address : string;
  postal_code : string;
  latitude : float;
  longitude : float;
  timezone : string;
  parking_detail : string;
  general_info : string;
  child_rule : string;
  accessible_seating_detail : string;
  upcoming_events_count : Z;
  images : list string;
  source : string;
  scraped_at : string
}.

(** The field defaults of the class. *)
Definition default : t := {|
  schema_version := "1.0"; type := "venue";
  venue_name := ""; venue_id := ""; venue_url := "";
  city := ""; state := ""; country := ""; address := ""; postal_code := "";
  latitude := 0%float; longitude := 0%float; timezone := "";
  parking_detail := ""; general_info := ""; child_rule := "";
  accessible_seating_detail := ""; upcoming_events_count := 0;
  images := [];
  source := "ticketmaster"; scraped_at := ""
|}.

End VenueRecord.

(** What a generator of the scraper yields: the [model_dump()] of one of
    the two record classes. *)
Inductive record : Type :=
| Event (r : EventRecord.t)
| Venue (r : VenueRecord.t).

Definition record_schema_version (d : record) : string :=
  match d with
  | Event r => EventRecord.schema_version r
  | Venue r => VenueRecord.schema_version r
  end.

Definition record_type (d : record) : string :=
  match d with
  | Event r => EventRecord.type r
  | Venue r => VenueRecord.type r
  end.

(* ===================================================================== *)
(** ** The built-in sort, on the keys it orders without ambiguity *)
(* ===================================================================== *)

(** Stable insertion into a list that is descending for [ltb]: the new
    element stands before the first one that is not greater. *)
Fixpoint insert_desc {K A : Type} (ltb : K -> K -> bool) (x : K * A)
  (l : list (K * A)) : list (K * A) :=
  match l with
  | [] => [x]
  | y :: l' => if ltb (fst x) (fst y) then y :: insert_desc ltb x l' else x :: l
  end.

(** [sorted(..., reverse=True)] for a total order on the keys: descending,
    elements with equal keys in their original order. *)
Definition sort_desc {K A : Type} (ltb : K -> K -> bool) (l : list (K * A))
  : list (K * A) :=
  fold_right (insert_desc ltb) [] l.

(** The families of values within which [<] is defined. *)
Inductive family : Type := FNum | FStr | FList | FNone.

Definition family_of (v : json) : family :=
  match v with
  | JNull | JObj _ => FNone
  | JStr _ => FStr
  | JArr _ => FList
  | _ => FNum
  end.

Definition family_eqb (a b : family) : bool :=
  match a, b with
  | FNum, FNum | FStr, FStr | FList, FList | FNone, FNone => true
  | _, _ => false
  end.

Definition key_num (p : json * json) : option (xnum * json) :=
  match num_of (fst p) with Some x => Some (x, snd p) | None => None end.

Definition key_str (p : json * json) : option (string * json) :=
  match fst p with JStr s => Some (s, snd p) | _ => None end.

(** All of the options, or nothing. *)
Fixpoint sequence {A : Type} (l : list (option A)) : option (list A) :=
  match l with
  | [] => Some []
  | Some a :: l' =>
      match sequence l' with Some r => Some (a :: r) | None => None end
  | None :: _ => None
  end.

(** [sorted(items, key=..., reverse=True)] on the (key, item) pairs.
    - Fewer than two items: nothing is compared.
    - A key that is [None] or a [dict], or keys of two families: some
      comparison the sort must make raises [TypeError].
    - Numbers (no NaN) or strings: the stable descending order.
    - Otherwise (NaN, lists): not modelled. *)
Definition sorted_desc (keyed : list (json * json)) : result (list json) :=
  match keyed with
  | [] | [_] => Ok (map snd keyed)
  | (k0, _) :: _ =>
      let fams := map (fun p => family_of (fst p)) keyed in
      if existsb (family_eqb FNone) fams then Raise TypeError
      else if negb (forallb (family_eqb (family_of k0)) fams) then Raise TypeError
      else match family_of k0 with
           | FNum =>
               match sequence (map key_num keyed) with
               | Some l => Ok (map snd (sort_desc xnum_ltb l))
               | None => Unmodelled
               end
           | FStr =>
               match sequence (map key_str keyed) with
               | Some l => Ok (map snd (sort_desc String.ltb l))
               | None => Unmodelled
               end
           | _ => Unmodelled
           end
  end.

(* ===================================================================== *)
(** ** scraper.py: the normalizers *)
(* ===================================================================== *)

Section Normalizers.

Context {host : Host}.

(** Field validation of the record classes: a [str] field takes a [str],
    a [float] field a [float] (or what the lax conversion accepts), an [int]
    field an [int] (likewise), a [list[str]] field a list of [str]. *)
Definition validate_str (v : json) : result string :=
  match v with
  | JStr s => Ok s
  | _ => Raise ValidationError
  end.

Definition validate_float (v : json) : result float :=
  match v with
  | JFloat f => Ok f
  | _ => match lax_float v with
         | Some f => Ok f
         | None => Raise ValidationError
         end
  end.

Definition validate_int (v : json) : result Z :=
  match v with
  | JInt z => Ok z
  | _ => match lax_int v with
         | Some z => Ok z
         | None => Raise ValidationError
         end
  end.

Definition validate_str_list (l : list json) : result (list string) :=
  mapM validate_str l.

(** [float(value)]. *)
Definition float_ (value : json) : result float :=
  match value with
  | JFloat f => Ok f
  | JInt z => float_of_int z
  | JBool b => Ok (if b then 1%float else 0%float)
  | JStr s => match float_of_str s with
              | Some f => Ok f
              | None => Raise ValueError
              end
  | JNull | JArr _ | JObj _ => Raise TypeError
  end.

(** [_safe_float]: [except (ValueError, TypeError)] turns these two into
    0.0 and lets anything else through. *)
Definition _safe_float (value : json) : result float :=
  match value with
  | JNull => Ok 0%float
  | _ => match float_ value with
         | Raise ValueError | Raise TypeError => Ok 0%float
         | r => r
         end
  end.

(** [[x.get(k, "") for x in items if x.get(k)]]. *)
Fixpoint collect_truthy (k : string) (items : list json) : result (list json) :=
  match items with
  | [] => Ok []
  | x :: rest =>
      c <- Py.get x k JNull ;;
      if Py.truthy c then
        v <- Py.get x k (JStr "") ;;
        vs <- collect_truthy k rest ;;
        ret (v :: vs)
      else collect_truthy k rest
  end.

(** The body of [for ps in presales_data]. *)
Definition presale_of (ps : json) : result PresaleRecord.t :=
  name <- Py.get_or_str ps "name" ;;
  start_date_time <- Py.get_or_str ps "startDateTime" ;;
  end_date_time <- Py.get_or_str ps "endDateTime" ;;
  description <- Py.get_or_str ps "description" ;;
  url <- Py.get_or_str ps "url" ;;
  name <- validate_str name ;;
  start_date_time <- validate_str start_date_time ;;
  end_date_time <- validate_str end_date_time ;;
  description <- validate_str description ;;
  url <- validate_str url ;;
  ret {| PresaleRecord.name := name;
         PresaleRecord.start_date_time := start_date_time;
         PresaleRecord.end_date_time := end_date_time;
         PresaleRecord.description := description;
         PresaleRecord.url := url |}.

(** The price block: the first price range when the list is truthy. *)
Definition price_fields (event : json) : result (json * json * json) :=
  price_ranges <- Py.get event "priceRanges" (JArr []) ;;
  if Py.truthy price_ranges then
    pr <- Py.index0 price_ranges ;;
    mn <- Py.get pr "min" (JFloat 0) ;;
    mx <- Py.get pr "max" (JFloat 0) ;;
    cur <- Py.get pr "currency" (JStr "") ;;
    ret (Py.or_ mn (JFloat 0), Py.or_ mx (JFloat 0), Py.or_ cur (JStr ""))
  else ret (JFloat 0, JFloat 0, JStr "").

(** ["Undefined" is a common placeholder in the API]. *)
Definition drop_undefined (v : json) : json :=
  if Py.eq_str v "Undefined" then JStr "" else v.

(** The classification block: segment, genre, sub-genre of the first
    entry when the list is truthy. *)
Definition classification_fields (event : json) : result (json * json * json) :=
  classifications <- Py.get event "classifications" (JArr []) ;;
  if Py.truthy classifications then
    cls0 <- Py.index0 classifications ;;
    seg <- Py.get cls0 "segment" (JObj []) ;;
    gen <- Py.get cls0 "genre" (JObj []) ;;
    sub <- Py.get cls0 "subGenre" (JObj []) ;;
    segment <- Py.get_or_str seg "name" ;;
    genre <- Py.get_or_str gen "name" ;;
    sub_genre <- Py.get_or_str sub "name" ;;
    ret (drop_undefined segment, drop_undefined genre, drop_undefined sub_genre)
  else ret (JStr "", JStr "", JStr "").

(** [sorted(images_data, key=lambda i: i.get("width", 0), reverse=True)]:
    the keys of all items are computed, then the items are ordered. *)
Definition sorted_images (images_data : json) : result (list json) :=
  items <- Py.iter images_data ;;
  keys <- mapM (fun i => Py.get i "width" (JInt 0)) items ;;
  sorted_desc (combine keys items).

(** [for img in sorted_images], with [seen_ratios] as it stands on entry;
    the result is what the loop appends to [image_urls]. *)
Fixpoint pick_images (seen_ratios : list json) (imgs : list json)
  : result (list json) :=
  match imgs with
  | [] => Ok []
  | img :: rest =>
      ratio <- Py.get img "ratio" (JStr "") ;;
      url <- Py.get img "url" (JStr "") ;;
      if Py.truthy url then
        if negb (Py.hashable ratio) then Raise TypeError
        else if existsb (Py.eqb ratio) seen_ratios then pick_images seen_ratios rest
        else urls <- pick_images (ratio :: seen_ratios) rest ;; ret (url :: urls)
      else pick_images seen_ratios rest
  end.

Definition image_fields (event : json) : result (list json) :=
  images_data <- Py.get event "images" (JArr []) ;;
  sorted <- sorted_images images_data ;;
  pick_images [] sorted.

(** [_event_to_record]; [now] is what [_now_iso()] returns when the record
    is built.  The statements run in the order of the source, then the
    keyword arguments are evaluated in order, then the class validates
    them. *)
Definition _event_to_record (now : string) (event : json)
  : result EventRecord.t :=
  (* Dates *)
  dates <- Py.get event "dates" (JObj []) ;;
  start <- Py.get dates "start" (JObj []) ;;
  status_data <- Py.get dates "status" (JObj []) ;;
  (* Price ranges *)
  prices <- price_fields event ;;
  let '(price_min, price_max, price_currency) := prices in
  (* Venue (from _embedded) *)
  embedded <- Py.get event "_embedded" (JObj []) ;;
  venues <- Py.get embedded "venues" (JArr []) ;;
  venue <- (if Py.truthy venues then Py.index0 venues else Ok (JObj [])) ;;
  venue_loc <- Py.get venue "location" (JObj []) ;;
  (* Attractions *)
  attractions_data <- Py.get embedded "attractions" (JArr []) ;;
  attraction_items <- Py.iter attractions_data ;;
  attraction_names <- collect_truthy "name" attraction_items ;;
  (* Classifications *)
  classification <- classification_fields event ;;
  let '(segment, genre, sub_genre) := classification in
  (* Sales *)
  sales <- Py.get event "sales" (JObj []) ;;
  public_sale <- Py.get sales "public" (JObj []) ;;
  presales_data <- Py.get sales "presales" (JArr []) ;;
  presale_items <- Py.iter presales_data ;;
  presales <- mapM presale_of presale_items ;;
  (* Promoter *)
  promoter_data <- Py.get event "promoter" (JObj []) ;;
  promoter_name <- Py.get_or_str promoter_data "name" ;;
  (* Seatmap *)
  seatmap <- Py.get event "seatmap" (JObj []) ;;
  (* Images *)
  image_urls <- image_fields event ;;
  (* Venue details *)
  venue_address_obj <- Py.get venue "address" (JObj []) ;;
  venue_city_obj <- Py.get venue "city" (JObj []) ;;
  venue_state_obj <- Py.get venue "state" (JObj []) ;;
  venue_country_obj <- Py.get venue "country" (JObj []) ;;
  (* the keyword arguments of EventRecord(...) *)
  event_name <- Py.get_or_str event "name" ;;
  event_id <- Py.get_or_str event "id" ;;
  event_url <- Py.get_or_str event "url" ;;
  local_date <- Py.get_or_str start "localDate" ;;
  local_time <- Py.get_or_str start "localTime" ;;
  datetime_utc <- Py.get_or_str start "dateTime" ;;
  timezone <- Py.get_or_str dates "timezone" ;;
  status <- Py.get_or_str status_data "code" ;;
  venue_name <- Py.get_or_str venue "name" ;;
  venue_id <- Py.get_or_str venue "id" ;;
  venue_city <- Py.get_or_str venue_city_obj "name" ;;
  venue_state <- Py.get_or_str venue_state_obj "name" ;;
  venue_country <- Py.get_or_str venue_country_obj "name" ;;
  venue_address <- Py.get_or_str venue_address_obj "line1" ;;
  venue_postal_code <- Py.get_or_str venue "postalCode" ;;
  lat <- Py.get venue_loc "latitude" JNull ;;
  venue_latitude <- _safe_float lat ;;
  lon <- Py.get venue_loc "longitude" JNull ;;
  venue_longitude <- _safe_float lon ;;
  public_sale_start <- Py.get_or_str public_sale "startDateTime" ;;
  public_sale_end <- Py.get_or_str public_sale "endDateTime" ;;
  seatmap_url <- Py.get_or_str seatmap "staticUrl" ;;
  info <- Py.get_or_str event "info" ;;
  please_note <- Py.get_or_str event "pleaseNote" ;;
  ticket_limit_obj <- Py.get event "ticketLimit" (JObj []) ;;
  ticket_limit <- Py.get_or_str (Py.or_ ticket_limit_obj (JObj [])) "info" ;;
  accessibility_obj <- Py.get event "accessibility" (JObj []) ;;
  accessibility_info <-
    Py.get_or_str (Py.or_ accessibility_obj (JObj [])) "info" ;;
  (* validation by the class; schema_version and type are not passed *)
  event_name <- validate_str event_name ;;
  event_id <- validate_str event_id ;;
  event_url <- validate_str event_url ;;
  local_date <- validate_str local_date ;;
  local_time <- validate_str local_time ;;
  datetime_utc <- validate_str datetime_utc ;;
  timezone <- validate_str timezone ;;
  status <- validate_str status ;;
  price_min <- validate_float price_min ;;
  price_max <- validate_float price_max ;;
  price_currency <- validate_str price_currency ;;
  venue_name <- validate_str venue_name ;;
  venue_id <- validate_str venue_id ;;
  venue_city <- validate_str venue_city ;;
  venue_state <- validate_str venue_state ;;
  venue_country <- validate_str venue_country ;;
  venue_address <- validate_str venue_address ;;
  venue_postal_code <- validate_str venue_postal_code ;;
  attractions <- validate_str_list attraction_names ;;
  segment <- validate_str segment ;;
  genre <- validate_str genre ;;
  sub_genre <- validate_str sub_genre ;;
  public_sale_start <- validate_str public_sale_start ;;
  public_sale_end <- validate_str public_sale_end ;;
  promoter <- validate_str promoter_name ;;
  seatmap_url <- validate_str seatmap_url ;;
  images <- validate_str_list image_urls ;;
  info <- validate_str info ;;
  please_note <- validate_str please_note ;;
  ticket_limit <- validate_str ticket_limit ;;
  accessibility_info <- validate_str accessibility_info ;;
  ret {| EventRecord.schema_version := EventRecord.schema_version EventRecord.default;
         EventRecord.type := EventRecord.type EventRecord.default;
         EventRecord.event_name := event_name;
         EventRecord.event_id := event_id;
         EventRecord.event_url := event_url;
         EventRecord.local_date := local_date;
         EventRecord.local_time := local_time;
         EventRecord.datetime_utc := datetime_utc;
         EventRecord.timezone := timezone;
         EventRecord.status := status;
         EventRecord.price_min := price_min;
         EventRecord.price_max := price_max;
         EventRecord.price_currency := price_currency;
         EventRecord.venue_name := venue_name;
         EventRecord.venue_id := venue_id;
         EventRecord.venue_city := venue_city;
         EventRecord.venue_state := venue_state;
         EventRecord.venue_country := venue_country;
         EventRecord.venue_address := venue_address;
         EventRecord.venue_postal_code := venue_postal_code;
         EventRecord.venue_latitude := venue_latitude;
         EventRecord.venue_longitude := venue_longitude;
         EventRecord.attractions := attractions;
         EventRecord.segment := segment;
         EventRecord.genre := genre;
         EventRecord.sub_genre := sub_genre;
         EventRecord.public_sale_start := public_sale_start;
         EventRecord.public_sale_end := public_sale_end;
         EventRecord.presales := presales;
         EventRecord.promoter := promoter;
         EventRecord.seatmap_url := seatmap_url;
         EventRecord.images := images;
         EventRecord.info := info;
         EventRecord.please_note := please_note;
         EventRecord.ticket_limit := ticket_limit;
         EventRecord.accessibility_info := accessibility_info;
         EventRecord.source := "ticketmaster";
         EventRecord.scraped_at := now |}.

(** [EventRecord(event_name=..., event_id=..., scraped_at=...)]: the record
    of the not-found case; every other field keeps its default. *)
Definition not_found_record (event_name event_id now : string) : EventRecord.t :=
  let d := EventRecord.default in
  {| EventRecord.schema_version := EventRecord.schema_version d;
     EventRecord.type := EventRecord.type d;
     EventRecord.event_name := event_name;
     EventRecord.event_id := event_id;
     EventRecord.event_url := EventRecord.event_url d;
     EventRecord.local_date := EventRecord.local_date d;
     EventRecord.local_time := EventRecord.local_time d;
     EventRecord.datetime_utc := EventRecord.datetime_utc d;
     EventRecord.timezone := EventRecord.timezone d;
     EventRecord.status := EventRecord.status d;
     EventRecord.price_min := EventRecord.price_min d;
     EventRecord.price_max := EventRecord.price_max d;
     EventRecord.price_currency := EventRecord.price_currency d;
     EventRecord.venue_name := EventRecord.venue_name d;
     EventRecord.venue_id := EventRecord.venue_id d;
     EventRecord.venue_city := EventRecord.venue_city d;
     EventRecord.venue_state := EventRecord.venue_state d;
     EventRecord.venue_country := EventRecord.venue_country d;
     EventRecord.venue_address := EventRecord.venue_address d;
     EventRecord.venue_postal_code := EventRecord.venue_postal_code d;
     EventRecord.venue_latitude := EventRecord.venue_latitude d;
     EventRecord.venue_longitude := EventRecord.venue_longitude d;
     EventRecord.attractions := EventRecord.attractions d;
     EventRecord.segment := EventRecord.segment d;
     EventRecord.genre := EventRecord.genre d;
     EventRecord.sub_genre := EventRecord.sub_genre d;
     EventRecord.public_sale_start := EventRecord.public_sale_start d;
     EventRecord.public_sale_end := EventRecord.public_sale_end d;
     EventRecord.presales := EventRecord.presales d;
     EventRecord.promoter := EventRecord.promoter d;
     EventRecord.seatmap_url := EventRecord.seatmap_url d;
     EventRecord.images := EventRecord.images d;
     EventRecord.info := EventRecord.info d;
     EventRecord.please_note := EventRecord.please_note d;
     EventRecord.ticket_limit := EventRecord.ticket_limit d;
     EventRecord.accessibility_info := EventRecord.accessibility_info d;
     EventRecord.source := EventRecord.source d;
     EventRecord.scraped_at := now |}.

(** [_venue_to_record]. *)
Definition _venue_to_record (now : string) (venue : json)
  : result VenueRecord.t :=
  location <- Py.get venue "location" (JObj []) ;;
  address <- Py.get venue "address" (JObj []) ;;
  city_obj <- Py.get venue "city" (JObj []) ;;
  state_obj <- Py.get venue "state" (JObj []) ;;
  country_obj <- Py.get venue "country" (JObj []) ;;
  general_info <- Py.get venue "generalInfo" (JObj []) ;;
  (* Images *)
  images_data <- Py.get venue "images" (JArr []) ;;
  image_items <- Py.iter images_data ;;
  image_urls <- collect_truthy "url" image_items ;;
  (* Upcoming events count *)
  upcoming <- Py.get venue "upcomingEvents" (JObj []) ;;
  upcoming_count <-
    (if Py.is_dict upcoming then Py.get upcoming "_total" (JInt 0)
     else Ok (JInt 0)) ;;
  (* the keyword arguments of VenueRecord(...) *)
  venue_name <- Py.get_or_str venue "name" ;;
  venue_id <- Py.get_or_str venue "id" ;;
  venue_url <- Py.get_or_str venue "url" ;;
  city <- Py.get_or_str city_obj "name" ;;
  state <- Py.get_or_str state_obj "name" ;;
  country <- Py.get_or_str country_obj "name" ;;
  address_line <- Py.get_or_str address "line1" ;;
  postal_code <- Py.get_or_str venue "postalCode" ;;
  lat <- Py.get location "latitude" JNull ;;
  latitude <- _safe_float lat ;;
  lon <- Py.get location "longitude" JNull ;;
  longitude <- _safe_float lon ;;
  timezone <- Py.get_or_str venue "timezone" ;;
  parking_detail <- Py.get_or_str general_info "parkingDetail" ;;
  general_rule <- Py.get_or_str general_info "generalRule" ;;
  child_rule <- Py.get_or_str general_info "childRule" ;;
  accessible_seating_detail <- Py.get_or_str venue "accessibleSeatingDetail" ;;
  (* validation by the class; schema_version and type are not passed *)
  venue_name <- validate_str venue_name ;;
  venue_id <- validate_str venue_id ;;
  venue_url <- validate_str venue_url ;;
  city <- validate_str city ;;
  state <- validate_str state ;;
  country <- validate_str country ;;
  address_line <- validate_str address_line ;;
  postal_code <- validate_str postal_code ;;
  timezone <- validate_str timezone ;;
  parking_detail <- validate_str parking_detail ;;
  general_rule <- validate_str general_rule ;;
  child_rule <- validate_str child_rule ;;
  accessible_seating_detail <- validate_str accessible_seating_detail ;;
  upcoming_events_count <- validate_int upcoming_count ;;
  images <- validate_str_list image_urls ;;
  ret {| VenueRecord.schema_version := VenueRecord.schema_version VenueRecord.default;
         VenueRecord.type := VenueRecord.type VenueRecord.default;
         VenueRecord.venue_name := venue_name;
         VenueRecord.venue_id := venue_id;
         VenueRecord.venue_url := venue_url;
         VenueRecord.city := city;
         VenueRecord.state := state;
         VenueRecord.country := country;
         VenueRecord.address := address_line;
         VenueRecord.postal_code := postal_code;
         VenueRecord.latitude := latitude;
         VenueRecord.longitude := longitude;
         VenueRecord.timezone := timezone;
         VenueRecord.parking_detail := parking_detail;
         VenueRecord.general_info := general_rule;
         VenueRecord.child_rule := child_rule;
         VenueRecord.accessible_seating_detail := accessible_seating_detail;
         VenueRecord.upcoming_events_count := upcoming_events_count;
         VenueRecord.images := images;
         VenueRecord.source := "ticketmaster";
         VenueRecord.scraped_at := now |}.

End Normalizers.

(* ===================================================================== *)
(** ** scraper.py: the world the scraper talks to *)
(* ===================================================================== *)

(** A query parameter: [str | int]. *)
Inductive pval : Type :=
| PStr (s : string)
| PInt (z : Z).

Definition params : Type := list (string * pval).

(** What the code reads of an [httpx.Response]: [status_code],
    [headers.get("Retry-After")], [text], and what [json()] does: it returns
    the decoded document or raises ([JSONDecodeError] for a text that is not
    JSON, [UnicodeDecodeError] for bytes that are not a text). *)
Record Response : Type := {
  status_code : Z;
  retry_after : option string;
  text : string;
  body : result json
}.

(** The outcome of [client.get]: an [httpx.HTTPError] (connection error,
    timeout, ...), which [_api_request] catches; any other exception
    ([httpx.InvalidURL] for a URL with a control character, ...), which it
    does not; or a response. *)
Inductive http_outcome : Type :=
| HTTPError
| Escapes (e : exn)
| Reply (resp : Response).

(** The provider and the clock: [http n url ps] is the outcome of the
    [n]-th GET of the run, [clock k] is what [_now_iso()] returns for the
    record built after [k] records were yielded. *)
Record World : Type := {
  http : nat -> string -> params -> http_outcome;
  clock : nat -> string
}.

(** What the world sees of a run. *)
Inductive effect : Type :=
| RateLimitWait
| HttpGet (url : string) (ps : params)
| Sleep (secs : float).

(** The state of a run: the number of GETs issued, the effects so far in
    the order they happened, and the records yielded so far. *)
Record state : Type := {
  gets : nat;
  trace : list effect;
  yielded : list record
}.

Definition initial : state := {| gets := 0; trace := []; yielded := [] |}.

Definition emit (e : effect) (st : state) : state :=
  {| gets := gets st; trace := trace st ++ [e]; yielded := yielded st |}.

(** [await self._rate_limiter.wait()]. *)
Definition rate_limiter_wait (st : state) : state := emit RateLimitWait st.

(** [asyncio.sleep] comes back from a delay: at once when it is not
    positive, after the delay when it is finite. *)
Definition sleep_returns (secs : float) : bool := PrimFloat.ltb secs infinity.

(** [await asyncio.sleep(secs)].  For positive infinity the timer never
    fires and the coroutine is not resumed; what a NaN does depends on the
    version of Python. *)
Definition sleep (secs : float) (st : state) : result state :=
  if sleep_returns secs then Ok (emit (Sleep secs) st)
  else if PrimFloat.eqb secs infinity then Hangs
  else Unmodelled.

(** [await self._client.get(url, params=params, ...)]. *)
Definition client_get (w : World) (url : string) (ps : params) (st : state)
  : http_outcome * state :=
  (http w (gets st) url ps,
   {| gets := S (gets st);
      trace := trace st ++ [HttpGet url ps];
      yielded := yielded st |}).

(** [yield record.model_dump()]. *)
Definition yield (r : record) (st : state) : state :=
  {| gets := gets st; trace := trace st; yielded := yielded st ++ [r] |}.

(** How a generator ends: it returns, an exception leaves it, its input is
    outside the model, the model's loop bound was too small (which
    [search_loop_fuel] excludes), or it does not end: it awaits something
    that never completes. *)
Inductive ending : Type :=
| Finished
| Failed (e : exn)
| NotModelled
| OutOfFuel
| Hung.

(* ===================================================================== *)
(** ** scraper.py: EventTicketScraper *)
(* ===================================================================== *)

Definition _TM_BASE : string := "https://app.ticketmaster.com/discovery/v2".
Definition _TM_PAGE_SIZE : Z := 200.
Definition _TM_DEEP_PAGE_LIMIT : Z := 1000.

Definition _MAX_RETRIES : nat := 3.
Definition _BACKOFF_SECS : list float := [5%float; 15%float; 30%float].

Section Scraper.

Context {host : Host}.
Variable world : World.
Variable config : ScraperInput.t.

(** [self._BACKOFF_SECS[attempt]]. *)
Definition backoff_secs (attempt : nat) : result float :=
  match nth_error _BACKOFF_SECS attempt with
  | Some w => Ok w
  | None => Raise IndexError
  end.

(** The wait before the retry that follows a 429 on [attempt]. *)
Definition wait_secs (resp : Response) (attempt : nat) : result float :=
  match retry_after resp with
  | Some h =>
      if Str.truthy h then
        match float_of_str h with
        | Some f => Ok f
        | None => backoff_secs attempt
        end
      else backoff_secs attempt
  | None => backoff_secs attempt
  end.

(** [for attempt in ...] of [_api_request], on the attempts still to make;
    [Ok None] is the failure sentinel. *)
Fixpoint attempt_loop (url : string) (ps : params) (attempts : list nat)
  (st : state) : result (option Response) * state :=
  match attempts with
  | [] => (Ok None, st)
  | attempt :: rest =>
      let st := rate_limiter_wait st in
      let '(o, st) := client_get world url ps st in
      match o with
      | HTTPError => (Ok None, st)
      | Escapes e => (Raise e, st)
      | Reply resp =>
          if status_code resp =? 401 then (Ok None, st)
          else if status_code resp =? 400 then (Ok None, st)
          else if negb (status_code resp =? 429) then (Ok (Some resp), st)
          else if (_MAX_RETRIES <=? attempt)%nat then (Ok None, st)
          else
            match wait_secs resp attempt with
            | Ok w =>
                match sleep w st with
                | Ok st => attempt_loop url ps rest st
                | Raise e => (Raise e, st)
                | Unmodelled => (Unmodelled, emit (Sleep w) st)
                | Hangs => (Hangs, emit (Sleep w) st)
                end
            | Raise e => (Raise e, st)
            | Unmodelled => (Unmodelled, st)
            | Hangs => (Hangs, st)
            end
      end
  end.

Definition _api_request (endpoint : string) (ps : params) (st : state)
  : result (option Response) * state :=
  let ps := dict_set "apikey" (PStr (ScraperInput.api_key config)) ps in
  let url := _TM_BASE ++ "/" ++ endpoint in
  attempt_loop url ps (seq 0 (_MAX_RETRIES + 1)) st.

(** [if value.strip(): params[k] = value.strip()]. *)
Definition add_filter (k : string) (value : string) (ps : params) : params :=
  if Str.truthy (Str.strip value) then dict_set k (PStr (Str.strip value)) ps
  else ps.

(** [if config.radius is not None: ...]. *)
Definition add_radius (ps : params) : params :=
  match ScraperInput.radius config with
  | Some r => dict_set "unit" (PStr (ScraperInput.unit config))
                (dict_set "radius" (PInt r) ps)
  | None => ps
  end.

Definition page_params (page_size page : Z) : params :=
  [("size", PInt page_size); ("page", PInt page)].

(** The filters both searches send. *)
Definition location_params (page_size page : Z) : params :=
  add_radius
    (add_filter "latlong" (ScraperInput.latlong config)
    (add_filter "postalCode" (ScraperInput.postal_code config)
    (add_filter "countryCode" (ScraperInput.country_code config)
    (add_filter "stateCode" (ScraperInput.state_code config)
    (add_filter "city" (ScraperInput.city config)
    (add_filter "keyword" (ScraperInput.keyword config)
    (page_params page_size page))))))).

Definition venue_params (page_size page : Z) : params :=
  location_params page_size page.

Definition event_params (page_size page : Z) : params :=
  add_filter "includeFamily" (ScraperInput.include_family config)
    (add_filter "source" (ScraperInput.source config)
    (add_filter "sort" (ScraperInput.sort config)
    (add_filter "endDateTime" (ScraperInput.end_date_time config)
    (add_filter "startDateTime" (ScraperInput.start_date_time config)
    (add_filter "classificationName" (ScraperInput.classification_name config)
    (location_params page_size page)))))).

(** [resp.json()]. *)
Definition resp_json (resp : Response) : result json := body resp.

(** From [data = resp.json()] to the start of the [for] loop: [None] is the
    [break] on a missing collection, otherwise the items to run over and
    [page_info]. *)
Definition read_page (key : string) (resp : Response)
  : result (option (list json * json)) :=
  data <- resp_json resp ;;
  embedded <- Py.get data "_embedded" JNull ;;
  found <- (if Py.truthy embedded then Py.contains key embedded else Ok false) ;;
  if negb found then ret None
  else
    items <- Py.getitem embedded key ;;
    page_info <- Py.get data "page" (JObj []) ;;
    total_elements <- Py.get page_info "totalElements" (JInt 0) ;;
    n <- Py.len items ;;
    elements <- Py.iter items ;;
    ret (Some (elements, page_info)).

(** The [for] loop over the items of a page: [inl e] when the generator
    ends inside the loop, [inr total_yielded] when the loop runs out. *)
Fixpoint yield_items (normalize : string -> json -> result record)
  (items : list json) (total_yielded : Z) (st : state)
  : (ending + Z) * state :=
  match items with
  | [] => (inr total_yielded, st)
  | item :: rest =>
      if total_yielded >=? ScraperInput.max_results config then (inl Finished, st)
      else
        match normalize (clock world (List.length (yielded st))) item with
        | Ok r => yield_items normalize rest (total_yielded + 1) (yield r st)
        | Raise e => (inl (Failed e), st)
        | Unmodelled => (inl NotModelled, st)
        | Hangs => (inl Hung, st)
        end
  end.

(** The [while] loop of [_search_events] and of [_search_venues]: the two
    differ in the endpoint, the key of the embedded collection, the filters
    and the normalizer.  [fuel] bounds the number of iterations. *)
Fixpoint search_loop (fuel : nat) (endpoint key : string)
  (build : Z -> Z -> params) (normalize : string -> json -> result record)
  (page total_yielded : Z) (st : state) : ending * state :=
  match fuel with
  | O => (OutOfFuel, st)
  | S fuel' =>
      let max_results := ScraperInput.max_results config in
      if negb (total_yielded <? max_results) then (Finished, st)
      else
        let remaining := max_results - total_yielded in
        let page_size := Z.min _TM_PAGE_SIZE remaining in
        if page_size * page >=? _TM_DEEP_PAGE_LIMIT then (Finished, st)
        else
          let '(r, st) := _api_request endpoint (build page_size page) st in
          match r with
          | Raise e => (Failed e, st)
          | Unmodelled => (NotModelled, st)
          | Hangs => (Hung, st)
          | Ok None => (Finished, st)
          | Ok (Some resp) =>
              if negb (status_code resp =? 200) then (Finished, st)
              else
                match read_page key resp with
                | Raise e => (Failed e, st)
                | Unmodelled => (NotModelled, st)
                | Hangs => (Hung, st)
                | Ok None => (Finished, st)
                | Ok (Some (items, page_info)) =>
                    match yield_items normalize items total_yielded st with
                    | (inl e, st) => (e, st)
                    | (inr total_yielded, st) =>
                        let page := page + 1 in
                        match (total_pages <- Py.get page_info "totalPages" (JInt 0) ;;
                               Py.int_ge page total_pages) with
                        | Raise e => (Failed e, st)
                        | Unmodelled => (NotModelled, st)
                        | Hangs => (Hung, st)
                        | Ok true => (Finished, st)
                        | Ok false =>
                            search_loop fuel' endpoint key build normalize
                              page total_yielded st
                        end
                    end
                end
          end
  end.

(** Enough iterations: the page index grows by one per iteration and the
    deep-paging guard stops the loop before it reaches the limit. *)
Definition search_fuel : nat := S (Z.to_nat _TM_DEEP_PAGE_LIMIT).

Definition event_record (now : string) (j : json) : result record :=
  r <- _event_to_record now j ;; ret (Event r).

Definition venue_record (now : string) (j : json) : result record :=
  r <- _venue_to_record now j ;; ret (Venue r).

Definition _search_events (st : state) : ending * state :=
  search_loop search_fuel "events.json" "events" event_params event_record 0 0 st.

Definition _search_venues (st : state) : ending * state :=
  search_loop search_fuel "venues.json" "venues" venue_params venue_record 0 0 st.

Definition _get_event (st : state) : ending * state :=
  let event_id := Str.strip (ScraperInput.event_id config) in
  let '(r, st) := _api_request ("events/" ++ event_id ++ ".json") [] st in
  match r with
  | Raise e => (Failed e, st)
  | Unmodelled => (NotModelled, st)
  | Hangs => (Hung, st)
  | Ok None => (Finished, st)
  | Ok (Some resp) =>
      if status_code resp =? 404 then
        (Finished,
         yield (Event (not_found_record ("Event not found: " ++ event_id) event_id
                         (clock world (List.length (yielded st))))) st)
      else if negb (status_code resp =? 200) then (Finished, st)
      else
        match (event_data <- resp_json resp ;;
               event_record (clock world (List.length (yielded st))) event_data) with
        | Ok r => (Finished, yield r st)
        | Raise e => (Failed e, st)
        | Unmodelled => (NotModelled, st)
        | Hangs => (Hung, st)
        end
  end.

Definition run (st : state) : ending * state :=
  let mode := ScraperInput.mode config in
  if (mode =? "search")%string then _search_events st
  else if (mode =? "get_event")%string then _get_event st
  else if (mode =? "venues")%string then _search_venues st
  else (Finished, st).

End Scraper.

(* ===================================================================== *)
(** ** A host to run the model on *)
(* ===================================================================== *)

(** The value of a string of decimal digits. *)
Fixpoint digits_value (s : string) (acc : Z) : option Z :=
  match s with
  | EmptyString => Some acc
  | String c s' =>
      let n := N_of_ascii c in
      if ((48 <=? n) && (n <=? 57))%N
      then digits_value s' (acc * 10 + Z.of_N (n - 48))
      else None
  end.

(** [float(s)] on the non-empty strings of decimal digits, where it is the
    integer rounded to nearest even (an infinity when it is too large), and
    on "inf", where it is positive infinity.  Every other string is refused
    here, also those that Python reads (a sign, a fraction, an exponent):
    the samples below hold none of them. *)
Definition float_of_digits (s : string) : option float :=
  if (s =? "inf")%string then Some infinity
  else
    match s with
    | EmptyString => None
    | _ => match digits_value s 0 with
           | Some z => Some (SF2Prim (binary_normalize 53 1024 z 0 false))
           | None => None
           end
    end.

(** A host to run the samples on: it reads decimal integers and "inf" as
    floats, lets an [int] fill a [float] field when it converts, and converts
    nothing else.  The properties are proved for every host. *)
#[export] Instance digits_host : Host := {|
  float_of_str := float_of_digits;
  float_of_str_empty := eq_refl;
  lax_float := fun v => match v with
                        | JInt z => match float_of_int z with
                                    | Ok f => Some f
                                    | _ => None
                                    end
                        | _ => None
                        end;
  lax_int := fun _ => None
|}.

(** A world that answers every request with the same outcome. *)
Definition constant_world (o : http_outcome) : World :=
  {| http := fun _ _ _ => o; clock := fun _ => "2024-01-01T00:00:00+00:00" |}.

(* ===================================================================== *)
(** ** models.py: from_actor_input *)
(* ===================================================================== *)

(** The bounds of [max_results]: [Field(default=100, ge=1, le=1000)]. *)
Definition validate_max_results {host : Host} (v : json) : result Z :=
  z <- validate_int v ;;
  if (1 <=? z) && (z <=? 1000) then Ok z else Raise ValidationError.

(** The bounds of [request_interval_secs]:
    [Field(default=0.5, ge=0.2, le=5.0)]; a NaN satisfies neither. *)
Definition validate_interval {host : Host} (v : json) : result float :=
  f <- validate_float v ;;
  if PrimFloat.leb 0x1.999999999999ap-3%float f && PrimFloat.leb f 5%float
  then Ok f else Raise ValidationError.

(** A field of type [int | None]. *)
Definition validate_optional_int {host : Host} (v : json) : result (option Z) :=
  match v with
  | JNull => Ok None
  | _ => z <- validate_int v ;; ret (Some z)
  end.

(** [ScraperInput.from_actor_input]: the keyword arguments are read from
    [raw] in order, then the class validates them. *)
Definition from_actor_input {host : Host} (raw : json) : result ScraperInput.t :=
  api_key <- Py.get raw "apiKey" (JStr "") ;;
  mode <- Py.get raw "mode" (JStr "search") ;;
  keyword <- Py.get raw "keyword" (JStr "") ;;
  event_id <- Py.get raw "eventId" (JStr "") ;;
  city <- Py.get raw "city" (JStr "") ;;
  state_code <- Py.get raw "stateCode" (JStr "") ;;
  country_code <- Py.get raw "countryCode" (JStr "") ;;
  postal_code <- Py.get raw "postalCode" (JStr "") ;;
  latlong <- Py.get raw "latlong" (JStr "") ;;
  radius <- Py.get raw "radius" JNull ;;
  unit <- Py.get raw "unit" (JStr "miles") ;;
  classification_name <- Py.get raw "classificationName" (JStr "") ;;
  start_date_time <- Py.get raw "startDateTime" (JStr "") ;;
  end_date_time <- Py.get raw "endDateTime" (JStr "") ;;
  sort <- Py.get raw "sort" (JStr "relevance,desc") ;;
  source <- Py.get raw "source" (JStr "") ;;
  include_family <- Py.get raw "includeFamily" (JStr "") ;;
  max_results <- Py.get raw "maxResults" (JInt 100) ;;
  request_interval_secs <- Py.get raw "requestIntervalSecs" (JFloat 0.5) ;;
  (* validation by the class *)
  api_key <- validate_str api_key ;;
  mode <- validate_str mode ;;
  keyword <- validate_str keyword ;;
  event_id <- validate_str event_id ;;
  city <- validate_str city ;;
  state_code <- validate_str state_code ;;
  country_code <- validate_str country_code ;;
  postal_code <- validate_str postal_code ;;
  latlong <- validate_str latlong ;;
  radius <- validate_optional_int radius ;;
  unit <- validate_str unit ;;
  classification_name <- validate_str classification_name ;;
  start_date_time <- validate_str start_date_time ;;
  end_date_time <- validate_str end_date_time ;;
  sort <- validate_str sort ;;
  source <- validate_str source ;;
  include_family <- validate_str include_family ;;
  max_results <- validate_max_results max_results ;;
  request_interval_secs <- validate_interval request_interval_secs ;;
  ret {| ScraperInput.api_key := api_key;
         ScraperInput.mode := mode;
         ScraperInput.keyword := keyword;
         ScraperInput.event_id := event_id;
         ScraperInput.city := city;
         ScraperInput.state_code := state_code;
         ScraperInput.country_code := country_code;
         ScraperInput.postal_code := postal_code;
         ScraperInput.latlong := latlong;
         ScraperInput.radius := radius;
         ScraperInput.unit := unit;
         ScraperInput.classification_name := classification_name;
         ScraperInput.start_date_time := start_date_time;
         ScraperInput.end_date_time := end_date_time;
         ScraperInput.sort := sort;
         ScraperInput.source := source;
         ScraperInput.include_family := include_family;
         ScraperInput.max_results := max_results;
         ScraperInput.request_interval_secs := request_interval_secs |}.

(* ===================================================================== *)
(** ** main.py: the actor entry point *)
(* ===================================================================== *)

Definition _FREE_TIER_LIMIT : Z := 25.
Definition _BATCH_SIZE : Z := 25.

(** What the platform hands to [main]: the actor input ([None] is [JNull]),
    the environment, and the state saved by an earlier run of the same
    actor ([None] when there is none; the only key the code writes is
    "total_pushed", an [int]). *)
Record Platform : Type := {
  get_input : json;
  getenv : string -> option string;
  saved_state : option (list (string * Z))
}.

(** The calls [main] makes on the platform, in order. *)
Inductive actor_effect : Type :=
| SetStatusMessage (msg : string)
| Fail (msg : string)
| PushData (items : list record)
| SaveTotalPushed (n : Z).

(** [str.lower()] of a character (code points below 256): A-Z and the
    capital letters of Latin-1. *)
Definition lower_char (c : ascii) : ascii :=
  let n := N_of_ascii c in
  if (((65 <=? n) && (n <=? 90))
      || ((192 <=? n) && (n <=? 222) && negb (n =? 215)))%N
  then ascii_of_N (n + 32) else c.

Fixpoint lower (s : string) : string :=
  match s with
  | EmptyString => EmptyString
  | String c s' => String (lower_char c) (lower s')
  end.

(** [os.getenv(name, "").lower() in ("1", "true")]. *)
Definition env_flag (p : Platform) (name : string) : bool :=
  let value := match getenv p name with Some v => v | None => "" end in
  Str.one_of (lower value) ["1"; "true"].

(** [f"{n}"] for an [int]. *)
Definition str_of_int (n : Z) : string := NilZero.string_of_int (Z.to_int n).

(** [batch[:remaining]]: a negative bound counts from the end. *)
Definition slice_to {A : Type} (remaining : Z) (batch : list A) : list A :=
  if 0 <=? remaining then firstn (Z.to_nat remaining) batch
  else firstn (List.length batch - Z.to_nat (- remaining)) batch.

(** The variables of the push loop: [total_pushed], [batch], and the
    platform calls made so far. *)
Record pusher : Type := {
  total_pushed : Z;
  batch : list record;
  calls : list actor_effect
}.

(** [flush = batch[:remaining]; push_data(flush); total_pushed += len(flush);
    state["total_pushed"] = total_pushed]. *)
Definition push_batch (max_results : Z) (s : pusher) : pusher :=
  let remaining := max_results - total_pushed s in
  let flush := slice_to remaining (batch s) in
  let total := total_pushed s + Z.of_nat (List.length flush) in
  {| total_pushed := total;
     batch := batch s;
     calls := calls s ++ [PushData flush; SaveTotalPushed total] |}.

Definition item_type (config : ScraperInput.t) : string :=
  if negb (ScraperInput.mode config =? "venues")%string
  then "event(s)" else "venue(s)".

(** The body of [async for record in scraper.run()], over the records the
    generator yields; [true] when the loop left through [break]. *)
Fixpoint push_loop (config : ScraperInput.t) (max_results : Z)
  (records : list record) (s : pusher) : bool * pusher :=
  match records with
  | [] => (false, s)
  | record :: rest =>
      if total_pushed s >=? max_results then (true, s)
      else
        let s := {| total_pushed := total_pushed s;
                    batch := batch s ++ [record];
                    calls := calls s |} in
        if Z.of_nat (List.length (batch s)) >=? _BATCH_SIZE then
          let s := push_batch max_results s in
          let s := {| total_pushed := total_pushed s;
                      batch := [];
                      calls := calls s ++
                        [SetStatusMessage
                           ("Found " ++ str_of_int (total_pushed s) ++ " "
                            ++ item_type config ++ "...")] |} in
          if total_pushed s >=? max_results then (true, s)
          else push_loop config max_results rest s
        else push_loop config max_results rest s
  end.

(** [mode_desc.get(config.mode, 'Processing')]. *)
Definition mode_desc (config : ScraperInput.t) : string :=
  let mode := ScraperInput.mode config in
  if (mode =? "search")%string
  then "Searching events for '" ++ ScraperInput.keyword config ++ "'"
  else if (mode =? "get_event")%string
  then "Looking up event: " ++ ScraperInput.event_id config
  else if (mode =? "venues")%string
  then "Searching venues for '" ++ ScraperInput.keyword config ++ "'"
  else "Processing".

(** The result cap of a run: the configured one, lowered to the free tier
    limit for a user who runs on the platform without paying. *)
Definition result_limit (p : Platform) (config : ScraperInput.t) : Z :=
  let is_at_home := env_flag p "APIFY_IS_AT_HOME" in
  let is_paying := env_flag p "APIFY_USER_IS_PAYING" in
  if is_at_home && negb is_paying
  then Z.min (ScraperInput.max_results config) _FREE_TIER_LIMIT
  else ScraperInput.max_results config.

(** [state.get("total_pushed", 0)] on the state [use_state] returns. *)
Definition resumed_total (p : Platform) : Z :=
  let state := match saved_state p with
               | Some d => d
               | None => [("total_pushed", 0)]
               end in
  match lookup "total_pushed" state with Some n => n | None => 0 end.

(** [main], from the validated configuration on: the status message, the
    push loop over the records of [scraper.run()], the last flush.  The
    generator is pulled one record at a time: when the loop breaks, what the
    generator would have done next never happens; when the loop runs out of
    records and the generator ended with an exception, the exception leaves
    [main] before the last flush. *)
Definition scrape_and_push {host : Host} (p : Platform) (w : World)
  (config : ScraperInput.t) : ending * list actor_effect :=
  let max_results := result_limit p config in
  let s := {| total_pushed := resumed_total p;
              batch := [];
              calls := [SetStatusMessage
                          (mode_desc config ++ " (max " ++ str_of_int max_results
                           ++ " results)...")] |} in
  let '(ended, st) := run w config initial in
  let '(broke, s) := push_loop config max_results (yielded st) s in
  let finish (s : pusher) : ending * list actor_effect :=
    let s := if (match batch s with [] => false | _ => true end)
                && (total_pushed s <? max_results)
             then push_batch max_results s else s in
    (Finished,
     (calls s ++ [SetStatusMessage
                    ("Done! Found " ++ str_of_int (total_pushed s) ++ " "
                     ++ item_type config ++ ".")])%list) in
  if broke then finish s
  else match ended with
       | Finished => finish s
       | _ => (ended, calls s)
       end.

(** [main]. *)
Definition main {host : Host} (p : Platform) (w : World)
  : ending * list actor_effect :=
  let actor_input := Py.or_ (get_input p) (JObj []) in
  match from_actor_input actor_input with
  | Raise e => (Failed e, [])
  | Unmodelled => (NotModelled, [])
  | Hangs => (Hung, [])
  | Ok config =>
      match ScraperInput.validate_input config with
      | Some validation_error =>
          if Str.truthy validation_error then
            (Finished,
             [SetStatusMessage ("Error: " ++ validation_error);
              Fail validation_error])
          else scrape_and_push p w config
      | None => scrape_and_push p w config
      end
  end.

(* ===================================================================== *)
(** ** The vocabulary of the properties, and sample inputs *)
(* ===================================================================== *)

(** The default configuration in venues mode: the API key is empty. *)
Definition keyless_venues : ScraperInput.t :=
  let d := ScraperInput.default in
  {| ScraperInput.api_key := "";
     ScraperInput.mode := "venues";
     ScraperInput.keyword := ScraperInput.keyword d;
     ScraperInput.event_id := ScraperInput.event_id d;
     ScraperInput.city := ScraperInput.city d;
     ScraperInput.state_code := ScraperInput.state_code d;
     ScraperInput.country_code := ScraperInput.country_code d;
     ScraperInput.postal_code := ScraperInput.postal_code d;
     ScraperInput.latlong := ScraperInput.latlong d;
     ScraperInput.radius := ScraperInput.radius d;
     ScraperInput.unit := ScraperInput.unit d;
     ScraperInput.classification_name := ScraperInput.classification_name d;
     ScraperInput.start_date_time := ScraperInput.start_date_time d;
     ScraperInput.end_date_time := ScraperInput.end_date_time d;
     ScraperInput.sort := ScraperInput.sort d;
     ScraperInput.source := ScraperInput.source d;
     ScraperInput.include_family := ScraperInput.include_family d;
     ScraperInput.max_results := ScraperInput.max_results d;
     ScraperInput.request_interval_secs := ScraperInput.request_interval_secs d |}.

(** The wait the retry policy prescribes after a 429 on [attempt]: the
    Retry-After header parsed as seconds, and the schedule 5s, 15s, 30s when
    the header is absent or does not parse. *)
Definition retry_wait {host : Host} (resp : Response) (attempt : nat) : float :=
  let schedule := nth attempt [5%float; 15%float; 30%float] 0%float in
  match retry_after resp with
  | Some h => match float_of_str h with
              | Some f => f
              | None => schedule
              end
  | None => schedule
  end.

(** The state after [n] more GETs whose effects, in order, are [es]. *)
Definition after (st : state) (n : nat) (es : list effect) : state :=
  {| gets := gets st + n; trace := trace st ++ es; yielded := yielded st |}.

(** A provider that throttles every request: the first answer carries a
    Retry-After of 7 seconds, the third one that does not parse, the others
    none. *)
Definition throttled (n : nat) : Response :=
  {| status_code := 429;
     retry_after := match n with
                    | 0%nat => Some "7"
                    | 2%nat => Some "soon"
                    | _ => None
                    end;
     text := "";
     body := Raise JSONDecodeError |}.

(** The provider that answers the [n]-th GET with [throttled n]. *)
Definition throttling_world : World :=
  {| http := fun n _ _ => Reply (throttled n);
     clock := fun _ => "2024-01-01T00:00:00+00:00" |}.

(** A 429 whose Retry-After is "inf", which [float] reads as positive
    infinity. *)
Definition stalled : Response :=
  {| status_code := 429; retry_after := Some "inf"; text := "";
     body := Raise JSONDecodeError |}.

(** What one attempt does with the outcome of its GET when that is not a
    429: the failure sentinel for a transport error, a 401 and a 400, the
    response itself for every other status, and an exception of the client
    that is not a transport error is raised; in all these cases the loop ends
    with this GET. *)
Definition classified (o : http_outcome) (url : string) (ps : params)
  (st : state) (got : result (option Response) * state) : Prop :=
  let st' := after st 1 [RateLimitWait; HttpGet url ps] in
  match o with
  | HTTPError => got = (Ok None, st')
  | Escapes e => got = (Raise e, st')
  | Reply resp =>
      if (status_code resp =? 401) || (status_code resp =? 400)
      then got = (Ok None, st')
      else if status_code resp =? 429 then True
      else got = (Ok (Some resp), st')
  end.

(** The size and the page a request asks for. *)
Definition asks_for (ps : params) (size page : Z) : Prop :=
  lookup "size" ps = Some (PInt size) /\ lookup "page" ps = Some (PInt page).

(** The effects a request for [url] with [ps] may add to the trace. *)
Definition of_request (url : string) (ps : params) (e : effect) : Prop :=
  e = RateLimitWait \/ e = HttpGet url ps \/ exists w, e = Sleep w.

(** A GET stays below the provider's deep-paging ceiling. *)
Definition within_deep_paging (e : effect) : Prop :=
  match e with
  | HttpGet _ ps =>
      exists size page, asks_for ps size page /\ size * page < _TM_DEEP_PAGE_LIMIT
  | _ => True
  end.

(** The records of [items] in order, the [i]-th one stamped by the clock
    read after [k + i] records. *)
Fixpoint normalize_each (w : World) (normalize : string -> json -> result record)
  (k : nat) (items : list json) : result (list record) :=
  match items with
  | [] => Ok []
  | item :: rest =>
      r <- normalize (clock w k) item ;;
      rs <- normalize_each w normalize (S k) rest ;;
      ret (r :: rs)
  end.

(** A search for "rock" capped at 150 results. *)
Definition rock_150 : ScraperInput.t :=
  let d := ScraperInput.default in
  {| ScraperInput.api_key := "key";
     ScraperInput.mode := "search";
     ScraperInput.keyword := "rock";
     ScraperInput.event_id := ScraperInput.event_id d;
     ScraperInput.city := ScraperInput.city d;
     ScraperInput.state_code := ScraperInput.state_code d;
     ScraperInput.country_code := ScraperInput.country_code d;
     ScraperInput.postal_code := ScraperInput.postal_code d;
     ScraperInput.latlong := ScraperInput.latlong d;
     ScraperInput.radius := ScraperInput.radius d;
     ScraperInput.unit := ScraperInput.unit d;
     ScraperInput.classification_name := ScraperInput.classification_name d;
     ScraperInput.start_date_time := ScraperInput.start_date_time d;
     ScraperInput.end_date_time := ScraperInput.end_date_time d;
     ScraperInput.sort := ScraperInput.sort d;
     ScraperInput.source := ScraperInput.source d;
     ScraperInput.include_family := ScraperInput.include_family d;
     ScraperInput.max_results := 150;
     ScraperInput.request_interval_secs := ScraperInput.request_interval_secs d |}.

(** A page of 151 items that claims six more pages; its last item is not an
    object, so that normalizing it would raise. *)
Definition full_page : Response :=
  {| status_code := 200;
     retry_after := None;
     text := "";
     body := Ok (JObj
       [ ("_embedded",
          JObj [("events",
                 JArr (repeat (JObj [("name", JStr "Show")]) 150 ++ [JNull]))]);
         ("page", JObj [("totalElements", JInt 1051); ("totalPages", JInt 7)]) ]) |}.

(** The two fields every record carries besides its data. *)
Definition stamped (d : record) : Prop :=
  record_schema_version d = "1.0"
  /\ record_type d = match d with Event _ => "event" | Venue _ => "venue" end.

(** The name a classification entry gives under [k] ("segment", "genre",
    "subGenre"), when it gives one. *)
Definition class_name (entry : json) (k : string) : option string :=
  match entry with
  | JObj c =>
      match lookup k c with
      | Some (JObj o) =>
          match lookup "name" o with
          | Some (JStr s) => Some s
          | _ => None
          end
      | _ => None
      end
  | _ => None
  end.

(** The provider's placeholder becomes the empty string; any other name is
    kept. *)
Definition undefined_to_empty (s : string) : string :=
  if (s =? "Undefined")%string then "" else s.

(** An event whose first classification names a segment and a sub-genre
    and leaves the genre undefined. *)
Definition first_entry : json :=
  JObj [ ("segment", JObj [("name", JStr "Music")]);
         ("genre", JObj [("name", JStr "Undefined")]);
         ("subGenre", JObj [("name", JStr "Pop")]) ].

(** A second classification entry, which the normalizer does not read. *)
Definition second_entry : json :=
  JObj [ ("segment", JObj [("name", JStr "Sports")]) ].

(** The fields of an event with these two classifications. *)
Definition classified_fields : list (string * json) :=
  [ ("name", JStr "Show");
    ("classifications", JArr [first_entry; second_entry]) ].










(** A lookup of one event. *)
Definition lookup_Z7r9 : ScraperInput.t :=
  let d := ScraperInput.default in
  {| ScraperInput.api_key := "key";
     ScraperInput.mode := "get_event";
     ScraperInput.keyword := ScraperInput.keyword d;
     ScraperInput.event_id := " Z7r9jZ1A7 ";
     ScraperInput.city := ScraperInput.city d;
     ScraperInput.state_code := ScraperInput.state_code d;
     ScraperInput.country_code := ScraperInput.country_code d;
     ScraperInput.postal_code := ScraperInput.postal_code d;
     ScraperInput.latlong := ScraperInput.latlong d;
     ScraperInput.radius := ScraperInput.radius d;
     ScraperInput.unit := ScraperInput.unit d;
     ScraperInput.classification_name := ScraperInput.classification_name d;
     ScraperInput.start_date_time := ScraperInput.start_date_time d;
     ScraperInput.end_date_time := ScraperInput.end_date_time d;
     ScraperInput.sort := ScraperInput.sort d;
     ScraperInput.source := ScraperInput.source d;
     ScraperInput.include_family := ScraperInput.include_family d;
     ScraperInput.max_results := ScraperInput.max_results d;
     ScraperInput.request_interval_secs := ScraperInput.request_interval_secs d |}.

(** A 200 whose body is not a JSON document. *)
Definition html_200 : Response :=
  {| status_code := 200; retry_after := None;
     text := "<html>Service temporarily unavailable</html>";
     body := Raise JSONDecodeError |}.

(** A 404. *)
Definition not_found_404 : Response :=
  {| status_code := 404; retry_after := None; text := "";
     body := Raise JSONDecodeError |}.

(** The effects of [k] throttled attempts of a request, the first of them
    with attempt number [first]: each waits for the rate limiter, issues the
    GET and sleeps for the wait of its response. *)
Definition throttled_rounds {host : Host} (url : string) (ps : params)
  (r : nat -> Response) (first k : nat) : list effect :=
  flat_map (fun i => [RateLimitWait; HttpGet url ps;
                      Sleep (retry_wait (r i) (first + i))])
           (seq 0 k).

(** The effects of a whole request that slept for [ws] between its
    attempts. *)
Definition request_rounds (url : string) (ps : params) (ws : list float)
  : list effect :=
  (flat_map (fun w => [RateLimitWait; HttpGet url ps; Sleep w]) ws
   ++ [RateLimitWait; HttpGet url ps])%list.

(** How a request ends that slept for [ws] between its attempts and then
    issued one more GET: it returns; or that GET raised an exception that is
    not a transport error, which leaves the request; or, when a retry is
    left, it starts a sleep that does not come back (for a NaN the model does
    not say what the sleep does). *)
Definition ended_after (w : World) (url : string) (ps : params) (st : state)
  (ws : list float) (retry : bool) (got : result (option Response) * state)
  : Prop :=
  let st' := after st (S (List.length ws)) (request_rounds url ps ws) in
  (exists r, got = (Ok r, st'))
  \/ (exists e, http w (gets st + List.length ws) url ps = Escapes e
                /\ got = (Raise e, st'))
  \/ (exists secs,
        sleep_returns secs = false
        /\ retry = true
        /\ (got = (Hangs, emit (Sleep secs) st')
            \/ got = (Unmodelled, emit (Sleep secs) st'))).

(** A provider that throttles the first two GETs and then answers 200. *)
Definition recovering_world : World :=
  {| http := fun n _ _ =>
       Reply (match n with
              | 0%nat | 1%nat => throttled n
              | _ => {| status_code := 200; retry_after := None;
                        text := ""; body := Ok (JObj []) |}
              end);
     clock := fun _ => "2024-01-01T00:00:00+00:00" |}.

(** The first request of a search brought no page of results: the client
    gave the failure sentinel, or the response is not a 200, or its body is
    an object whose "_embedded" is missing, falsy, or an object without the
    collection [key]. *)
Definition without_results (key : string) (r : option Response) : Prop :=
  match r with
  | None => True
  | Some resp =>
      status_code resp <> 200
      \/ exists d,
           body resp = Ok (JObj d)
           /\ match lookup "_embedded" d with
              | None => True
              | Some v => Py.truthy v = false
                          \/ exists e, v = JObj e /\ lookup key e = None
              end
  end.

(** The page information says there is no page after the first: it has no
    "totalPages", or an integer that is at most 1. *)
Definition last_page (page_info : list (string * json)) : Prop :=
  match lookup "totalPages" page_info with
  | None => True
  | Some v => exists n, v = JInt n /\ n <= 1
  end.

(** A GET goes to the provider's API and carries the configured key. *)
Definition authenticated (config : ScraperInput.t) (e : effect) : Prop :=
  match e with
  | HttpGet url ps =>
      lookup "apikey" ps = Some (PStr (ScraperInput.api_key config))
      /\ prefix (_TM_BASE ++ "/") url = true
  | _ => True
  end.

(** A page of [n] named events that announces [pages] pages. *)
Definition page_of (n : nat) (pages : Z) : Response :=
  {| status_code := 200;
     retry_after := None;
     text := "";
     body := Ok (JObj
       [ ("_embedded",
          JObj [("events", JArr (repeat (JObj [("name", JStr "Show")]) n))]);
         ("page", JObj [("totalElements", JInt 40); ("totalPages", JInt pages)]) ]) |}.

(** A 200 whose body has no "_embedded". *)
Definition empty_page : Response :=
  {| status_code := 200; retry_after := None; text := "";
     body := Ok (JObj [("page", JObj [("totalElements", JInt 0);
                                        ("totalPages", JInt 0)])]) |}.

(** The records handed to the dataset by a sequence of platform calls, in
    order. *)
Definition pushed_items (calls : list actor_effect) : list record :=
  flat_map (fun c => match c with PushData items => items | _ => [] end) calls.

(** The size of every push satisfies [ok]. *)
Definition push_sizes (ok : nat -> Prop) (calls : list actor_effect) : Prop :=
  Forall (fun c => match c with
                   | PushData items => ok (List.length items)
                   | _ => True
                   end) calls.

(** The records the scraper yields when its generator is run to the end. *)
Definition scraped {host : Host} (w : World) (config : ScraperInput.t)
  : list record :=
  yielded (snd (run w config initial)).

(** The configuration [main] builds from the actor input. *)
Definition configured {host : Host} (p : Platform) (config : ScraperInput.t)
  : Prop :=
  from_actor_input (Py.or_ (get_input p) (JObj [])) = Ok config.

(** The number of records a run may still push: the result limit less what
    an earlier run of the actor pushed. *)
Definition room (p : Platform) (config : ScraperInput.t) : nat :=
  Z.to_nat (result_limit p config - resumed_total p).

(** A platform outside the hosted environment, without saved state. *)
Definition local_platform (input : json) : Platform :=
  {| get_input := input; getenv := fun _ => None; saved_state := None |}.

(** The hosted environment for a user who does not pay. *)
Definition free_platform (input : json) : Platform :=
  {| get_input := input;
     getenv := fun name =>
       if (name =? "APIFY_IS_AT_HOME")%string then Some "1" else None;
     saved_state := None |}.

(** An actor input: a search for "rock" capped at 30 results. *)
Definition rock_30_input : json :=
  JObj [("apiKey", JStr "key"); ("keyword", JStr "rock"); ("maxResults", JInt 30)].

(** An actor input without an API key. *)
Definition keyless_input : json :=
  JObj [("keyword", JStr "rock")].


(** The configuration [rock_30_input] is read as. *)
Definition rock_30 : ScraperInput.t :=
  let d := ScraperInput.default in
  {| ScraperInput.api_key := "key";
     ScraperInput.mode := ScraperInput.mode d;
     ScraperInput.keyword := "rock";
     ScraperInput.event_id := ScraperInput.event_id d;
     ScraperInput.city := ScraperInput.city d;
     ScraperInput.state_code := ScraperInput.state_code d;
     ScraperInput.country_code := ScraperInput.country_code d;
     ScraperInput.postal_code := ScraperInput.postal_code d;
     ScraperInput.latlong := ScraperInput.latlong d;
     ScraperInput.radius := ScraperInput.radius d;
     ScraperInput.unit := ScraperInput.unit d;
     ScraperInput.classification_name := ScraperInput.classification_name d;
     ScraperInput.start_date_time := ScraperInput.start_date_time d;
     ScraperInput.end_date_time := ScraperInput.end_date_time d;
     ScraperInput.sort := ScraperInput.sort d;
     ScraperInput.source := ScraperInput.source d;
     ScraperInput.include_family := ScraperInput.include_family d;
     ScraperInput.max_results := 30;
     ScraperInput.request_interval_secs := ScraperInput.request_interval_secs d |}.

(** The configuration [keyless_input] is read as. *)
Definition keyless_rock : ScraperInput.t :=
  let d := ScraperInput.default in
  {| ScraperInput.api_key := ScraperInput.api_key d;
     ScraperInput.mode := ScraperInput.mode d;
     ScraperInput.keyword := "rock";
     ScraperInput.event_id := ScraperInput.event_id d;
     ScraperInput.city := ScraperInput.city d;
     ScraperInput.state_code := ScraperInput.state_code d;
     ScraperInput.country_code := ScraperInput.country_code d;
     ScraperInput.postal_code := ScraperInput.postal_code d;
     ScraperInput.latlong := ScraperInput.latlong d;
     ScraperInput.radius := ScraperInput.radius d;
     ScraperInput.unit := ScraperInput.unit d;
     ScraperInput.classification_name := ScraperInput.classification_name d;
     ScraperInput.start_date_time := ScraperInput.start_date_time d;
     ScraperInput.end_date_time := ScraperInput.end_date_time d;
     ScraperInput.sort := ScraperInput.sort d;
     ScraperInput.source := ScraperInput.source d;
     ScraperInput.include_family := ScraperInput.include_family d;
     ScraperInput.max_results := ScraperInput.max_results d;
     ScraperInput.request_interval_secs := ScraperInput.request_interval_secs d |}.

(** The string fields of the configuration: the key of the actor input
    each is read from, its default, and the field. *)
Definition string_fields
  : list (string * string * (ScraperInput.t -> string)) :=
  [ ("apiKey", "", ScraperInput.api_key);
    ("mode", "search", ScraperInput.mode);
    ("keyword", "", ScraperInput.keyword);
    ("eventId", "", ScraperInput.event_id);
    ("city", "", ScraperInput.city);
    ("stateCode", "", ScraperInput.state_code);
    ("countryCode", "", ScraperInput.country_code);
    ("postalCode", "", ScraperInput.postal_code);
    ("latlong", "", ScraperInput.latlong);
    ("unit", "miles", ScraperInput.unit);
    ("classificationName", "", ScraperInput.classification_name);
    ("startDateTime", "", ScraperInput.start_date_time);
    ("endDateTime", "", ScraperInput.end_date_time);
    ("sort", "relevance,desc", ScraperInput.sort);
    ("source", "", ScraperInput.source);
    ("includeFamily", "", ScraperInput.include_family) ].

(** A string field holds the string under its key, or its default when
    the key is missing. *)
Definition read_from (kvs : list (string * json)) (c : ScraperInput.t)
  (f : string * string * (ScraperInput.t -> string)) : Prop :=
  let '(k, d, field) := f in
  match lookup k kvs with
  | None => field c = d
  | Some v => v = JStr (field c)
  end.

(** The filters both searches take from the configuration: the query
    parameter and the configured value of each. *)
Definition location_filters (c : ScraperInput.t) : list (string * string) :=
  [ ("keyword", ScraperInput.keyword c);
    ("city", ScraperInput.city c);
    ("stateCode", ScraperInput.state_code c);
    ("countryCode", ScraperInput.country_code c);
    ("postalCode", ScraperInput.postal_code c);
    ("latlong", ScraperInput.latlong c) ].

(** The filters of the event search alone. *)
Definition event_filters (c : ScraperInput.t) : list (string * string) :=
  [ ("classificationName", ScraperInput.classification_name c);
    ("startDateTime", ScraperInput.start_date_time c);
    ("endDateTime", ScraperInput.end_date_time c);
    ("sort", ScraperInput.sort c);
    ("source", ScraperInput.source c);
    ("includeFamily", ScraperInput.include_family c) ].

(** A filter is sent trimmed, and only when something is left of it. *)
Definition sent_trimmed (ps : params) (f : string * string) : Prop :=
  lookup (fst f) ps
  = if Str.truthy (Str.strip (snd f)) then Some (PStr (Str.strip (snd f)))
    else None.

(** A filter is not sent. *)
Definition not_sent (ps : params) (f : string * string) : Prop :=
  lookup (fst f) ps = None.

(** The radius goes with its unit, as configured, and both are left out
    when no radius is set. *)
Definition radius_sent (c : ScraperInput.t) (ps : params) : Prop :=
  match ScraperInput.radius c with
  | Some r => lookup "radius" ps = Some (PInt r)
              /\ lookup "unit" ps = Some (PStr (ScraperInput.unit c))
  | None => lookup "radius" ps = None /\ lookup "unit" ps = None
  end.

(** The query of a search request reflects the configuration. *)
Definition filtered (c : ScraperInput.t) (events : bool) (e : effect) : Prop :=
  match e with
  | HttpGet _ ps =>
      Forall (sent_trimmed ps) (location_filters c)
      /\ radius_sent c ps
      /\ Forall (if events then sent_trimmed ps else not_sent ps)
           (event_filters c)
  | _ => True
  end.

(** *** Paths into a document.  A step takes the value under a key of an
    object, or the first element of a list; where the step cannot be taken
    the value is [None]. *)
Inductive step : Type :=
| Key (k : string)
| First.

Definition child (v : json) (k : string) : json :=
  match v with
  | JObj kvs => match lookup k kvs with Some x => x | None => JNull end
  | _ => JNull
  end.

Definition first_of (v : json) : json :=
  match v with
  | JArr (x :: _) => x
  | _ => JNull
  end.

Fixpoint descend (v : json) (path : list step) : json :=
  match path with
  | [] => v
  | Key k :: rest => descend (child v k) rest
  | First :: rest => descend (first_of v) rest
  end.

(** The string at the end of a path, empty when there is none. *)
Definition string_at (v : json) (path : list step) : string :=
  match descend v path with JStr s => s | _ => "" end.

(** The list at the end of a path, empty when there is none. *)
Definition elements_at (v : json) (path : list step) : list json :=
  match descend v path with JArr l => l | _ => [] end.

(** The non-empty strings found under [k] in the objects of [items], in
    order. *)
Definition strings_under (k : string) (items : list json) : list string :=
  flat_map (fun x => match child x k with
                     | JStr s => if Str.truthy s then [s] else []
                     | _ => []
                     end) items.

(** A field of a record holds the string at a path of the document. *)
Definition follows {R : Type} (doc : json) (r : R)
  (f : (R -> string) * list step) : Prop :=
  fst f r = string_at doc (snd f).

(** Where [_event_to_record] takes each text field from. *)
Definition event_paths : list ((EventRecord.t -> string) * list step) :=
  let venue := [Key "_embedded"; Key "venues"; First] in
  [ (EventRecord.event_name, [Key "name"]);
    (EventRecord.event_id, [Key "id"]);
    (EventRecord.event_url, [Key "url"]);
    (EventRecord.local_date, [Key "dates"; Key "start"; Key "localDate"]);
    (EventRecord.local_time, [Key "dates"; Key "start"; Key "localTime"]);
    (EventRecord.datetime_utc, [Key "dates"; Key "start"; Key "dateTime"]);
    (EventRecord.timezone, [Key "dates"; Key "timezone"]);
    (EventRecord.status, [Key "dates"; Key "status"; Key "code"]);
    (EventRecord.venue_name, venue ++ [Key "name"]);
    (EventRecord.venue_id, venue ++ [Key "id"]);
    (EventRecord.venue_city, venue ++ [Key "city"; Key "name"]);
    (EventRecord.venue_state, venue ++ [Key "state"; Key "name"]);
    (EventRecord.venue_country, venue ++ [Key "country"; Key "name"]);
    (EventRecord.venue_address, venue ++ [Key "address"; Key "line1"]);
    (EventRecord.venue_postal_code, venue ++ [Key "postalCode"]);
    (EventRecord.public_sale_start,
     [Key "sales"; Key "public"; Key "startDateTime"]);
    (EventRecord.public_sale_end,
     [Key "sales"; Key "public"; Key "endDateTime"]);
    (EventRecord.promoter, [Key "promoter"; Key "name"]);
    (EventRecord.seatmap_url, [Key "seatmap"; Key "staticUrl"]);
    (EventRecord.info, [Key "info"]);
    (EventRecord.please_note, [Key "pleaseNote"]);
    (EventRecord.ticket_limit, [Key "ticketLimit"; Key "info"]);
    (EventRecord.accessibility_info, [Key "accessibility"; Key "info"]) ]%list.

(** Where [_venue_to_record] takes each text field from. *)
Definition venue_paths : list ((VenueRecord.t -> string) * list step) :=
  [ (VenueRecord.venue_name, [Key "name"]);
    (VenueRecord.venue_id, [Key "id"]);
    (VenueRecord.venue_url, [Key "url"]);
    (VenueRecord.city, [Key "city"; Key "name"]);
    (VenueRecord.state, [Key "state"; Key "name"]);
    (VenueRecord.country, [Key "country"; Key "name"]);
    (VenueRecord.address, [Key "address"; Key "line1"]);
    (VenueRecord.postal_code, [Key "postalCode"]);
    (VenueRecord.timezone, [Key "timezone"]);
    (VenueRecord.parking_detail, [Key "generalInfo"; Key "parkingDetail"]);
    (VenueRecord.general_info, [Key "generalInfo"; Key "generalRule"]);
    (VenueRecord.child_rule, [Key "generalInfo"; Key "childRule"]);
    (VenueRecord.accessible_seating_detail, [Key "accessibleSeatingDetail"]) ].

(** The presale window an entry of "presales" describes. *)
Definition presale_at (ps : json) : PresaleRecord.t :=
  {| PresaleRecord.name := string_at ps [Key "name"];
     PresaleRecord.start_date_time := string_at ps [Key "startDateTime"];
     PresaleRecord.end_date_time := string_at ps [Key "endDateTime"];
     PresaleRecord.description := string_at ps [Key "description"];
     PresaleRecord.url := string_at ps [Key "url"] |}.

(** A price as the record gives it: a zero of either sign is 0.0. *)
Definition price_of (f : float) : float :=
  if PrimFloat.eqb f 0%float then 0%float else f.

(** An event at a venue with two attractions, two price ranges and a
    presale; the second attraction has no name. *)
Definition concert : json :=
  JObj
    [ ("name", JStr "Show");
      ("id", JStr "Z7r9");
      ("dates", JObj [("start", JObj [("localDate", JStr "2024-06-01")]);
                      ("timezone", JNull)]);
      ("priceRanges",
       JArr [ JObj [("min", JFloat 35); ("max", JFloat 120);
                    ("currency", JStr "USD")];
              JObj [("min", JFloat 5); ("max", JFloat 10);
                    ("currency", JStr "EUR")] ]);
      ("sales", JObj [("presales",
                       JArr [ JObj [("name", JStr "Fans");
                                    ("url", JNull)] ])]);
      ("_embedded",
       JObj [ ("venues", JArr [ JObj [("name", JStr "Arena");
                                      ("city", JObj [("name", JStr "Oslo")])];
                                JObj [("name", JStr "Hall")] ]);
              ("attractions", JArr [ JObj [("name", JStr "Band")];
                                     JObj [("name", JStr "")];
                                     JObj [("id", JStr "K1")];
                                     JObj [("name", JStr "Guest")] ]) ]) ].

(** A venue with three images, two of them with the same URL and one
    without, and an "upcomingEvents" that is not an object. *)
Definition arena : json :=
  JObj
    [ ("name", JStr "Arena");
      ("city", JObj [("name", JStr "Oslo")]);
      ("generalInfo", JObj [("generalRule", JStr "No bags")]);
      ("upcomingEvents", JNull);
      ("images", JArr [ JObj [("url", JStr "a.jpg"); ("ratio", JStr "16_9")];
                        JObj [("ratio", JStr "4_3")];
                        JObj [("url", JStr "a.jpg"); ("ratio", JStr "16_9")] ]) ].

(* ===================================================================== *)
(** * Properties *)
(* ===================================================================== *)

(** ** Strings *)

Lemma truthy_false (s : string) : Str.truthy s = false <-> s = "".
Proof. destruct s; simpl; split; congruence. Qed.

Lemma truthy_true (s : string) : Str.truthy s = true <-> s <> "".
Proof. destruct s; simpl; split; congruence. Qed.

Lemma one_of_In (x : string) (l : list string) :
  Str.one_of x l = true <-> In x l.
Proof.
  unfold Str.one_of. rewrite existsb_exists. split.
  - intros [y [Hy E]]. apply String.eqb_eq in E. subst. exact Hy.
  - intro H. exists x. split; [exact H | apply String.eqb_refl].
Qed.

Lemma one_of_not_In (x : string) (l : list string) :
  Str.one_of x l = false <-> ~ In x l.
Proof.
  rewrite <- one_of_In. destruct (Str.one_of x l); split; congruence.
Qed.

Lemma no_truthy_all_empty (l : list string) :
  existsb Str.truthy l = false <-> Forall (fun f => f = "") l.
Proof.
  induction l as [|s l IH]; simpl.
  - split; [constructor | reflexivity].
  - rewrite orb_false_iff, IH, truthy_false. split.
    + intros [H1 H2]. constructor; assumption.
    + intro H. inversion H; subst. split; [reflexivity | assumption].
Qed.

(** ** validate_input *)

(** C8, as stated, fails: a venues search without an API key violates none
    of the listed conditions, and [validate_input] returns an error. *)
Lemma validate_input_rejects_missing_key :
  ScraperInput.validate_input keyless_venues <> None
  /\ ~ violates_invariant keyless_venues.
Proof.
  split.
  - discriminate.
  - unfold violates_invariant; simpl.
    intros [H | [[H _] | [[H _] | H]]]; try discriminate.
    + apply H. right; right; left; reflexivity.
    + apply H. left; reflexivity.
Qed.

(** C8, amended: [validate_input] returns an error string if and only if
    the API key is blank, or the mode is not one of search, get_event,
    venues, or the mode is get_event and the event id is blank, or the mode
    is search and every filter is blank (after trimming), or the unit is not
    one of miles, km. *)
Theorem validate_input_rejects_iff (c : ScraperInput.t) :
  ScraperInput.validate_input c <> None <-> rejected c.
Proof.
  unfold ScraperInput.validate_input, rejected.
  destruct (Str.truthy (Str.strip (ScraperInput.api_key c))) eqn:Ekey; cbn [negb].
  2:{ apply truthy_false in Ekey. split; [intros _; left; exact Ekey | intros _; discriminate]. }
  apply truthy_true in Ekey.
  destruct (Str.one_of (ScraperInput.mode c) ["search"; "get_event"; "venues"])
    eqn:Emode; cbn [negb].
  2:{ apply one_of_not_In in Emode.
      split; [intros _; right; left; exact Emode | intros _; discriminate]. }
  apply one_of_In in Emode.
  destruct ((ScraperInput.mode c =? "get_event")%string
            && negb (Str.truthy (Str.strip (ScraperInput.event_id c)))) eqn:Eid.
  { apply andb_true_iff in Eid. destruct Eid as [E1 E2].
    apply String.eqb_eq in E1. apply negb_true_iff, truthy_false in E2.
    split; [intros _; right; right; left; split; assumption | intros _; discriminate]. }
  destruct ((ScraperInput.mode c =? "search")%string
            && negb (existsb Str.truthy (ScraperInput.search_filters c))) eqn:Ef.
  { apply andb_true_iff in Ef. destruct Ef as [E1 E2].
    apply String.eqb_eq in E1. apply negb_true_iff, no_truthy_all_empty in E2.
    split; [intros _; right; right; right; left; split; assumption | intros _; discriminate]. }
  destruct (Str.one_of (ScraperInput.unit c) ["miles"; "km"]) eqn:Eunit; cbn [negb].
  2:{ apply one_of_not_In in Eunit.
      split; [intros _; do 4 right; exact Eunit | intros _; discriminate]. }
  apply one_of_In in Eunit.
  split; [congruence |].
  intros [H | [H | [[H1 H2] | [[H1 H2] | H]]]]; try contradiction.
  - apply String.eqb_eq in H1. rewrite H1 in Eid. cbn [andb] in Eid.
    apply negb_false_iff, truthy_true in Eid. contradiction.
  - apply String.eqb_eq in H1. rewrite H1 in Ef. cbn [andb] in Ef.
    apply negb_false_iff in Ef. apply no_truthy_all_empty in H2. congruence.
Qed.

(** ** _api_request *)

Section ClientProperties.

Context {host : Host}.
Variable world : World.
Variable config : ScraperInput.t.

Lemma wait_secs_retry_wait (resp : Response) (attempt : nat) :
  (attempt < _MAX_RETRIES)%nat ->
  wait_secs resp attempt = Ok (retry_wait resp attempt).
Proof.
  intro H. unfold wait_secs, retry_wait, backoff_secs, _BACKOFF_SECS.
  assert (Hn : nth_error [5%float; 15%float; 30%float] attempt
               = Some (nth attempt [5%float; 15%float; 30%float] 0%float)).
  { unfold _MAX_RETRIES in H.
    destruct attempt as [|[|[|k]]]; try reflexivity. lia. }
  rewrite Hn.
  destruct (retry_after resp) as [h|]; [|reflexivity].
  destruct h as [|c h]; simpl Str.truthy; cbv iota.
  - rewrite float_of_str_empty. reflexivity.
  - destruct (float_of_str (String c h)); reflexivity.
Qed.

(** One attempt that is answered 429 while retries remain: the wait, the
    GET, the sleep, and the loop goes on. *)
Lemma attempt_loop_429 (url : string) (ps : params) (attempt : nat)
  (rest : list nat) (st : state) (resp : Response) :
  http world (gets st) url ps = Reply resp ->
  status_code resp = 429 ->
  (attempt < _MAX_RETRIES)%nat ->
  sleep_returns (retry_wait resp attempt) = true ->
  attempt_loop world url ps (attempt :: rest) st
  = attempt_loop world url ps rest
      (after st 1 [RateLimitWait; HttpGet url ps; Sleep (retry_wait resp attempt)]).
Proof.
  intros Hget Hs Hlt Hback. cbn -[Nat.leb]. rewrite Hget, Hs. cbn -[Nat.leb].
  apply Nat.leb_gt in Hlt. rewrite Hlt. apply Nat.leb_gt in Hlt.
  rewrite (wait_secs_retry_wait resp attempt Hlt).
  unfold sleep. rewrite Hback.
  f_equal. unfold emit, after; simpl. f_equal.
  - lia.
  - rewrite <- !app_assoc. reflexivity.
Qed.

(** C1, amended: when every attempt is answered 429 and each of the three
    waits is a delay the sleep comes back from (a number of seconds below
    positive infinity), [_api_request] makes exactly four GETs and returns the
    failure sentinel; before each of the three retries it sleeps for the
    Retry-After header of the response when that parses, and otherwise for
    5s, 15s, 30s by attempt number. *)
Theorem api_request_all_429 (endpoint : string) (ps : params) (st : state)
  (r : nat -> Response) :
  let url := _TM_BASE ++ "/" ++ endpoint in
  let ps' := dict_set "apikey" (PStr (ScraperInput.api_key config)) ps in
  (forall i, (i < 4)%nat ->
     http world (gets st + i) url ps' = Reply (r i) /\ status_code (r i) = 429) ->
  (forall i, (i < 3)%nat -> sleep_returns (retry_wait (r i) i) = true) ->
  _api_request world config endpoint ps st
  = (Ok None,
     after st 4
       [ RateLimitWait; HttpGet url ps'; Sleep (retry_wait (r 0%nat) 0);
         RateLimitWait; HttpGet url ps'; Sleep (retry_wait (r 1%nat) 1);
         RateLimitWait; HttpGet url ps'; Sleep (retry_wait (r 2%nat) 2);
         RateLimitWait; HttpGet url ps' ]).
Proof.
  intros url ps' H Hback. unfold _api_request. fold url. fold ps'.
  change (seq 0 (_MAX_RETRIES + 1)) with [0; 1; 2; 3]%nat.
  destruct (H 0%nat ltac:(lia)) as [G0 S0].
  destruct (H 1%nat ltac:(lia)) as [G1 S1].
  destruct (H 2%nat ltac:(lia)) as [G2 S2].
  destruct (H 3%nat ltac:(lia)) as [G3 S3].
  rewrite Nat.add_0_r in G0.
  set (st1 := after st 1
         [RateLimitWait; HttpGet url ps'; Sleep (retry_wait (r 0%nat) 0)]).
  set (st2 := after st1 1
         [RateLimitWait; HttpGet url ps'; Sleep (retry_wait (r 1%nat) 1)]).
  set (st3 := after st2 1
         [RateLimitWait; HttpGet url ps'; Sleep (retry_wait (r 2%nat) 2)]).
  assert (G1' : http world (gets st1) url ps' = Reply (r 1%nat)) by exact G1.
  assert (G2' : http world (gets st2) url ps' = Reply (r 2%nat)).
  { cbn. replace (gets st + 1 + 1)%nat with (gets st + 2)%nat by lia. exact G2. }
  assert (G3' : http world (gets st3) url ps' = Reply (r 3%nat)).
  { cbn. replace (gets st + 1 + 1 + 1)%nat with (gets st + 3)%nat by lia. exact G3. }
  assert (L0 : (0 < _MAX_RETRIES)%nat) by (unfold _MAX_RETRIES; lia).
  assert (L1 : (1 < _MAX_RETRIES)%nat) by (unfold _MAX_RETRIES; lia).
  assert (L2 : (2 < _MAX_RETRIES)%nat) by (unfold _MAX_RETRIES; lia).
  rewrite (attempt_loop_429 url ps' 0 _ st (r 0%nat) G0 S0 L0
             (Hback 0%nat ltac:(lia))). fold st1.
  rewrite (attempt_loop_429 url ps' 1 _ st1 (r 1%nat) G1' S1 L1
             (Hback 1%nat ltac:(lia))). fold st2.
  rewrite (attempt_loop_429 url ps' 2 _ st2 (r 2%nat) G2' S2 L2
             (Hback 2%nat ltac:(lia))). fold st3.
  cbn [attempt_loop client_get rate_limiter_wait emit gets].
  rewrite G3', S3. cbn.
  f_equal. unfold after; cbn. f_equal.
  - lia.
  - rewrite <- !app_assoc. reflexivity.
Qed.

End ClientProperties.

(** C1, as stated, fails: the wait is whatever number the Retry-After
    header parses to, and [float] reads "inf".  Against a provider that
    answers every GET with a 429 carrying that header, the request issues one
    GET and starts a sleep that never comes back: there is no second attempt
    and no failure sentinel. *)
Lemma api_request_stalls_on_infinite_retry_after :
  status_code stalled = 429
  /\ float_of_str "inf" = Some infinity
  /\ _api_request (constant_world (Reply stalled)) keyless_venues
       "events.json" [] initial
     = (Hangs,
        {| gets := 1;
           trace := [ RateLimitWait;
                      HttpGet "https://app.ticketmaster.com/discovery/v2/events.json"
                        [("apikey", PStr "")];
                      Sleep infinity ];
           yielded := [] |}).
Proof. split; [reflexivity | split; [reflexivity | vm_compute; reflexivity]]. Qed.

(** The retry policy against a provider that throttles every request. *)
Lemma api_request_all_429_witness :
  _api_request throttling_world keyless_venues "events.json" [] initial
  = (Ok None,
     let url := "https://app.ticketmaster.com/discovery/v2/events.json" in
     let ps := [("apikey", PStr "")] in
     {| gets := 4;
        trace := [ RateLimitWait; HttpGet url ps; Sleep 7%float;
                   RateLimitWait; HttpGet url ps; Sleep 15%float;
                   RateLimitWait; HttpGet url ps; Sleep 30%float;
                   RateLimitWait; HttpGet url ps ];
        yielded := [] |}).
Proof.
  assert (H : forall i, (i < 4)%nat ->
            http throttling_world (gets initial + i)
              (_TM_BASE ++ "/" ++ "events.json")
              (dict_set "apikey" (PStr (ScraperInput.api_key keyless_venues)) [])
            = Reply (throttled i) /\ status_code (throttled i) = 429)
    by (intros i Hi; split; reflexivity).
  assert (Hback : forall i, (i < 3)%nat ->
            sleep_returns (retry_wait (throttled i) i) = true)
    by (intros [|[|[|i]]] Hi; [vm_compute; reflexivity.. | lia]).
  rewrite (api_request_all_429 throttling_world keyless_venues "events.json" []
             initial throttled H Hback).
  vm_compute. reflexivity.
Defined.

Section ClassificationOfResponses.

Context {host : Host}.
Variable world : World.
Variable config : ScraperInput.t.

Lemma attempt_loop_classified (url : string) (ps : params) (attempt : nat)
  (rest : list nat) (st : state) :
  classified (http world (gets st) url ps) url ps st
    (attempt_loop world url ps (attempt :: rest) st).
Proof.
  unfold classified. cbn -[Nat.leb].
  assert (E : {| gets := S (gets st);
                 trace := (trace st ++ [RateLimitWait]) ++ [HttpGet url ps];
                 yielded := yielded st |}
              = after st 1 [RateLimitWait; HttpGet url ps]).
  { unfold after. f_equal; [lia | rewrite <- app_assoc; reflexivity]. }
  rewrite E.
  destruct (http world (gets st) url ps) as [|e|resp]; [reflexivity..|].
  destruct (status_code resp =? 401); [reflexivity|].
  destruct (status_code resp =? 400); [reflexivity|]. cbn [orb].
  destruct (status_code resp =? 429); [exact I | reflexivity].
Qed.

(** C9: on a transport error, a 401 or a 400, [_api_request] returns the
    failure sentinel after that one GET, without sleeping or retrying; a
    response whose status is none of 401, 400, 429 is returned as it is.
    This holds for the first attempt of a request and for every later
    attempt of the retry loop. *)
Theorem api_request_classifies (endpoint : string) (ps : params) (st : state) :
  let url := _TM_BASE ++ "/" ++ endpoint in
  let ps' := dict_set "apikey" (PStr (ScraperInput.api_key config)) ps in
  classified (http world (gets st) url ps') url ps' st
    (_api_request world config endpoint ps st)
  /\ forall attempt rest st',
       classified (http world (gets st') url ps') url ps' st'
         (attempt_loop world url ps' (attempt :: rest) st').
Proof.
  intros url ps'. split.
  - unfold _api_request. fold url. fold ps'.
    change (seq 0 (_MAX_RETRIES + 1)) with [0; 1; 2; 3]%nat.
    apply attempt_loop_classified.
  - intros. apply attempt_loop_classified.
Qed.

End ClassificationOfResponses.

(** ** Query parameters *)

Lemma lookup_dict_set_other {V : Type} (k k' : string) (v : V)
  (ps : list (string * V)) :
  k <> k' -> lookup k (dict_set k' v ps) = lookup k ps.
Proof.
  intro Hne. induction ps as [|[k0 v0] ps IH]; simpl.
  - destruct (String.eqb_spec k k'); [contradiction | reflexivity].
  - destruct (String.eqb_spec k' k0) as [E|E]; simpl.
    + subst k0. destruct (String.eqb_spec k k'); [contradiction | reflexivity].
    + destruct (String.eqb_spec k k0); [reflexivity | exact IH].
Qed.

Lemma lookup_add_filter (config : ScraperInput.t) (k k' value : string)
  (ps : params) :
  k <> k' -> lookup k (add_filter k' value ps) = lookup k ps.
Proof.
  intro Hne. unfold add_filter.
  destruct (Str.truthy (Str.strip value)); [|reflexivity].
  apply lookup_dict_set_other. exact Hne.
Qed.

Lemma lookup_add_radius (config : ScraperInput.t) (k : string) (ps : params) :
  k <> "unit" -> k <> "radius" ->
  lookup k (add_radius config ps) = lookup k ps.
Proof.
  intros H1 H2. unfold add_radius.
  destruct (ScraperInput.radius config); [|reflexivity].
  rewrite !lookup_dict_set_other by assumption. reflexivity.
Qed.

Lemma location_params_ask (config : ScraperInput.t) (size page : Z) :
  asks_for (location_params config size page) size page.
Proof.
  unfold asks_for, location_params.
  split;
    (rewrite lookup_add_radius by discriminate;
     rewrite !(lookup_add_filter config) by discriminate;
     reflexivity).
Qed.

Lemma event_params_ask (config : ScraperInput.t) (size page : Z) :
  asks_for (event_params config size page) size page.
Proof.
  unfold asks_for, event_params.
  split;
    (rewrite !(lookup_add_filter config) by discriminate;
     apply location_params_ask).
Qed.

Lemma venue_params_ask (config : ScraperInput.t) (size page : Z) :
  asks_for (venue_params config size page) size page.
Proof. apply location_params_ask. Qed.

Lemma asks_for_apikey (ps : params) (key : string) (size page : Z) :
  asks_for ps size page ->
  asks_for (dict_set "apikey" (PStr key) ps) size page.
Proof.
  intros [H1 H2]. unfold asks_for.
  rewrite !lookup_dict_set_other by discriminate. split; assumption.
Qed.

(** ** The effects of a request *)

Section Requests.

Context {host : Host}.
Variable world : World.
Variable config : ScraperInput.t.

Lemma attempt_loop_effects (url : string) (ps : params) (attempts : list nat) :
  forall st r st',
    attempt_loop world url ps attempts st = (r, st') ->
    yielded st' = yielded st
    /\ exists es, trace st' = (trace st ++ es)%list
                  /\ Forall (of_request url ps) es
                  /\ (attempts <> [] ->
                      exists es', es = RateLimitWait :: HttpGet url ps :: es').
Proof.
  induction attempts as [|attempt rest IH]; intros st r st' H.
  - simpl in H. inversion H; subst. split; [reflexivity|].
    exists []. rewrite app_nil_r.
    split; [reflexivity | split; [constructor | congruence]].
  - cbn -[Nat.leb sleep] in H.
    set (st1 := {| gets := S (gets st);
                   trace := (trace st ++ [RateLimitWait]) ++ [HttpGet url ps];
                   yielded := yielded st |}) in *.
    assert (Hstuck : forall r0 w, (r0, emit (Sleep w) st1) = (r, st') ->
              yielded st' = yielded st
              /\ exists es, trace st' = (trace st ++ es)%list
                   /\ Forall (of_request url ps) es
                   /\ (attempt :: rest <> [] ->
                       exists es', es = RateLimitWait :: HttpGet url ps :: es')).
    { intros r0 w E. inversion E; subst. split; [reflexivity|].
      exists [RateLimitWait; HttpGet url ps; Sleep w]. simpl.
      rewrite <- !app_assoc. split; [reflexivity | split].
      - constructor; [left; reflexivity|].
        constructor; [right; left; reflexivity|].
        constructor; [right; right; eauto | constructor].
      - intros _. eauto. }
    assert (Hdone : forall r0, (r0, st1) = (r, st') ->
              yielded st' = yielded st
              /\ exists es, trace st' = (trace st ++ es)%list
                   /\ Forall (of_request url ps) es
                   /\ (attempt :: rest <> [] ->
                       exists es', es = RateLimitWait :: HttpGet url ps :: es')).
    { intros r0 E. inversion E; subst. split; [reflexivity|].
      exists [RateLimitWait; HttpGet url ps]. simpl.
      rewrite <- app_assoc. split; [reflexivity | split].
      - constructor; [left; reflexivity|].
        constructor; [right; left; reflexivity | constructor].
      - intros _. exists []. reflexivity. }
    destruct (http world (gets st) url ps) as [|e|resp]; [eauto..|].
    destruct (status_code resp =? 401); [eauto|].
    destruct (status_code resp =? 400); [eauto|].
    destruct (negb (status_code resp =? 429)); [eauto|].
    destruct (_MAX_RETRIES <=? attempt)%nat; [eauto|].
    destruct (wait_secs resp attempt) as [w| | |]; [|eauto..].
    unfold sleep in H.
    destruct (sleep_returns w);
      [|destruct (PrimFloat.eqb w infinity); eauto].
    apply IH in H. destruct H as [Hy [es [Ht [Hf _]]]].
    split; [exact Hy|].
    exists (RateLimitWait :: HttpGet url ps :: Sleep w :: es).
    split; [|split].
    + rewrite Ht. unfold emit, st1; simpl.
      rewrite <- !app_assoc. reflexivity.
    + constructor; [left; reflexivity|].
      constructor; [right; left; reflexivity|].
      constructor; [right; right; eauto | exact Hf].
    + intros _. eauto.
Qed.

Lemma api_request_effects (endpoint : string) (ps : params) (st : state)
  (r : result (option Response)) (st' : state) :
  _api_request world config endpoint ps st = (r, st') ->
  let url := _TM_BASE ++ "/" ++ endpoint in
  let ps' := dict_set "apikey" (PStr (ScraperInput.api_key config)) ps in
  yielded st' = yielded st
  /\ exists es, trace st' = (trace st ++ RateLimitWait :: HttpGet url ps' :: es)%list
                /\ Forall (of_request url ps') es.
Proof.
  intros H url ps'. unfold _api_request in H. fold url ps' in H.
  apply attempt_loop_effects in H. destruct H as [Hy [es [Ht [Hf Hne]]]].
  split; [exact Hy|].
  destruct Hne as [es' Hes]; [discriminate|]. subst es.
  exists es'. split; [exact Ht|].
  inversion Hf as [|? ? _ Hf']; subst. inversion Hf'; subst. assumption.
Qed.

End Requests.

(** ** The pagination loop: invariants and termination *)

Lemma geb_false_lt (a b : Z) : (a >=? b) = false -> a < b.
Proof. rewrite Z.geb_leb. apply Z.leb_gt. Qed.

(** Case analysis on the first [match] or [if] of a hypothesis. *)
Ltac break_in H :=
  match type of H with
  | context [match ?x with _ => _ end] =>
      let E := fresh "E" in destruct x eqn:E
  end.

Section Pagination.

Context {host : Host}.
Variable world : World.
Variable config : ScraperInput.t.
Variables endpoint key : string.
Variable build : Z -> Z -> params.
Variable normalize : string -> json -> result record.

Section Invariant.

(** A property of the running count and the state that each request and
    each yield of the loop preserve. *)
Variable Inv : Z -> state -> Prop.

Hypothesis Inv_request :
  forall page total st r st',
    Inv total st ->
    total < ScraperInput.max_results config ->
    let page_size :=
      Z.min _TM_PAGE_SIZE (ScraperInput.max_results config - total) in
    page_size * page < _TM_DEEP_PAGE_LIMIT ->
    _api_request world config endpoint (build page_size page) st = (r, st') ->
    Inv total st'.

Hypothesis Inv_yield :
  forall total st item r,
    Inv total st ->
    total < ScraperInput.max_results config ->
    normalize (clock world (List.length (yielded st))) item = Ok r ->
    Inv (total + 1) (yield r st).

Lemma yield_items_invariant (items : list json) :
  forall total st res st',
    Inv total st ->
    yield_items world config normalize items total st = (res, st') ->
    match res with
    | inl _ => exists t, Inv t st'
    | inr t => Inv t st'
    end.
Proof.
  induction items as [|item rest IH]; intros total st res st' HI H.
  - simpl in H. inversion H; subst. exact HI.
  - cbn [yield_items] in H.
    destruct (total >=? ScraperInput.max_results config) eqn:Ecap.
    { inversion H; subst. eauto. }
    apply geb_false_lt in Ecap.
    destruct (normalize (clock world (List.length (yielded st))) item)
      as [r| | |] eqn:En.
    + apply (IH _ _ _ _ (Inv_yield _ _ _ _ HI Ecap En) H).
    + inversion H; subst. eauto.
    + inversion H; subst. eauto.
    + inversion H; subst. eauto.
Qed.

Lemma search_loop_invariant (fuel : nat) :
  forall page total st e st',
    Inv total st ->
    search_loop world config fuel endpoint key build normalize page total st
    = (e, st') ->
    exists t, Inv t st'.
Proof.
  induction fuel as [|fuel IH]; intros page total st e st' HI H.
  - simpl in H. inversion H; subst. eauto.
  - cbn [search_loop] in H.
    destruct (total <? ScraperInput.max_results config) eqn:Elt; cbn [negb] in H.
    2:{ inversion H; subst. eauto. }
    apply Z.ltb_lt in Elt.
    destruct (Z.min _TM_PAGE_SIZE (ScraperInput.max_results config - total) * page
              >=? _TM_DEEP_PAGE_LIMIT) eqn:Eg.
    { inversion H; subst. eauto. }
    apply geb_false_lt in Eg.
    destruct (_api_request world config endpoint _ st) as [r st1] eqn:Ereq.
    pose proof (Inv_request _ _ _ _ _ HI Elt Eg Ereq) as HI1.
    destruct r as [[resp|]| | |]; try (inversion H; subst; eauto; fail).
    destruct (negb (status_code resp =? 200)); [inversion H; subst; eauto|].
    destruct (read_page key resp) as [[[items page_info]|]| | |];
      try (inversion H; subst; eauto; fail).
    destruct (yield_items world config normalize items total st1)
      as [[e'|total'] st2] eqn:Ey;
      pose proof (yield_items_invariant _ _ _ _ _ HI1 Ey) as HI2; cbn in HI2.
    { inversion H; subst. exact HI2. }
    destruct (total_pages <- Py.get page_info "totalPages" (JInt 0);;
              Py.int_ge (page + 1) total_pages) as [[|]| | |];
      first [ exact (IH _ _ _ _ _ HI2 H) | inversion H; subst; eauto ].
Qed.

End Invariant.

Lemma yield_items_ending (items : list json) :
  forall total st e st',
    yield_items world config normalize items total st = (inl e, st') ->
    e <> OutOfFuel.
Proof.
  induction items as [|item rest IH]; intros total st e st' H.
  - simpl in H. discriminate.
  - cbn [yield_items] in H.
    break_in H. { inversion H. discriminate. }
    break_in H; [exact (IH _ _ _ _ H) | inversion H; discriminate ..].
Qed.

(** The loop never exhausts a bound of [search_fuel] iterations: an
    iteration that goes on has passed the deep-paging guard with a page size
    of at least one, so the page index it leaves is at most the limit. *)
Lemma search_loop_fuel (fuel : nat) :
  forall page total st,
    0 <= page <= _TM_DEEP_PAGE_LIMIT ->
    Z.of_nat fuel + page > _TM_DEEP_PAGE_LIMIT ->
    fst (search_loop world config fuel endpoint key build normalize
           page total st) <> OutOfFuel.
Proof.
  induction fuel as [|fuel IH]; intros page total st Hp Hf.
  - simpl in Hf. lia.
  - cbn [search_loop].
    destruct (total <? ScraperInput.max_results config) eqn:Elt; cbn [negb];
      [|discriminate].
    apply Z.ltb_lt in Elt.
    destruct (Z.min _TM_PAGE_SIZE (ScraperInput.max_results config - total) * page
              >=? _TM_DEEP_PAGE_LIMIT) eqn:Eg; [discriminate|].
    apply geb_false_lt in Eg.
    destruct (_api_request world config endpoint _ st) as [r st1].
    destruct r as [[resp|]| | |]; try discriminate.
    destruct (negb (status_code resp =? 200)); [discriminate|].
    destruct (read_page key resp) as [[[items page_info]|]| | |]; try discriminate.
    destruct (yield_items world config normalize items total st1)
      as [[e|total'] st2] eqn:Ey.
    { simpl. exact (yield_items_ending _ _ _ _ _ Ey). }
    destruct (total_pages <- Py.get page_info "totalPages" (JInt 0);;
              Py.int_ge (page + 1) total_pages) as [[|]| | |]; try discriminate.
    apply IH.
    + unfold _TM_DEEP_PAGE_LIMIT, _TM_PAGE_SIZE in *. nia.
    + lia.
Qed.

End Pagination.

(** ** The deep-paging guard *)

Section DeepPaging.

Context {host : Host}.
Variable world : World.
Variable config : ScraperInput.t.

Lemma search_loop_within_deep_paging (endpoint key : string)
  (build : Z -> Z -> params) (normalize : string -> json -> result record)
  (fuel : nat) (page total : Z) (st : state) :
  (forall size p, asks_for (build size p) size p) ->
  Forall within_deep_paging (trace st) ->
  Forall within_deep_paging
    (trace (snd (search_loop world config fuel endpoint key build normalize
                   page total st))).
Proof.
  intros Hbuild Hst.
  destruct (search_loop world config fuel endpoint key build normalize
              page total st) as [e st'] eqn:Hrun.
  pose (Inv := fun (_ : Z) (s : state) => Forall within_deep_paging (trace s)).
  cut (exists t, Inv t st'); [intros [t Ht]; exact Ht|].
  apply (search_loop_invariant world config endpoint key build normalize Inv)
    with (fuel := fuel) (page := page) (total := total) (st := st) (e := e).
  - intros p tot s r s' HI Hlt page_size Hguard Hreq. unfold Inv in *.
    apply api_request_effects in Hreq. destruct Hreq as [_ [es [Ht Hes]]].
    rewrite Ht. apply Forall_app. split; [exact HI|].
    assert (Hget : within_deep_paging
              (HttpGet (_TM_BASE ++ "/" ++ endpoint)
                 (dict_set "apikey" (PStr (ScraperInput.api_key config))
                    (build page_size p)))).
    { exists page_size, p. split; [|exact Hguard].
      apply asks_for_apikey. apply Hbuild. }
    constructor; [exact I|]. constructor; [exact Hget|].
    eapply Forall_impl; [|exact Hes].
    intros e0 [E | [E | [w E]]]; subst; [exact I | exact Hget | exact I].
  - intros tot s item r HI _ _. exact HI.
  - exact Hst.
  - exact Hrun.
Qed.

(** C4: no page request of the event search or of the venue search asks
    for a size and a page whose product reaches 1000, and both searches end;
    whenever the product of the page size and the page index reaches 1000 at
    the head of the loop, the loop ends there, with no request issued. *)
Theorem paginators_respect_deep_paging :
  (Forall within_deep_paging (trace (snd (_search_events world config initial)))
   /\ fst (_search_events world config initial) <> OutOfFuel)
  /\ (Forall within_deep_paging (trace (snd (_search_venues world config initial)))
      /\ fst (_search_venues world config initial) <> OutOfFuel)
  /\ (forall fuel endpoint key build normalize page total_yielded st,
        total_yielded < ScraperInput.max_results config ->
        Z.min _TM_PAGE_SIZE (ScraperInput.max_results config - total_yielded) * page
        >= _TM_DEEP_PAGE_LIMIT ->
        search_loop world config (S fuel) endpoint key build normalize
          page total_yielded st = (Finished, st)).
Proof.
  unfold _search_events, _search_venues. split; [split | split; [split|]].
  - apply search_loop_within_deep_paging; [apply event_params_ask | constructor].
  - apply search_loop_fuel; unfold search_fuel, _TM_DEEP_PAGE_LIMIT; lia.
  - apply search_loop_within_deep_paging; [apply venue_params_ask | constructor].
  - apply search_loop_fuel; unfold search_fuel, _TM_DEEP_PAGE_LIMIT; lia.
  - intros fuel endpoint key build normalize page total st Hlt Hguard.
    cbn [search_loop]. apply Z.ltb_lt in Hlt. rewrite Hlt. cbn [negb].
    rewrite Z.geb_leb. apply Z.ge_le, Z.leb_le in Hguard. rewrite Hguard.
    reflexivity.
Qed.

End DeepPaging.

(** ** The result cap *)

Section Cap.

Context {host : Host}.
Variable world : World.
Variable config : ScraperInput.t.
Variable normalize : string -> json -> result record.

Lemma yield_items_quiet (items : list json) :
  forall total st res st',
    yield_items world config normalize items total st = (res, st') ->
    trace st' = trace st /\ gets st' = gets st.
Proof.
  induction items as [|item rest IH]; intros total st res st' H.
  - simpl in H. inversion H; subst. split; reflexivity.
  - cbn [yield_items] in H.
    destruct (total >=? ScraperInput.max_results config).
    { inversion H; subst. split; reflexivity. }
    destruct (normalize (clock world (List.length (yielded st))) item) as [r| | |].
    + apply IH in H. exact H.
    + inversion H; subst. split; reflexivity.
    + inversion H; subst. split; reflexivity.
    + inversion H; subst. split; reflexivity.
Qed.

(** The loop over a page yields the records of the items that fit under
    the cap, in order, and looks at no item beyond them: it returns at the
    first item it meets once the cap is reached. *)
Lemma yield_items_under_cap (items : list json) :
  forall total st recs,
    let room := Z.to_nat (ScraperInput.max_results config - total) in
    normalize_each world normalize (List.length (yielded st))
      (firstn room items) = Ok recs ->
    yield_items world config normalize items total st
    = (if (room <? List.length items)%nat
       then inl Finished
       else inr (total + Z.of_nat (List.length items)),
       {| gets := gets st; trace := trace st;
          yielded := (yielded st ++ recs)%list |}).
Proof.
  induction items as [|item rest IH]; intros total st recs room H.
  - destruct room; simpl in H; inversion H; subst; simpl.
    all: rewrite app_nil_r, Z.add_0_r; destruct st; reflexivity.
  - cbn [yield_items].
    destruct (total >=? ScraperInput.max_results config) eqn:Ecap.
    + assert (Hroom : room = 0%nat).
      { unfold room. rewrite Z.geb_leb in Ecap. apply Z.leb_le in Ecap. lia. }
      rewrite Hroom in *. simpl in H. inversion H; subst. simpl.
      rewrite app_nil_r. destruct st; reflexivity.
    + apply geb_false_lt in Ecap.
      assert (Hroom : room
                = S (Z.to_nat (ScraperInput.max_results config - (total + 1)))).
      { unfold room. lia. }
      unfold room in *. clear room. rewrite Hroom in *. clear Hroom.
      set (room' := Z.to_nat (ScraperInput.max_results config - (total + 1))) in *.
      cbn [firstn normalize_each] in H.
      destruct (normalize (clock world (List.length (yielded st))) item)
        as [r| | |] eqn:En; cbn [bind] in H; try discriminate.
      destruct (normalize_each world normalize (S (List.length (yielded st)))
                  (firstn room' rest)) as [rs| | |] eqn:Ers;
        cbn [bind] in H; try discriminate.
      inversion H; subst recs. clear H.
      pose proof (IH (total + 1) (yield r st) rs) as IH'.
      cbv zeta in IH'. fold room' in IH'.
      rewrite IH'.
      2:{ cbn [yield yielded]. rewrite length_app, Nat.add_1_r. exact Ers. }
      replace (S room' <? List.length (item :: rest))%nat
        with (room' <? List.length rest)%nat by reflexivity.
      cbn [yield gets trace yielded]. f_equal.
      * destruct (room' <? List.length rest)%nat; [reflexivity|].
        f_equal. cbn [List.length]. lia.
      * rewrite <- app_assoc. reflexivity.
Qed.

Lemma search_loop_extends (endpoint key : string) (build : Z -> Z -> params)
  (fuel : nat) (page total : Z) (st : state) :
  exists es,
    trace (snd (search_loop world config fuel endpoint key build normalize
                  page total st)) = (trace st ++ es)%list.
Proof.
  destruct (search_loop world config fuel endpoint key build normalize
              page total st) as [e st'] eqn:Hrun.
  pose (Inv := fun (_ : Z) (s : state) =>
                 exists es, trace s = (trace st ++ es)%list).
  cut (exists t, Inv t st'); [intros [t Ht]; exact Ht|].
  apply (search_loop_invariant world config endpoint key build normalize Inv)
    with (fuel := fuel) (page := page) (total := total) (st := st) (e := e).
  - intros p tot s r s' [es HI] _ page_size _ Hreq.
    apply api_request_effects in Hreq. destruct Hreq as [_ [es' [Ht _]]].
    eexists. rewrite Ht, HI, <- app_assoc. reflexivity.
  - intros tot s item r HI _ _. exact HI.
  - exists []. rewrite app_nil_r. reflexivity.
  - exact Hrun.
Qed.

(** The loop never yields more than the cap allows. *)
Lemma search_loop_bounded (endpoint key : string) (build : Z -> Z -> params)
  (fuel : nat) (page : Z) :
  Z.of_nat (List.length (yielded
     (snd (search_loop world config fuel endpoint key build normalize
             page 0 initial))))
  <= Z.max 0 (ScraperInput.max_results config).
Proof.
  destruct (search_loop world config fuel endpoint key build normalize
              page 0 initial) as [e st'] eqn:Hrun.
  pose (Inv := fun (total : Z) (s : state) =>
                 Z.of_nat (List.length (yielded s)) = total
                 /\ total <= Z.max 0 (ScraperInput.max_results config)).
  cut (exists t, Inv t st'); [intros [t [H1 H2]]; simpl; lia|].
  apply (search_loop_invariant world config endpoint key build normalize Inv)
    with (fuel := fuel) (page := page) (total := 0) (st := initial) (e := e).
  - intros p tot s r s' [H1 H2] _ page_size _ Hreq.
    apply api_request_effects in Hreq. destruct Hreq as [Hy _].
    split; [rewrite Hy; exact H1 | exact H2].
  - intros tot s item r [H1 H2] Hlt _. split.
    + cbn [yield yielded]. rewrite length_app. simpl. lia.
    + lia.
  - split; [reflexivity | lia].
  - exact Hrun.
Qed.

End Cap.

Section CapOf150.

Context {host : Host}.
Variable world : World.
Variable config : ScraperInput.t.

Lemma yield_items_all (normalize : string -> json -> result record)
  (items : list json) :
  forall total st t st',
    yield_items world config normalize items total st = (inr t, st') ->
    t = total + Z.of_nat (List.length items).
Proof.
  induction items as [|item rest IH]; intros total st t st' H.
  - simpl in H. inversion H; subst. simpl. lia.
  - cbn [yield_items] in H.
    destruct (total >=? ScraperInput.max_results config); [discriminate|].
    destruct (normalize (clock world (List.length (yielded st))) item);
      try discriminate.
    apply IH in H. cbn [List.length]. lia.
Qed.

Lemma search_loop_at_cap (endpoint key : string) (build : Z -> Z -> params)
  (normalize : string -> json -> result record) (fuel : nat)
  (page total : Z) (st : state) :
  ScraperInput.max_results config <= total ->
  snd (search_loop world config fuel endpoint key build normalize page total st)
  = st.
Proof.
  intro H. destruct fuel; cbn [search_loop]; [reflexivity|].
  apply Z.ltb_ge in H. rewrite H. reflexivity.
Qed.

(** The first iteration of the event search under a cap of 150, after its
    request has been answered. *)
Lemma search_events_first_page (fuel : nat) :
  ScraperInput.max_results config = 150 ->
  search_loop world config (S fuel) "events.json" "events"
    (event_params config) event_record 0 0 initial
  = let '(r, st) :=
      _api_request world config "events.json" (event_params config 150 0) initial in
    match r with
    | Raise e => (Failed e, st)
    | Unmodelled => (NotModelled, st)
    | Hangs => (Hung, st)
    | Ok None => (Finished, st)
    | Ok (Some resp) =>
        if negb (status_code resp =? 200) then (Finished, st)
        else
          match read_page "events" resp with
          | Raise e => (Failed e, st)
          | Unmodelled => (NotModelled, st)
          | Hangs => (Hung, st)
          | Ok None => (Finished, st)
          | Ok (Some (items, page_info)) =>
              match yield_items world config event_record items 0 st with
              | (inl e, st) => (e, st)
              | (inr total_yielded, st) =>
                  match (total_pages <- Py.get page_info "totalPages" (JInt 0) ;;
                         Py.int_ge 1 total_pages) with
                  | Raise e => (Failed e, st)
                  | Unmodelled => (NotModelled, st)
                  | Hangs => (Hung, st)
                  | Ok true => (Finished, st)
                  | Ok false =>
                      search_loop world config fuel "events.json" "events"
                        (event_params config) event_record 1 total_yielded st
                  end
              end
          end
    end.
Proof.
  intro Hmax. cbn [search_loop]. rewrite Hmax. reflexivity.
Qed.

(** C2: with [max_results = 150], the event search asks for its first page
    with size 150 (the minimum of 200 and the room left) and page 0; it
    yields at most 150 records; and when that first page holds 150 items or
    more, nothing is requested after it, whatever the page information says,
    and the records yielded are those of its first 150 items: the loop
    returns on reaching the cap and does not look at the items beyond. *)
Theorem search_events_cap_150 :
  ScraperInput.max_results config = 150 ->
  let run := _search_events world config initial in
  let url := _TM_BASE ++ "/" ++ "events.json" in
  let ps0 := dict_set "apikey" (PStr (ScraperInput.api_key config))
               (event_params config (Z.min 200 (150 - 0)) 0) in
  (asks_for ps0 150 0
   /\ exists es, trace (snd run) = RateLimitWait :: HttpGet url ps0 :: es)
  /\ (List.length (yielded (snd run)) <= 150)%nat
  /\ forall resp st1 items page_info,
       _api_request world config "events.json" (event_params config 150 0) initial
       = (Ok (Some resp), st1) ->
       status_code resp = 200 ->
       read_page "events" resp = Ok (Some (items, page_info)) ->
       (150 <= List.length items)%nat ->
       trace (snd run) = trace st1
       /\ gets (snd run) = gets st1
       /\ forall recs,
            normalize_each world event_record 0 (firstn 150 items) = Ok recs ->
            yielded (snd run) = recs.
Proof.
  intros Hmax run url ps0.
  assert (Hrun : run = search_loop world config (S (Z.to_nat _TM_DEEP_PAGE_LIMIT))
                         "events.json" "events" (event_params config)
                         event_record 0 0 initial) by reflexivity.
  rewrite (search_events_first_page _ Hmax) in Hrun.
  split; [split|split].
  - apply asks_for_apikey. apply event_params_ask.
  - change (Z.min 200 (150 - 0)) with 150 in ps0.
    destruct (_api_request world config "events.json"
                (event_params config 150 0) initial) as [r st1] eqn:Ereq.
    apply api_request_effects in Ereq. destruct Ereq as [_ [es [Ht _]]].
    simpl in Ht. fold url ps0 in Ht.
    assert (Hext : forall st', (exists es', trace st' = (trace st1 ++ es')%list) ->
                     exists es0, trace st' = RateLimitWait :: HttpGet url ps0 :: es0).
    { intros st' [es' E]. rewrite E, Ht. simpl. eauto. }
    assert (Hsame : exists es', trace st1 = (trace st1 ++ es')%list)
      by (exists []; rewrite app_nil_r; reflexivity).
    rewrite Hrun. apply Hext.
    destruct r as [[resp|]| | |]; try exact Hsame.
    destruct (negb (status_code resp =? 200)); [exact Hsame|].
    destruct (read_page "events" resp) as [[[items page_info]|]| | |];
      try exact Hsame.
    destruct (yield_items world config event_record items 0 st1)
      as [[e|t] st2] eqn:Ey;
      apply yield_items_quiet in Ey; destruct Ey as [Et _]; rewrite <- Et.
    { exists []. rewrite app_nil_r. reflexivity. }
    destruct (total_pages <- Py.get page_info "totalPages" (JInt 0);;
              Py.int_ge 1 total_pages) as [[|]| | |];
      try (exists []; rewrite app_nil_r; reflexivity).
    apply search_loop_extends.
  - pose proof (search_loop_bounded world config event_record "events.json"
                  "events" (event_params config) search_fuel 0) as Hb.
    rewrite Hmax in Hb. unfold run, _search_events. lia.
  - intros resp st1 items page_info Hreq Hstatus Hpage Hfull.
    rewrite Hreq, Hstatus, Hpage in Hrun. cbn [Z.eqb Pos.eqb negb] in Hrun.
    pose proof (api_request_effects _ _ _ _ _ _ _ Hreq) as [Hy1 _].
    destruct (yield_items world config event_record items 0 st1)
      as [[e|t] st2] eqn:Ey.
    + pose proof (yield_items_quiet _ _ _ _ _ _ _ _ Ey) as [Et Eg].
      rewrite Hrun. cbn [snd]. split; [exact Et | split; [exact Eg|]].
      intros recs Hrecs.
      rewrite (yield_items_under_cap world config event_record items 0 st1 recs)
        in Ey.
      * inversion Ey; subst st2. cbn [yielded]. rewrite Hy1. reflexivity.
      * rewrite Hmax, Hy1. exact Hrecs.
    + pose proof (yield_items_quiet _ _ _ _ _ _ _ _ Ey) as [Et Eg].
      pose proof (yield_items_all _ _ _ _ _ _ Ey) as Hall.
      assert (Hst : snd run = st2).
      { rewrite Hrun.
        destruct (total_pages <- Py.get page_info "totalPages" (JInt 0);;
                  Py.int_ge 1 total_pages) as [[|]| | |]; try reflexivity.
        apply search_loop_at_cap. lia. }
      rewrite Hst. split; [exact Et | split; [exact Eg|]].
      intros recs Hrecs.
      rewrite (yield_items_under_cap world config event_record items 0 st1 recs)
        in Ey.
      * inversion Ey; subst st2. cbn [yielded]. rewrite Hy1. reflexivity.
      * rewrite Hmax, Hy1. exact Hrecs.
Qed.

End CapOf150.

(** A search capped at 150 against a provider whose first page holds 151
    items: 150 records, one request. *)
Lemma search_events_cap_150_witness :
  let run := _search_events (constant_world (Reply full_page)) rock_150 initial in
  List.length (yielded (snd run)) = 150%nat
  /\ trace (snd run)
     = [ RateLimitWait;
         HttpGet "https://app.ticketmaster.com/discovery/v2/events.json"
           [ ("size", PInt 150); ("page", PInt 0); ("keyword", PStr "rock");
             ("sort", PStr "relevance,desc"); ("apikey", PStr "key") ] ].
Proof.
  intro run.
  destruct (search_events_cap_150 (constant_world (Reply full_page)) rock_150
              eq_refl) as [_ [_ Hfull]].
  pose (items := (repeat (JObj [("name", JStr "Show")]) 150 ++ [JNull])%list).
  pose (page_info := JObj [("totalElements", JInt 1051); ("totalPages", JInt 7)]).
  pose (st1 := snd (_api_request (constant_world (Reply full_page)) rock_150
                      "events.json" (event_params rock_150 150 0) initial)).
  pose (recs := match normalize_each (constant_world (Reply full_page))
                        event_record 0 (firstn 150 items) with
                | Ok l => l
                | _ => []
                end).
  destruct (Hfull full_page st1 items page_info) as [Ht [_ Hy]].
  - vm_compute. reflexivity.
  - reflexivity.
  - vm_compute. reflexivity.
  - unfold items. rewrite length_app, repeat_length. simpl. lia.
  - fold run in Ht, Hy. split.
    + rewrite (Hy recs) by (vm_compute; reflexivity). vm_compute. reflexivity.
    + rewrite Ht. vm_compute. reflexivity.
Defined.

(** ** Single-event lookup *)

Section Lookup.

Context {host : Host}.
Variable world : World.
Variable config : ScraperInput.t.

(** C5, amended: the lookup issues one request for the trimmed event id.
    When the client returns the failure sentinel, or a response that is
    neither a 404 nor a 200, nothing is yielded; in particular nothing is
    yielded on a 401.  On a 404 exactly one record is yielded, with the
    requested id as its [event_id] and the non-empty placeholder
    "Event not found: <id>" as its [event_name].  On a 200 whose body decodes
    to a document that the normalizer turns into a record, exactly that one
    record is yielded; when the body does not decode or the normalizer does
    not return, neither does the lookup yield, and the exception leaves the
    generator.  When the request itself raises (the client raised an
    exception that is not an [httpx.HTTPError]) or does not come back from a
    sleep, nothing is yielded either, and the lookup ends in the same way. *)
Theorem get_event_yields (st : state) :
  let event_id := Str.strip (ScraperInput.event_id config) in
  let endpoint := "events/" ++ event_id ++ ".json" in
  let request := _api_request world config endpoint [] st in
  let st1 := snd request in
  let now := clock world (List.length (yielded st1)) in
  let outcome := _get_event world config st in
  yielded st1 = yielded st
  /\ match fst request with
     | Ok None => outcome = (Finished, st1)
     | Ok (Some resp) =>
         if status_code resp =? 404 then
           exists r,
             outcome = (Finished, yield (Event r) st1)
             /\ yielded (snd outcome) = (yielded st ++ [Event r])%list
             /\ EventRecord.event_id r = event_id
             /\ EventRecord.event_name r = "Event not found: " ++ event_id
             /\ EventRecord.event_name r <> ""
         else if status_code resp =? 200 then
           (forall j, body resp = Ok j ->
              match _event_to_record now j with
              | Ok r => outcome = (Finished, yield (Event r) st1)
                        /\ yielded (snd outcome) = (yielded st ++ [Event r])%list
              | Raise e => outcome = (Failed e, st1)
              | Unmodelled => outcome = (NotModelled, st1)
              | Hangs => outcome = (Hung, st1)
              end)
           /\ (forall e, body resp = Raise e -> outcome = (Failed e, st1))
         else outcome = (Finished, st1)
     | Raise e => outcome = (Failed e, st1)
     | Unmodelled => outcome = (NotModelled, st1)
     | Hangs => outcome = (Hung, st1)
     end
  /\ (forall resp,
        http world (gets st) (_TM_BASE ++ "/" ++ endpoint)
          [("apikey", PStr (ScraperInput.api_key config))] = Reply resp ->
        status_code resp = 401 ->
        fst outcome = Finished /\ yielded (snd outcome) = yielded st)
  /\ (forall e,
        http world (gets st) (_TM_BASE ++ "/" ++ endpoint)
          [("apikey", PStr (ScraperInput.api_key config))] = Escapes e ->
        fst outcome = Failed e /\ yielded (snd outcome) = yielded st).
Proof.
  intros event_id endpoint request st1 now outcome.
  assert (Hout : outcome =
    match fst request with
    | Raise e => (Failed e, st1)
    | Unmodelled => (NotModelled, st1)
    | Hangs => (Hung, st1)
    | Ok None => (Finished, st1)
    | Ok (Some resp) =>
        if status_code resp =? 404 then
          (Finished,
           yield (Event (not_found_record ("Event not found: " ++ event_id)
                           event_id now)) st1)
        else if negb (status_code resp =? 200) then (Finished, st1)
        else
          match (event_data <- resp_json resp ;; event_record now event_data) with
          | Ok r => (Finished, yield r st1)
          | Raise e => (Failed e, st1)
          | Unmodelled => (NotModelled, st1)
          | Hangs => (Hung, st1)
          end
    end).
  { unfold outcome, _get_event. fold event_id. fold endpoint. fold request.
    unfold now, st1. destruct request as [r s]. reflexivity. }
  destruct request as [r0 s0] eqn:Hreq.
  pose proof (api_request_effects _ _ _ _ _ _ _ Hreq) as [Hy _].
  assert (Hst1 : st1 = s0) by reflexivity.
  assert (Hfirst : forall got,
            classified (http world (gets st) (_TM_BASE ++ "/" ++ endpoint)
                          [("apikey", PStr (ScraperInput.api_key config))])
              (_TM_BASE ++ "/" ++ endpoint)
              [("apikey", PStr (ScraperInput.api_key config))] st got ->
            got = (r0, s0) ->
            classified (http world (gets st) (_TM_BASE ++ "/" ++ endpoint)
                          [("apikey", PStr (ScraperInput.api_key config))])
              (_TM_BASE ++ "/" ++ endpoint)
              [("apikey", PStr (ScraperInput.api_key config))] st (r0, s0)).
  { intros got Hc E. rewrite <- E. exact Hc. }
  pose proof (Hfirst _ (attempt_loop_classified world (_TM_BASE ++ "/" ++ endpoint)
                          [("apikey", PStr (ScraperInput.api_key config))]
                          0%nat [1; 2; 3]%nat st) Hreq) as Hc.
  clear Hfirst.
  split; [rewrite Hst1; exact Hy|].
  split; [|split].
  - cbn [fst] in *.
    destruct r0 as [[resp|]| | |]; try exact Hout.
    destruct (status_code resp =? 404) eqn:E404.
    + eexists. split; [exact Hout|].
      rewrite Hout. cbn [snd yield yielded].
      rewrite Hst1, Hy. repeat split. discriminate.
    + destruct (status_code resp =? 200) eqn:E200; cbn [negb] in Hout;
        [|exact Hout].
      unfold resp_json in Hout. split.
      * intros j Hj. rewrite Hj in Hout.
        cbn [bind] in Hout. unfold event_record in Hout.
        destruct (_event_to_record now j) as [r| | |]; cbn [bind] in Hout;
          try exact Hout.
        split; [exact Hout|].
        rewrite Hout. cbn [snd yield yielded]. rewrite Hst1, Hy. reflexivity.
      * intros e He. rewrite He in Hout. exact Hout.
  - intros resp Hget H401.
    unfold classified in Hc. rewrite Hget, H401 in Hc. cbn in Hc.
    injection Hc as Er Es.
    rewrite Hout. cbn [fst]. rewrite Er. cbn [fst snd].
    split; [reflexivity | rewrite Hst1; exact Hy].
  - intros e Hget.
    unfold classified in Hc. rewrite Hget in Hc.
    injection Hc as Er Es.
    rewrite Hout. cbn [fst]. rewrite Er. cbn [fst snd].
    split; [reflexivity | rewrite Hst1; exact Hy].
Qed.

End Lookup.

(** C5, as stated, fails: a 200 whose body is not JSON yields no record;
    the decoding error leaves the generator. *)
Lemma get_event_200_without_record :
  status_code html_200 = 200
  /\ _get_event (constant_world (Reply html_200)) lookup_Z7r9 initial
     = (Failed JSONDecodeError,
        {| gets := 1;
           trace := [ RateLimitWait;
                      HttpGet "https://app.ticketmaster.com/discovery/v2/events/Z7r9jZ1A7.json"
                        [("apikey", PStr "key")] ];
           yielded := [] |}).
Proof. split; reflexivity. Qed.

(** The not-found record of a lookup answered 404. *)
Lemma get_event_404_record :
  yielded (snd (_get_event (constant_world (Reply not_found_404)) lookup_Z7r9 initial))
  = [Event (not_found_record "Event not found: Z7r9jZ1A7" "Z7r9jZ1A7"
              "2024-01-01T00:00:00+00:00")].
Proof. reflexivity. Qed.

(** ** The normalizers *)

Lemma bind_Ok {A B : Type} (m : result A) (f : A -> result B) (b : B) :
  bind m f = Ok b -> exists a, m = Ok a /\ f a = Ok b.
Proof. destruct m as [a| | |]; simpl; intro H; [eauto | discriminate..]. Qed.

(** Peels the successful steps off a computation that returned. *)
Ltac invert_binds H :=
  repeat
    match type of H with
    | bind _ _ = Ok _ =>
        let a := fresh "v" in
        let E := fresh "E" in
        apply bind_Ok in H; destruct H as [a [E H]]
    | match ?p with pair _ _ => _ end = Ok _ => destruct p
    end.

Section NormalizerProperties.

Context {host : Host}.

(** What a returned event record says of the blocks it was built from. *)
Lemma event_record_inv (now : string) (event : json) (r : EventRecord.t) :
  _event_to_record now event = Ok r ->
  EventRecord.schema_version r = "1.0"
  /\ EventRecord.type r = "event"
  /\ (exists seg gen sub,
        classification_fields event = Ok (seg, gen, sub)
        /\ validate_str seg = Ok (EventRecord.segment r)
        /\ validate_str gen = Ok (EventRecord.genre r)
        /\ validate_str sub = Ok (EventRecord.sub_genre r))
  /\ (exists urls,
        image_fields event = Ok urls
        /\ validate_str_list urls = Ok (EventRecord.images r)).
Proof.
  intro H. unfold _event_to_record in H. invert_binds H.
  inversion H; subst r; clear H. cbn.
  split; [reflexivity|]. split; [reflexivity|]. split.
  - do 3 eexists. repeat split; eassumption.
  - eexists. split; eassumption.
Qed.

Lemma venue_record_inv (now : string) (venue : json) (r : VenueRecord.t) :
  _venue_to_record now venue = Ok r ->
  VenueRecord.schema_version r = "1.0" /\ VenueRecord.type r = "venue".
Proof.
  intro H. unfold _venue_to_record in H. invert_binds H.
  inversion H; subst r. split; reflexivity.
Qed.

End NormalizerProperties.

(** ** Schema version and record type *)

Section Stamps.

Context {host : Host}.
Variable world : World.
Variable config : ScraperInput.t.

Lemma event_record_stamped (now : string) (j : json) (d : record) :
  event_record now j = Ok d -> stamped d.
Proof.
  unfold event_record. intro H. apply bind_Ok in H. destruct H as [r [E H]].
  inversion H; subst d. apply event_record_inv in E.
  destruct E as [E1 [E2 _]]. split; assumption.
Qed.

Lemma venue_record_stamped (now : string) (j : json) (d : record) :
  venue_record now j = Ok d -> stamped d.
Proof.
  unfold venue_record. intro H. apply bind_Ok in H. destruct H as [r [E H]].
  inversion H; subst d. apply venue_record_inv in E.
  destruct E as [E1 E2]. split; assumption.
Qed.

Lemma search_loop_stamped (endpoint key : string) (build : Z -> Z -> params)
  (normalize : string -> json -> result record) :
  (forall now j d, normalize now j = Ok d -> stamped d) ->
  Forall stamped
    (yielded (snd (search_loop world config search_fuel endpoint key build
                     normalize 0 0 initial))).
Proof.
  intro Hnorm.
  destruct (search_loop world config search_fuel endpoint key build
              normalize 0 0 initial) as [e st'] eqn:Hrun.
  pose (Inv := fun (_ : Z) (s : state) => Forall stamped (yielded s)).
  cut (exists t, Inv t st'); [intros [t Ht]; exact Ht|].
  apply (search_loop_invariant world config endpoint key build normalize Inv)
    with (fuel := search_fuel) (page := 0) (total := 0) (st := initial) (e := e).
  - intros p tot s r s' HI _ page_size _ Hreq. unfold Inv in *.
    apply api_request_effects in Hreq. destruct Hreq as [Hy _].
    rewrite Hy. exact HI.
  - intros tot s item r HI _ Hn. unfold Inv in *. cbn [yield yielded].
    apply Forall_app. split; [exact HI|].
    constructor; [exact (Hnorm _ _ _ Hn) | constructor].
  - constructor.
  - exact Hrun.
Qed.

Lemma get_event_stamped :
  Forall stamped (yielded (snd (_get_event world config initial))).
Proof.
  unfold _get_event.
  destruct (_api_request world config _ [] initial) as [r st1] eqn:Hreq.
  apply api_request_effects in Hreq. destruct Hreq as [Hy _]. simpl in Hy.
  assert (H0 : Forall stamped (yielded st1)) by (rewrite Hy; constructor).
  destruct r as [[resp|]| | |]; try exact H0.
  destruct (status_code resp =? 404).
  { cbn [snd yield yielded]. rewrite Hy. repeat constructor. }
  destruct (negb (status_code resp =? 200)); [exact H0|].
  destruct (event_data <- resp_json resp;;
            event_record (clock world (List.length (yielded st1))) event_data)
    as [d| | |] eqn:E; try exact H0.
  apply bind_Ok in E. destruct E as [j [_ E]].
  cbn [snd yield yielded]. rewrite Hy.
  constructor; [exact (event_record_stamped _ _ _ E) | constructor].
Qed.

(** C10: every record the scraper yields, in any mode and against any
    provider, carries [schema_version = "1.0"] and a [type] that is "event"
    for an event record (the not-found record included) and "venue" for a
    venue record; so does every record either normalizer returns. *)
Theorem records_carry_version_and_type :
  Forall stamped (yielded (snd (run world config initial)))
  /\ (forall now j r, _event_to_record now j = Ok r -> stamped (Event r))
  /\ (forall now j r, _venue_to_record now j = Ok r -> stamped (Venue r))
  /\ (forall name id now, stamped (Event (not_found_record name id now))).
Proof.
  split; [|split; [|split]].
  - unfold run.
    destruct (ScraperInput.mode config =? "search")%string.
    { apply search_loop_stamped. exact event_record_stamped. }
    destruct (ScraperInput.mode config =? "get_event")%string.
    { exact get_event_stamped. }
    destruct (ScraperInput.mode config =? "venues")%string.
    { apply search_loop_stamped. exact venue_record_stamped. }
    constructor.
  - intros now j r H. apply event_record_inv in H.
    destruct H as [H1 [H2 _]]. split; assumption.
  - intros now j r H. apply venue_record_inv in H.
    destruct H as [H1 H2]. split; assumption.
  - intros. split; reflexivity.
Qed.

End Stamps.

(** ** Classification *)

Section Classification.

Context {host : Host}.

Lemma class_name_read (entry : json) (k s : string) (obj name : json) :
  class_name entry k = Some s ->
  Py.get entry k (JObj []) = Ok obj ->
  Py.get_or_str obj "name" = Ok name ->
  validate_str (drop_undefined name) = Ok (undefined_to_empty s).
Proof.
  unfold class_name. intros Hc Hobj Hname.
  destruct entry as [| | | | |l|c]; try discriminate.
  simpl in Hobj. destruct (lookup k c) as [[| | | | |l|o]|]; try discriminate.
  inversion Hobj; subst obj. unfold Py.get_or_str in Hname. simpl in Hname.
  destruct (lookup "name" o) as [[| | | |s'|l|o']|]; try discriminate.
  inversion Hc; subst s'. inversion Hname; subst name.
  unfold drop_undefined, undefined_to_empty, Py.or_.
  destruct s as [|c0 s]; [reflexivity|].
  cbn [Py.truthy Str.truthy Py.eq_str].
  destruct (String c0 s =? "Undefined")%string; reflexivity.
Qed.

(** C7: the normalizer reads the first classification entry; the segment,
    genre and sub-genre of the record are the names that entry gives, except
    that a name equal to "Undefined" is replaced by the empty string. *)
Theorem classification_drops_undefined (now : string)
  (fields : list (string * json)) (entry : json) (others : list json)
  (r : EventRecord.t) :
  lookup "classifications" fields = Some (JArr (entry :: others)) ->
  _event_to_record now (JObj fields) = Ok r ->
  (forall s, class_name entry "segment" = Some s ->
             EventRecord.segment r = undefined_to_empty s)
  /\ (forall s, class_name entry "genre" = Some s ->
                EventRecord.genre r = undefined_to_empty s)
  /\ (forall s, class_name entry "subGenre" = Some s ->
                EventRecord.sub_genre r = undefined_to_empty s).
Proof.
  intros Hcls Hr. apply event_record_inv in Hr.
  destruct Hr as [_ [_ [[seg [gen [sub [Hf [Hs [Hg Hsub]]]]]] _]]].
  unfold classification_fields in Hf. cbn [Py.get bind] in Hf.
  rewrite Hcls in Hf. cbn [Py.truthy Py.index0 bind] in Hf.
  invert_binds Hf. inversion Hf; subst seg gen sub; clear Hf.
  repeat split; intros s Hn.
  - pose proof (class_name_read _ _ _ _ _ Hn E E2) as H. congruence.
  - pose proof (class_name_read _ _ _ _ _ Hn E0 E3) as H. congruence.
  - pose proof (class_name_read _ _ _ _ _ Hn E1 E4) as H. congruence.
Qed.

End Classification.

(** The classification of a sample event. *)
Lemma classification_drops_undefined_witness :
  match _event_to_record "2024-01-01T00:00:00+00:00" (JObj classified_fields) with
  | Ok r => EventRecord.segment r = "Music"
            /\ EventRecord.genre r = ""
            /\ EventRecord.sub_genre r = "Pop"
  | _ => False
  end.
Proof.
  destruct (_event_to_record "2024-01-01T00:00:00+00:00" (JObj classified_fields))
    as [r| | |] eqn:E; [|vm_compute in E; discriminate..].
  destruct (classification_drops_undefined "2024-01-01T00:00:00+00:00"
              classified_fields first_entry [second_entry] r eq_refl E)
    as [H1 [H2 H3]].
  rewrite (H1 "Music" eq_refl), (H2 "Undefined" eq_refl), (H3 "Pop" eq_refl).
  repeat split.
Defined.

(** ** Missing and null fields *)

Section Defaults.

Context {host : Host}.

(** An object without fields normalizes to the defaults of the class. *)
Lemma event_to_record_empty (now : string) :
  _event_to_record now (JObj []) = Ok (not_found_record "" "" now).
Proof. reflexivity. Qed.

(** A null leaf is read as the empty string. *)
Lemma event_to_record_null_name (now : string) :
  _event_to_record now (JObj [("name", JNull); ("ticketLimit", JNull)])
  = Ok (not_found_record "" "" now).
Proof. reflexivity. Qed.

(** [_safe_float] returns 0.0 on [None], on a string that does not parse,
    on a list and on an object. *)
Lemma safe_float_zero (v : json) :
  match v with
  | JNull | JArr _ | JObj _ => True
  | JStr s => float_of_str s = None
  | _ => False
  end ->
  _safe_float v = Ok 0%float.
Proof.
  destruct v; simpl; try tauto.
  intro H. rewrite H. reflexivity.
Qed.

(** The only way [_safe_float] fails is on an integer too large for a
    float. *)
Lemma safe_float_total (v : json) :
  (exists f, _safe_float v = Ok f)
  \/ (exists z, v = JInt z /\ _safe_float v = Raise OverflowError).
Proof.
  destruct v as [|b|z|f|s|l|kvs]; simpl; eauto.
  - unfold float_of_int.
    destruct (binary_normalize 53 1024 z 0 false); eauto.
  - destruct (float_of_str s); eauto.
Qed.

Lemma safe_float_overflow : _safe_float (JInt (10 ^ 400)) = Raise OverflowError.
Proof. vm_compute. reflexivity. Qed.

(** C3, at the inputs where it fails: an event whose "dates" is null and a
    venue whose "location" is null are JSON objects with a null nested field,
    and both normalizers raise [AttributeError] on them instead of returning
    a record. *)
Theorem normalizers_raise_on_null_object (now : string) :
  _event_to_record now (JObj [("dates", JNull)]) = Raise AttributeError
  /\ _venue_to_record now (JObj [("location", JNull)]) = Raise AttributeError.
Proof. split; reflexivity. Qed.

(** The same holds for each nested object of the event the code reads
    with [.get(key, {})] and then calls [.get] on. *)
Lemma event_to_record_null_nested (now key : string) :
  In key ["dates"; "_embedded"; "sales"; "promoter"; "seatmap"] ->
  _event_to_record now (JObj [(key, JNull)]) = Raise AttributeError.
Proof.
  intros [H | [H | [H | [H | [H | []]]]]]; subst key; reflexivity.
Qed.

Lemma event_to_record_null_entry (now : string) :
  _event_to_record now (JObj [("classifications", JArr [JNull])])
  = Raise AttributeError.
Proof. reflexivity. Qed.

End Defaults.

(** ** Numbers: the order of exact values *)







(** ** Images *)


(** ** The sort model is a sort *)

Section SortDesc.

Variables K A : Type.
Variable ltb : K -> K -> bool.
Hypothesis ltb_asym : forall a b, ltb a b = true -> ltb b a = false.







(** Equal keys keep their order: elements that [ltb] does not separate
    come out in the order they went in. *)
Lemma insert_desc_stable (keep : K * A -> bool) (x : K * A) (l : list (K * A)) :
  (forall y, keep x = true -> keep y = true -> ltb (fst x) (fst y) = false) ->
  filter keep (insert_desc ltb x l) = filter keep (x :: l).
Proof.
  intro Hsame. induction l as [|y l IH]; [reflexivity|].
  cbn [insert_desc]. destruct (ltb (fst x) (fst y)) eqn:E; [|reflexivity].
  cbn [filter] in *. rewrite IH.
  destruct (keep x) eqn:Ex, (keep y) eqn:Ey; try reflexivity.
  rewrite (Hsame y eq_refl Ey) in E. discriminate.
Qed.

Lemma sort_desc_stable (keep : K * A -> bool) (l : list (K * A)) :
  (forall x y, keep x = true -> keep y = true -> ltb (fst x) (fst y) = false) ->
  filter keep (sort_desc ltb l) = filter keep l.
Proof.
  intro Hsame. induction l as [|x l IH]; [reflexivity|].
  cbn [sort_desc fold_right]. fold (sort_desc ltb l).
  rewrite insert_desc_stable by (intros y; apply Hsame).
  cbn [filter]. rewrite IH. reflexivity.
Qed.

End SortDesc.









(** ** Images *)

Section Images.

Context {host : Host}.





End Images.


(* ===================================================================== *)
(** * Further properties of the code *)
(* ===================================================================== *)

(** ** The retry loop *)

Lemma after_0 (st : state) : after st 0 [] = st.
Proof.
  unfold after. rewrite Nat.add_0_r, app_nil_r. destruct st; reflexivity.
Qed.

Lemma after_after (st : state) (n m : nat) (es es' : list effect) :
  after (after st n es) m es' = after st (n + m) (es ++ es').
Proof.
  unfold after; simpl. f_equal; [lia | rewrite app_assoc; reflexivity].
Qed.

Lemma flat_map_seq_shift {A : Type} (f : nat -> list A) (k : nat) :
  flat_map f (seq 1 k) = flat_map (fun i => f (S i)) (seq 0 k).
Proof.
  rewrite <- seq_shift. induction (seq 0 k) as [|i l IH]; simpl; congruence.
Qed.

Section RetryLoop.

Context {host : Host}.
Variable world : World.
Variable config : ScraperInput.t.

Lemma attempt_loop_shape (url : string) (ps : params) (m : nat) :
  forall k st,
    (k + m = _MAX_RETRIES)%nat ->
    exists ws,
      (List.length ws <= m)%nat
      /\ Forall (fun w => sleep_returns w = true) ws
      /\ ended_after world url ps st ws (List.length ws <? m)%nat
           (attempt_loop world url ps (seq k (S m)) st).
Proof.
  assert (Hend : forall st,
            {| gets := S (gets st);
               trace := ((trace st ++ [RateLimitWait]) ++ [HttpGet url ps])%list;
               yielded := yielded st |}
            = after st 1 (request_rounds url ps [])).
  { intro st. unfold after, request_rounds. simpl.
    f_equal; [lia | rewrite <- app_assoc; reflexivity]. }
  assert (Hok : forall st r (retry : bool),
            ended_after world url ps st [] retry
              (Ok r, after st 1 (request_rounds url ps []))).
  { intros st r retry. left. exists r. reflexivity. }
  assert (Hraise : forall st e (retry : bool),
            http world (gets st) url ps = Escapes e ->
            ended_after world url ps st [] retry
              (Raise e, after st 1 (request_rounds url ps []))).
  { intros st e retry Hget. right; left. exists e.
    cbn [List.length]. rewrite Nat.add_0_r. split; [exact Hget | reflexivity]. }
  induction m as [|m IH]; intros k st Hk.
  - assert (Hlast : (_MAX_RETRIES <=? k)%nat = true) by (apply Nat.leb_le; lia).
    exists []. split; [simpl; lia|]. split; [constructor|].
    cbn -[Nat.leb sleep ended_after]. rewrite Hlast, Hend.
    destruct (http world (gets st) url ps) as [|e|resp] eqn:Hget;
      [apply Hok | apply Hraise; exact Hget |].
    destruct (status_code resp =? 401); [apply Hok|].
    destruct (status_code resp =? 400); [apply Hok|].
    destruct (negb (status_code resp =? 429)); apply Hok.
  - assert (Hlt : (k < _MAX_RETRIES)%nat) by lia.
    change (seq k (S (S m))) with (k :: seq (S k) (S m)).
    destruct (http world (gets st) url ps) as [|e|resp] eqn:Hget.
    { exists []. split; [simpl; lia|]. split; [constructor|].
      cbn -[Nat.leb seq sleep ended_after]. rewrite Hget, Hend. apply Hok. }
    { exists []. split; [simpl; lia|]. split; [constructor|].
      cbn -[Nat.leb seq sleep ended_after]. rewrite Hget, Hend.
      apply Hraise. exact Hget. }
    destruct (status_code resp =? 429) eqn:H429.
    + destruct (sleep_returns (retry_wait resp k)) eqn:Hback.
      * apply Z.eqb_eq in H429.
        rewrite (attempt_loop_429 world url ps k _ st resp Hget H429 Hlt Hback).
        set (st2 := after st 1 [RateLimitWait; HttpGet url ps;
                                Sleep (retry_wait resp k)]).
        destruct (IH (S k) st2 ltac:(lia)) as [ws [Hlen [Hws Hgot]]].
        exists (retry_wait resp k :: ws).
        split; [simpl; lia|]. split; [constructor; assumption|].
        assert (Hst : after st2 (S (List.length ws)) (request_rounds url ps ws)
                      = after st (S (List.length (retry_wait resp k :: ws)))
                          (request_rounds url ps (retry_wait resp k :: ws))).
        { unfold st2. rewrite after_after. reflexivity. }
        assert (Hn : (gets st2 + List.length ws
                      = gets st + List.length (retry_wait resp k :: ws))%nat).
        { unfold st2. cbn [after gets List.length]. lia. }
        unfold ended_after in *. rewrite Hst, Hn in Hgot.
        replace (List.length (retry_wait resp k :: ws) <? S m)%nat
          with (List.length ws <? m)%nat by reflexivity.
        exact Hgot.
      * exists []. split; [simpl; lia|]. split; [constructor|].
        cbn -[Nat.leb seq sleep ended_after]. rewrite Hget, Hend, H429.
        cbn [negb].
        destruct (status_code resp =? 401) eqn:H401;
          [apply Z.eqb_eq in H401; apply Z.eqb_eq in H429; lia|].
        destruct (status_code resp =? 400) eqn:H400;
          [apply Z.eqb_eq in H400; apply Z.eqb_eq in H429; lia|].
        apply Nat.leb_gt in Hlt. rewrite Hlt. apply Nat.leb_gt in Hlt.
        rewrite (wait_secs_retry_wait resp k Hlt).
        unfold sleep. rewrite Hback.
        right; right. exists (retry_wait resp k).
        split; [exact Hback|]. split; [reflexivity|].
        destruct (PrimFloat.eqb (retry_wait resp k) infinity);
          [left | right]; reflexivity.
    + exists []. split; [simpl; lia|]. split; [constructor|].
      cbn -[Nat.leb seq sleep ended_after]. rewrite Hget, Hend, H429. cbn [negb].
      destruct (status_code resp =? 401); [apply Hok|].
      destruct (status_code resp =? 400); [apply Hok|].
      apply Hok.
Qed.

(** X1: what [_api_request] does is bounded, and it ends in one of three
    ways.  It goes through at most three rounds of rate-limiter wait, GET and
    sleep, each sleep one it comes back from, then one more wait and GET, all
    for the same URL and the same parameters: at most four GETs.  Then it
    returns (a response or the failure sentinel); or the last GET raised an
    exception that is not a transport error, which leaves the function; or,
    with retries left, it starts a sleep that does not come back.  Nothing
    else raises: the backoff table is never indexed out of range. *)
Theorem api_request_is_bounded (endpoint : string) (ps : params) (st : state) :
  let url := _TM_BASE ++ "/" ++ endpoint in
  let ps' := dict_set "apikey" (PStr (ScraperInput.api_key config)) ps in
  exists ws,
    (List.length ws <= _MAX_RETRIES)%nat
    /\ Forall (fun w => sleep_returns w = true) ws
    /\ ended_after world url ps' st ws (List.length ws <? _MAX_RETRIES)%nat
         (_api_request world config endpoint ps st).
Proof.
  intros url ps'. unfold _api_request. fold url. fold ps'.
  exact (attempt_loop_shape url ps' _MAX_RETRIES 0%nat st eq_refl).
Qed.

Lemma attempt_loop_throttled (url : string) (ps : params) (k : nat) :
  forall (j : nat) (st : state) (r : nat -> Response) (rest : nat),
    (j + k <= _MAX_RETRIES)%nat ->
    (forall i, (i < k)%nat ->
       http world (gets st + i) url ps = Reply (r i) /\ status_code (r i) = 429) ->
    (forall i, (i < k)%nat -> sleep_returns (retry_wait (r i) (j + i)) = true) ->
    attempt_loop world url ps (seq j (k + rest)) st
    = attempt_loop world url ps (seq (j + k) rest)
        (after st k (throttled_rounds url ps r j k)).
Proof.
  induction k as [|k IH]; intros j st r rest Hj H Hback.
  - unfold throttled_rounds. simpl. rewrite after_0, Nat.add_0_r. reflexivity.
  - destruct (H 0%nat ltac:(lia)) as [Hget Hs]. rewrite Nat.add_0_r in Hget.
    pose proof (Hback 0%nat ltac:(lia)) as Hback0.
    rewrite Nat.add_0_r in Hback0.
    change (seq j (S k + rest)) with (j :: seq (S j) (k + rest)).
    rewrite (attempt_loop_429 world url ps j _ st (r 0%nat) Hget Hs ltac:(lia)
               Hback0).
    rewrite (IH (S j) _ (fun i => r (S i)) rest ltac:(lia)).
    + replace (S j + k)%nat with (j + S k)%nat by lia.
      rewrite after_after. f_equal. f_equal.
      unfold throttled_rounds.
      change (seq 0 (S k)) with (0%nat :: seq 1 k).
      cbn [flat_map]. rewrite flat_map_seq_shift, Nat.add_0_r.
      f_equal. apply flat_map_ext. intro i.
      replace (S j + i)%nat with (j + S i)%nat by lia. reflexivity.
    + intros i Hi. cbn [after gets].
      replace (gets st + 1 + i)%nat with (gets st + S i)%nat by lia.
      apply H. lia.
    + intros i Hi.
      replace (S j + i)%nat with (j + S i)%nat by lia.
      apply Hback. lia.
Qed.

(** X2: throttling is recovered from.  When the first [k] attempts of a
    request (at most three) are answered 429 and each of the [k] waits is a
    delay the sleep comes back from, what the next attempt gets decides the
    result exactly as for a first attempt: a response that is not a 401, 400
    or 429 is returned, a transport error, a 401 or a 400 gives the failure
    sentinel, and another exception of the client is raised, after that GET
    and without further sleep. *)
Theorem api_request_after_throttling (endpoint : string) (ps : params)
  (st : state) (k : nat) (r : nat -> Response) :
  let url := _TM_BASE ++ "/" ++ endpoint in
  let ps' := dict_set "apikey" (PStr (ScraperInput.api_key config)) ps in
  (k <= _MAX_RETRIES)%nat ->
  (forall i, (i < k)%nat ->
     http world (gets st + i) url ps' = Reply (r i) /\ status_code (r i) = 429) ->
  (forall i, (i < k)%nat -> sleep_returns (retry_wait (r i) i) = true) ->
  classified (http world (gets st + k) url ps') url ps'
    (after st k (throttled_rounds url ps' r 0 k))
    (_api_request world config endpoint ps st).
Proof.
  intros url ps' Hk H Hback. unfold _api_request. fold url. fold ps'.
  replace (seq 0 (_MAX_RETRIES + 1)) with (seq 0 (k + (_MAX_RETRIES + 1 - k)))
    by (f_equal; lia).
  rewrite (attempt_loop_throttled url ps' k 0 st r _ ltac:(lia) H Hback).
  replace (_MAX_RETRIES + 1 - k)%nat with (S (_MAX_RETRIES - k)) by lia.
  change (seq (0 + k) (S (_MAX_RETRIES - k)))
    with (k :: seq (S k) (_MAX_RETRIES - k)).
  exact (attempt_loop_classified world url ps' k (seq (S k) (_MAX_RETRIES - k))
           (after st k (throttled_rounds url ps' r 0 k))).
Qed.

End RetryLoop.

(** Two throttled attempts, then a 200: the response is returned after
    sleeping 7s and 15s. *)
Lemma api_request_after_throttling_witness :
  exists resp,
    status_code resp = 200
    /\ _api_request recovering_world keyless_venues "venues.json" [] initial
       = (Ok (Some resp),
          let url := "https://app.ticketmaster.com/discovery/v2/venues.json" in
          let ps := [("apikey", PStr "")] in
          {| gets := 3;
             trace := [ RateLimitWait; HttpGet url ps; Sleep 7%float;
                        RateLimitWait; HttpGet url ps; Sleep 15%float;
                        RateLimitWait; HttpGet url ps ];
             yielded := [] |}).
Proof.
  assert (H : forall i, (i < 2)%nat ->
            http recovering_world (gets initial + i)
              (_TM_BASE ++ "/" ++ "venues.json")
              (dict_set "apikey" (PStr (ScraperInput.api_key keyless_venues)) [])
            = Reply (throttled i) /\ status_code (throttled i) = 429).
  { intros i Hi. destruct i as [|[|i]]; [split; reflexivity.. | lia]. }
  assert (Hback : forall i, (i < 2)%nat ->
            sleep_returns (retry_wait (throttled i) i) = true).
  { intros i Hi. destruct i as [|[|i]]; [vm_compute; reflexivity.. | lia]. }
  pose proof (api_request_after_throttling recovering_world keyless_venues
                "venues.json" [] initial 2 throttled
                ltac:(unfold _MAX_RETRIES; lia) H Hback) as Hc.
  eexists. split; [|exact Hc]. reflexivity.
Defined.

(** ** The first page of a search *)

Lemma int_ge_int (a b : Z) : Py.int_ge a (JInt b) = Ok (b <=? a).
Proof.
  unfold Py.int_ge. cbn [num_of xnum_ltb]. f_equal.
  rewrite Z.min_id, Z.sub_diag. cbn [Z.pow]. rewrite !Z.mul_1_r.
  rewrite Z.leb_antisym. reflexivity.
Qed.

Lemma lookup_dict_set_same {V : Type} (k : string) (v : V)
  (ps : list (string * V)) :
  lookup k (dict_set k v ps) = Some v.
Proof.
  induction ps as [|[k0 v0] ps IH]; simpl.
  - rewrite String.eqb_refl. reflexivity.
  - destruct (String.eqb_spec k k0); simpl.
    + rewrite String.eqb_refl. reflexivity.
    + destruct (String.eqb_spec k k0); [contradiction | exact IH].
Qed.

Section FirstPage.

Context {host : Host}.
Variable world : World.
Variable config : ScraperInput.t.
Variables endpoint key : string.
Variable build : Z -> Z -> params.
Variable normalize : string -> json -> result record.

(** The size of the first page. *)
Let first_size : Z := Z.min _TM_PAGE_SIZE (ScraperInput.max_results config).

Lemma search_loop_without_results (fuel : nat) (st : state)
  (r : option Response) (st1 : state) :
  0 < ScraperInput.max_results config ->
  _api_request world config endpoint (build first_size 0) st = (Ok r, st1) ->
  without_results key r ->
  search_loop world config (S fuel) endpoint key build normalize 0 0 st
  = (Finished, st1).
Proof.
  intros Hmax Hreq Hr. cbn [search_loop].
  apply Z.ltb_lt in Hmax. rewrite Hmax. cbn [negb].
  rewrite Z.sub_0_r, Z.mul_0_r. fold first_size.
  change (0 >=? _TM_DEEP_PAGE_LIMIT) with false. cbv iota.
  rewrite Hreq. destruct r as [resp|]; [|reflexivity].
  destruct (status_code resp =? 200) eqn:E200; cbn [negb]; [|reflexivity].
  destruct Hr as [Hne | [d [Hbody Hemb]]].
  { apply Z.eqb_eq in E200. contradiction. }
  unfold read_page, resp_json. rewrite Hbody. cbn [bind Py.get].
  destruct (lookup "_embedded" d) as [v|]; [|reflexivity].
  destruct Hemb as [Hf | [e [-> He]]].
  - rewrite Hf. reflexivity.
  - destruct e as [|p e]; [reflexivity|].
    cbn [Py.truthy Py.contains bind]. rewrite He. reflexivity.
Qed.

Lemma search_loop_single_page (fuel : nat) (st : state) (resp : Response)
  (st1 : state) (items : list json) (page_info : list (string * json))
  (recs : list record) :
  0 < ScraperInput.max_results config ->
  _api_request world config endpoint (build first_size 0) st
  = (Ok (Some resp), st1) ->
  status_code resp = 200 ->
  read_page key resp = Ok (Some (items, JObj page_info)) ->
  Z.of_nat (List.length items) <= ScraperInput.max_results config ->
  normalize_each world normalize (List.length (yielded st)) items = Ok recs ->
  last_page page_info ->
  search_loop world config (S fuel) endpoint key build normalize 0 0 st
  = (Finished,
     {| gets := gets st1; trace := trace st1;
        yielded := (yielded st ++ recs)%list |}).
Proof.
  intros Hmax Hreq Hstatus Hpage Hlen Hrecs Hlast. cbn [search_loop].
  pose proof Hmax as Hmax'. apply Z.ltb_lt in Hmax'. rewrite Hmax'. cbn [negb].
  rewrite Z.sub_0_r, Z.mul_0_r. fold first_size.
  change (0 >=? _TM_DEEP_PAGE_LIMIT) with false. cbv iota.
  rewrite Hreq, Hstatus, Hpage. cbn [Z.eqb Pos.eqb negb].
  pose proof (api_request_effects _ _ _ _ _ _ _ Hreq) as [Hy _].
  rewrite (yield_items_under_cap world config normalize items 0 st1 recs).
  2:{ rewrite Hy, firstn_all2 by lia. exact Hrecs. }
  assert (Hfit : (Z.to_nat (ScraperInput.max_results config - 0)
                  <? List.length items)%nat = false)
    by (apply Nat.ltb_ge; lia).
  rewrite Hfit, Hy. cbn [Py.get bind].
  unfold last_page in Hlast.
  destruct (lookup "totalPages" page_info) as [v|].
  - destruct Hlast as [n [-> Hn]]. rewrite int_ge_int.
    apply Z.leb_le in Hn. cbn [Z.add Pos.add] in *. rewrite Hn. reflexivity.
  - rewrite int_ge_int. reflexivity.
Qed.

Lemma search_loop_head (fuel : nat) (page total : Z) (st : state) :
  total < ScraperInput.max_results config ->
  Z.min _TM_PAGE_SIZE (ScraperInput.max_results config - total) * page
  < _TM_DEEP_PAGE_LIMIT ->
  exists es,
    trace (snd (search_loop world config (S fuel) endpoint key build normalize
                  page total st))
    = (trace st ++
       RateLimitWait
       :: HttpGet (_TM_BASE ++ "/" ++ endpoint)
            (dict_set "apikey" (PStr (ScraperInput.api_key config))
               (build (Z.min _TM_PAGE_SIZE
                         (ScraperInput.max_results config - total)) page))
       :: es)%list.
Proof.
  intros Hlt Hguard. cbn [search_loop].
  apply Z.ltb_lt in Hlt. rewrite Hlt. cbn [negb].
  assert (Hg : (Z.min _TM_PAGE_SIZE (ScraperInput.max_results config - total)
                * page >=? _TM_DEEP_PAGE_LIMIT) = false)
    by (rewrite Z.geb_leb; apply Z.leb_gt; exact Hguard).
  rewrite Hg.
  destruct (_api_request world config endpoint _ st) as [r st1] eqn:Ereq.
  apply api_request_effects in Ereq. destruct Ereq as [_ [es [Ht _]]].
  assert (Hext : forall st', (exists es', trace st' = (trace st1 ++ es')%list) ->
            exists es0, trace st'
              = (trace st ++ RateLimitWait
                 :: HttpGet (_TM_BASE ++ "/" ++ endpoint)
                      (dict_set "apikey" (PStr (ScraperInput.api_key config))
                         (build (Z.min _TM_PAGE_SIZE
                                   (ScraperInput.max_results config - total)) page))
                 :: es0)%list).
  { intros st' [es' E]. rewrite E, Ht, <- app_assoc. simpl. eauto. }
  assert (Hsame : exists es', trace st1 = (trace st1 ++ es')%list)
    by (exists []; rewrite app_nil_r; reflexivity).
  apply Hext.
  destruct r as [[resp|]| | |]; try exact Hsame.
  destruct (negb (status_code resp =? 200)); [exact Hsame|].
  destruct (read_page key resp) as [[[items page_info]|]| | |]; try exact Hsame.
  destruct (yield_items world config normalize items total st1)
    as [[e|t] st2] eqn:Ey;
    apply yield_items_quiet in Ey; destruct Ey as [Et _]; cbn [snd];
    rewrite <- Et.
  { exists []. rewrite app_nil_r. reflexivity. }
  destruct (total_pages <- Py.get page_info "totalPages" (JInt 0);;
            Py.int_ge (page + 1) total_pages) as [[|]| | |];
    try (exists []; rewrite app_nil_r; reflexivity).
  apply search_loop_extends.
Qed.

Lemma search_loop_second_page (fuel : nat) (st : state) (resp : Response)
  (st1 : state) (items : list json) (page_info : list (string * json))
  (recs : list record) (pages : Z) :
  _api_request world config endpoint (build first_size 0) st
  = (Ok (Some resp), st1) ->
  status_code resp = 200 ->
  read_page key resp = Ok (Some (items, JObj page_info)) ->
  Z.of_nat (List.length items) < ScraperInput.max_results config ->
  normalize_each world normalize (List.length (yielded st)) items = Ok recs ->
  lookup "totalPages" page_info = Some (JInt pages) ->
  1 < pages ->
  let size := Z.min _TM_PAGE_SIZE
                (ScraperInput.max_results config - Z.of_nat (List.length items)) in
  exists es,
    trace (snd (search_loop world config (S (S fuel)) endpoint key build
                  normalize 0 0 st))
    = (trace st1 ++
       RateLimitWait
       :: HttpGet (_TM_BASE ++ "/" ++ endpoint)
            (dict_set "apikey" (PStr (ScraperInput.api_key config))
               (build size 1))
       :: es)%list.
Proof.
  intros Hreq Hstatus Hpage Hlen Hrecs Hpages Hmore size.
  assert (Hmax : 0 < ScraperInput.max_results config) by lia.
  remember (S fuel) as fuel1 eqn:Ef. cbn [search_loop].
  pose proof Hmax as Hmax'. apply Z.ltb_lt in Hmax'. rewrite Hmax'. cbn [negb].
  rewrite Z.sub_0_r, Z.mul_0_r. fold first_size.
  change (0 >=? _TM_DEEP_PAGE_LIMIT) with false. cbv iota.
  rewrite Hreq, Hstatus, Hpage. cbn [Z.eqb Pos.eqb negb].
  pose proof (api_request_effects _ _ _ _ _ _ _ Hreq) as [Hy _].
  rewrite (yield_items_under_cap world config normalize items 0 st1 recs).
  2:{ rewrite Hy, firstn_all2 by lia. exact Hrecs. }
  assert (Hfit : (Z.to_nat (ScraperInput.max_results config - 0)
                  <? List.length items)%nat = false)
    by (apply Nat.ltb_ge; lia).
  rewrite Hfit. cbn [Py.get bind]. rewrite Hpages, int_ge_int.
  assert (Hgo : (pages <=? 0 + 1) = false) by (apply Z.leb_gt; lia).
  rewrite Hgo. subst fuel1.
  destruct (search_loop_head fuel (0 + 1) (0 + Z.of_nat (List.length items))
              {| gets := gets st1; trace := trace st1;
                 yielded := (yielded st1 ++ recs)%list |}) as [es Hes].
  - lia.
  - unfold _TM_PAGE_SIZE, _TM_DEEP_PAGE_LIMIT. lia.
  - exists es. rewrite Hes. cbn [trace]. reflexivity.
Qed.

End FirstPage.

Section Searches.

Context {host : Host}.
Variable world : World.
Variable config : ScraperInput.t.

(** X3: a search whose first request brings no page of results ends there.
    When the client gives the failure sentinel, or the response is not a 200,
    or its body has no (or an empty) "_embedded" or no collection in it, the
    event search and the venue search yield nothing and issue no further
    request. *)
Theorem search_without_results_stops :
  0 < ScraperInput.max_results config ->
  let size := Z.min _TM_PAGE_SIZE (ScraperInput.max_results config) in
  (forall r st1,
     _api_request world config "events.json" (event_params config size 0) initial
     = (Ok r, st1) ->
     without_results "events" r ->
     _search_events world config initial = (Finished, st1) /\ yielded st1 = [])
  /\ (forall r st1,
        _api_request world config "venues.json" (venue_params config size 0) initial
        = (Ok r, st1) ->
        without_results "venues" r ->
        _search_venues world config initial = (Finished, st1) /\ yielded st1 = []).
Proof.
  intros Hmax size. split; intros r st1 Hreq Hr; split.
  - exact (search_loop_without_results world config _ _ _ _ _ _ _ _ Hmax Hreq Hr).
  - apply api_request_effects in Hreq. destruct Hreq as [Hy _]. exact Hy.
  - exact (search_loop_without_results world config _ _ _ _ _ _ _ _ Hmax Hreq Hr).
  - apply api_request_effects in Hreq. destruct Hreq as [Hy _]. exact Hy.
Qed.

(** X4: a single page that is the last one is delivered whole.  When the
    first response is a 200 with no more items than the cap, whose page
    information announces at most one page, both searches yield the records
    of all its items, in the provider's order, and end after that one
    request. *)
Theorem search_single_page_is_delivered :
  0 < ScraperInput.max_results config ->
  let size := Z.min _TM_PAGE_SIZE (ScraperInput.max_results config) in
  (forall resp st1 items page_info recs,
     _api_request world config "events.json" (event_params config size 0) initial
     = (Ok (Some resp), st1) ->
     status_code resp = 200 ->
     read_page "events" resp = Ok (Some (items, JObj page_info)) ->
     Z.of_nat (List.length items) <= ScraperInput.max_results config ->
     normalize_each world event_record 0 items = Ok recs ->
     last_page page_info ->
     _search_events world config initial
     = (Finished, {| gets := gets st1; trace := trace st1; yielded := recs |}))
  /\ (forall resp st1 items page_info recs,
        _api_request world config "venues.json" (venue_params config size 0) initial
        = (Ok (Some resp), st1) ->
        status_code resp = 200 ->
        read_page "venues" resp = Ok (Some (items, JObj page_info)) ->
        Z.of_nat (List.length items) <= ScraperInput.max_results config ->
        normalize_each world venue_record 0 items = Ok recs ->
        last_page page_info ->
        _search_venues world config initial
        = (Finished, {| gets := gets st1; trace := trace st1; yielded := recs |})).
Proof.
  intros Hmax size.
  split; intros resp st1 items page_info recs Hreq Hs Hp Hlen Hrecs Hlast.
  - exact (search_loop_single_page world config _ _ _ _ _ _ _ _ _ _ _
             Hmax Hreq Hs Hp Hlen Hrecs Hlast).
  - exact (search_loop_single_page world config _ _ _ _ _ _ _ _ _ _ _
             Hmax Hreq Hs Hp Hlen Hrecs Hlast).
Qed.

(** X5: the size of the second page is recomputed from the room left.
    When the first page of the event search holds fewer items than the cap
    and more pages are announced, the next request asks for page 1 with size
    min(200, max_results - items of the first page), not with the size of the
    first request. *)
Theorem search_second_page_request :
  let size := Z.min _TM_PAGE_SIZE (ScraperInput.max_results config) in
  forall resp st1 items page_info recs pages,
    _api_request world config "events.json" (event_params config size 0) initial
    = (Ok (Some resp), st1) ->
    status_code resp = 200 ->
    read_page "events" resp = Ok (Some (items, JObj page_info)) ->
    Z.of_nat (List.length items) < ScraperInput.max_results config ->
    normalize_each world event_record 0 items = Ok recs ->
    lookup "totalPages" page_info = Some (JInt pages) ->
    1 < pages ->
    let size1 := Z.min _TM_PAGE_SIZE
                   (ScraperInput.max_results config
                    - Z.of_nat (List.length items)) in
    exists ps1 es,
      asks_for ps1 size1 1
      /\ trace (snd (_search_events world config initial))
         = (trace st1 ++
            RateLimitWait :: HttpGet (_TM_BASE ++ "/" ++ "events.json") ps1 :: es)%list.
Proof.
  intros size resp st1 items page_info recs pages Hreq Hs Hp Hlen Hrecs Hpages
    Hmore size1.
  destruct (search_loop_second_page world config "events.json" "events"
              (event_params config) event_record (Z.to_nat 999) initial resp st1
              items page_info recs pages Hreq Hs Hp Hlen Hrecs Hpages Hmore)
    as [es Hes].
  eexists. exists es. split; [|exact Hes].
  apply asks_for_apikey. apply event_params_ask.
Qed.

Lemma get_event_yields_at_most_one :
  (List.length (yielded (snd (_get_event world config initial))) <= 1)%nat.
Proof.
  unfold _get_event.
  destruct (_api_request world config _ [] initial) as [r st1] eqn:Hreq.
  apply api_request_effects in Hreq. destruct Hreq as [Hy _]. simpl in Hy.
  destruct r as [[resp|]| | |]; cbn [snd]; try (rewrite Hy; simpl; lia).
  destruct (status_code resp =? 404).
  { cbn [snd yield yielded]. rewrite Hy. simpl. lia. }
  destruct (negb (status_code resp =? 200)); [cbn [snd]; rewrite Hy; simpl; lia|].
  destruct (event_data <- resp_json resp;;
            event_record (clock world (List.length (yielded st1))) event_data);
    cbn [snd yield yielded]; rewrite Hy; simpl; lia.
Qed.

(** X6: in every mode and against every provider, [run] never yields more
    than the configuration allows: at most one record for a lookup, at most
    [max_results] records (none when that is not positive) for a search. *)
Theorem run_respects_cap :
  Z.of_nat (List.length (yielded (snd (run world config initial))))
  <= if (ScraperInput.mode config =? "search")%string
     then Z.max 0 (ScraperInput.max_results config)
     else if (ScraperInput.mode config =? "get_event")%string then 1
     else Z.max 0 (ScraperInput.max_results config).
Proof.
  unfold run.
  destruct (ScraperInput.mode config =? "search")%string.
  { apply search_loop_bounded. }
  destruct (ScraperInput.mode config =? "get_event")%string.
  { pose proof get_event_yields_at_most_one. lia. }
  destruct (ScraperInput.mode config =? "venues")%string.
  { apply search_loop_bounded. }
  simpl. lia.
Qed.

Lemma prefix_append (a b : string) : prefix a (a ++ b) = true.
Proof.
  induction a as [|c a IH]; simpl.
  - destruct b; reflexivity.
  - destruct (ascii_dec c c); [exact IH | congruence].
Qed.

Lemma string_append_assoc (a b c : string) : (a ++ b) ++ c = a ++ b ++ c.
Proof. induction a as [|x a IH]; simpl; [reflexivity | rewrite IH; reflexivity]. Qed.

Lemma api_request_authenticated (endpoint : string) (ps : params)
  (st : state) (r : result (option Response)) (st' : state) :
  Forall (authenticated config) (trace st) ->
  _api_request world config endpoint ps st = (r, st') ->
  Forall (authenticated config) (trace st').
Proof.
  intros HI Hreq.
  apply api_request_effects in Hreq. destruct Hreq as [_ [es [Ht Hes]]].
  rewrite Ht. apply Forall_app. split; [exact HI|].
  assert (Hget : authenticated config
            (HttpGet (_TM_BASE ++ "/" ++ endpoint)
               (dict_set "apikey" (PStr (ScraperInput.api_key config)) ps))).
  { split; [apply lookup_dict_set_same|].
    rewrite <- (string_append_assoc _TM_BASE "/" endpoint).
    exact (prefix_append (_TM_BASE ++ "/") endpoint). }
  constructor; [exact I|]. constructor; [exact Hget|].
  eapply Forall_impl; [|exact Hes].
  intros e0 [E | [E | [w E]]]; subst; [exact I | exact Hget | exact I].
Qed.

Lemma search_loop_authenticated (endpoint key : string)
  (build : Z -> Z -> params) (normalize : string -> json -> result record) :
  Forall (authenticated config)
    (trace (snd (search_loop world config search_fuel endpoint key build
                   normalize 0 0 initial))).
Proof.
  destruct (search_loop world config search_fuel endpoint key build
              normalize 0 0 initial) as [e st'] eqn:Hrun.
  pose (Inv := fun (_ : Z) (s : state) => Forall (authenticated config) (trace s)).
  cut (exists t, Inv t st'); [intros [t Ht]; exact Ht|].
  apply (search_loop_invariant world config endpoint key build normalize Inv)
    with (fuel := search_fuel) (page := 0) (total := 0) (st := initial) (e := e).
  - intros p tot s r s' HI _ page_size _ Hreq.
    exact (api_request_authenticated _ _ _ _ _ HI Hreq).
  - intros tot s item r HI _ _. exact HI.
  - constructor.
  - exact Hrun.
Qed.

(** X7: every GET of a run, in any mode, goes to a URL under the
    provider's base and carries the configured API key as "apikey". *)
Theorem run_requests_carry_api_key :
  Forall (authenticated config) (trace (snd (run world config initial))).
Proof.
  unfold run.
  destruct (ScraperInput.mode config =? "search")%string.
  { apply search_loop_authenticated. }
  destruct (ScraperInput.mode config =? "get_event")%string.
  { unfold _get_event.
    destruct (_api_request world config _ [] initial) as [r st1] eqn:Hreq.
    assert (H1 : Forall (authenticated config) (trace st1))
      by (eapply api_request_authenticated; [|exact Hreq]; constructor).
    destruct r as [[resp|]| | |]; try exact H1.
    destruct (status_code resp =? 404); [exact H1|].
    destruct (negb (status_code resp =? 200)); [exact H1|].
    destruct (event_data <- resp_json resp;;
              event_record (clock world (List.length (yielded st1))) event_data);
      exact H1. }
  destruct (ScraperInput.mode config =? "venues")%string.
  { apply search_loop_authenticated. }
  constructor.
Qed.

End Searches.

(** A search answered by a page without "_embedded": no record, one GET. *)
Lemma search_without_results_stops_witness :
  _search_events (constant_world (Reply empty_page)) rock_150 initial
  = (Finished,
     {| gets := 1;
        trace := [ RateLimitWait;
                   HttpGet "https://app.ticketmaster.com/discovery/v2/events.json"
                     [ ("size", PInt 150); ("page", PInt 0);
                       ("keyword", PStr "rock"); ("sort", PStr "relevance,desc");
                       ("apikey", PStr "key") ] ];
        yielded := [] |}).
Proof.
  destruct (search_without_results_stops (constant_world (Reply empty_page))
              rock_150 eq_refl) as [He _].
  destruct (He (Some empty_page)
              (snd (_api_request (constant_world (Reply empty_page)) rock_150
                      "events.json" (event_params rock_150 150 0) initial)))
    as [H _].
  - reflexivity.
  - right. eexists. split; [reflexivity | exact I].
  - rewrite H. reflexivity.
Defined.

(** A search answered by a single page of three events: three records,
    one GET. *)
Lemma search_single_page_is_delivered_witness :
  let run := _search_events (constant_world (Reply (page_of 3 1))) rock_150
               initial in
  fst run = Finished
  /\ List.length (yielded (snd run)) = 3%nat
  /\ gets (snd run) = 1%nat.
Proof.
  intro run.
  destruct (search_single_page_is_delivered
              (constant_world (Reply (page_of 3 1))) rock_150 eq_refl)
    as [He _].
  pose (recs := match normalize_each (constant_world (Reply (page_of 3 1)))
                        event_record 0 (repeat (JObj [("name", JStr "Show")]) 3)
                with Ok l => l | _ => [] end).
  pose (st1 := snd (_api_request (constant_world (Reply (page_of 3 1)))
                      rock_150 "events.json" (event_params rock_150 150 0)
                      initial)).
  assert (H : run = (Finished,
            {| gets := gets st1; trace := trace st1; yielded := recs |})).
  { apply (He (page_of 3 1) st1 (repeat (JObj [("name", JStr "Show")]) 3)
              [("totalElements", JInt 40); ("totalPages", JInt 1)] recs).
    - reflexivity.
    - reflexivity.
    - reflexivity.
    - simpl. lia.
    - vm_compute. reflexivity.
    - eexists. split; [reflexivity | lia]. }
  rewrite H. vm_compute. repeat split.
Defined.

(** A search capped at 150 whose first page holds 40 events of 5 pages:
    the second request asks for page 1 with size 110. *)
Lemma search_second_page_request_witness :
  exists ps1 es,
    asks_for ps1 110 1
    /\ trace (snd (_search_events (constant_world (Reply (page_of 40 5)))
                     rock_150 initial))
       = RateLimitWait
         :: HttpGet "https://app.ticketmaster.com/discovery/v2/events.json"
              [ ("size", PInt 150); ("page", PInt 0); ("keyword", PStr "rock");
                ("sort", PStr "relevance,desc"); ("apikey", PStr "key") ]
         :: RateLimitWait
         :: HttpGet "https://app.ticketmaster.com/discovery/v2/events.json" ps1
         :: es.
Proof.
  pose (recs := match normalize_each (constant_world (Reply (page_of 40 5)))
                        event_record 0 (repeat (JObj [("name", JStr "Show")]) 40)
                with Ok l => l | _ => [] end).
  destruct (search_second_page_request
              (constant_world (Reply (page_of 40 5))) rock_150
              (page_of 40 5)
              (snd (_api_request (constant_world (Reply (page_of 40 5))) rock_150
                      "events.json" (event_params rock_150 150 0) initial))
              (repeat (JObj [("name", JStr "Show")]) 40)
              [("totalElements", JInt 40); ("totalPages", JInt 5)] recs 5)
    as [ps1 [es [Hask Ht]]].
  - reflexivity.
  - reflexivity.
  - reflexivity.
  - simpl. lia.
  - vm_compute. reflexivity.
  - reflexivity.
  - lia.
  - exists ps1, es. split; [exact Hask | exact Ht].
Defined.

(** ** main.py: the push loop *)

Lemma pushed_items_app (a b : list actor_effect) :
  pushed_items (a ++ b) = (pushed_items a ++ pushed_items b)%list.
Proof. apply flat_map_app. Qed.

Lemma push_sizes_app (ok : nat -> Prop) (a b : list actor_effect) :
  push_sizes ok a -> push_sizes ok b -> push_sizes ok (a ++ b).
Proof. intros Ha Hb. apply Forall_app. split; assumption. Qed.

Lemma firstn_prefix {A : Type} (l rest all : list A) :
  (l ++ rest)%list = all -> firstn (List.length l) all = l.
Proof.
  intro H. subst all. rewrite firstn_app, Nat.sub_diag, firstn_all.
  simpl. apply app_nil_r.
Qed.

Section PushLoop.

Variable config : ScraperInput.t.
Variable max_results : Z.

(** One turn of the loop, with the flush written out. *)
Lemma push_loop_cons (r : record) (rest : list record) (s : pusher) :
  push_loop config max_results (r :: rest) s
  = if total_pushed s >=? max_results then (true, s)
    else
      let b1 := (batch s ++ [r])%list in
      if Z.of_nat (List.length b1) >=? _BATCH_SIZE then
        let flush := slice_to (max_results - total_pushed s) b1 in
        let total := total_pushed s + Z.of_nat (List.length flush) in
        let s3 := {| total_pushed := total;
                     batch := [];
                     calls := ((calls s ++ [PushData flush; SaveTotalPushed total])
                               ++ [SetStatusMessage
                                     ("Found " ++ str_of_int total ++ " "
                                      ++ item_type config ++ "...")])%list |} in
        if total >=? max_results then (true, s3)
        else push_loop config max_results rest s3
      else push_loop config max_results rest
             {| total_pushed := total_pushed s; batch := b1; calls := calls s |}.
Proof. reflexivity. Qed.

(** What the loop does to its variables: the pushes are consecutive
    stretches of the records taken in, none larger than a batch, the count
    follows them and does not pass the limit; the loop leaves through [break]
    only with the limit reached, and otherwise has pushed whole batches and
    holds the rest. *)
Lemma push_loop_spec (records : list record) :
  forall s broke s',
    push_loop config max_results records s = (broke, s') ->
    (List.length (batch s) < 25)%nat ->
    (total_pushed s < max_results \/ batch s = []) ->
    exists new,
      calls s' = (calls s ++ new)%list
      /\ total_pushed s'
         = total_pushed s + Z.of_nat (List.length (pushed_items new))
      /\ total_pushed s' <= Z.max (total_pushed s) max_results
      /\ (List.length (batch s') < 25)%nat
      /\ (total_pushed s' < max_results \/ batch s' = [])
      /\ push_sizes (fun n => (n <= 25)%nat) new
      /\ (exists dropped,
            (pushed_items new ++ batch s' ++ dropped)%list
            = (batch s ++ records)%list)
      /\ (broke = false ->
          (pushed_items new ++ batch s')%list = (batch s ++ records)%list
          /\ push_sizes (fun n => n = 25%nat) new)
      /\ (broke = true -> max_results <= total_pushed s').
Proof.
  induction records as [|r rest IH]; intros s broke s' H Hlen Hinv.
  - simpl in H. inversion H; subst s' broke. exists []. rewrite !app_nil_r.
    cbn [pushed_items flat_map List.length app].
    split; [reflexivity|]. split; [lia|]. split; [lia|].
    split; [exact Hlen|]. split; [exact Hinv|]. split; [constructor|].
    split; [exists []; rewrite app_nil_r; reflexivity|].
    split; [intros _; split; [reflexivity | constructor] | discriminate].
  - rewrite push_loop_cons in H.
    destruct (total_pushed s >=? max_results) eqn:Ecap.
    { inversion H; subst s' broke. exists []. rewrite !app_nil_r.
      cbn [pushed_items flat_map List.length app].
      split; [reflexivity|]. split; [lia|]. split; [lia|].
      split; [exact Hlen|]. split; [exact Hinv|]. split; [constructor|].
      split; [exists (r :: rest); reflexivity|].
      split; [discriminate|].
      intros _. rewrite Z.geb_leb in Ecap. apply Z.leb_le in Ecap. exact Ecap. }
    apply geb_false_lt in Ecap.
    cbv zeta in H.
    assert (Hb1 : List.length (batch s ++ [r]) = S (List.length (batch s))).
    { rewrite length_app. simpl. lia. }
    destruct (Z.of_nat (List.length (batch s ++ [r])) >=? _BATCH_SIZE) eqn:Efull.
    + rewrite Z.geb_leb in Efull. apply Z.leb_le in Efull.
      unfold _BATCH_SIZE in Efull.
      assert (H25 : List.length (batch s ++ [r]) = 25%nat) by lia.
      unfold slice_to in H.
      assert (Hpos : (0 <=? max_results - total_pushed s) = true)
        by (apply Z.leb_le; lia).
      rewrite Hpos in H.
      set (k := Z.to_nat (max_results - total_pushed s)) in *.
      set (flush := firstn k (batch s ++ [r])) in *.
      assert (Hfl : List.length flush = Nat.min k 25).
      { unfold flush. rewrite length_firstn, H25. reflexivity. }
      set (total := total_pushed s + Z.of_nat (List.length flush)) in *.
      set (msg := SetStatusMessage
                    ("Found " ++ str_of_int total ++ " " ++ item_type config
                     ++ "...")) in *.
      destruct (total >=? max_results) eqn:Edone.
      * rewrite Z.geb_leb in Edone. apply Z.leb_le in Edone.
        inversion H; subst s' broke.
        exists [PushData flush; SaveTotalPushed total; msg].
        cbn [calls total_pushed batch pushed_items flat_map List.length app].
        rewrite !app_nil_r.
        split; [rewrite <- app_assoc; reflexivity|].
        split; [reflexivity|]. split; [unfold total, k in *; lia|].
        split; [lia|]. split; [right; reflexivity|].
        split.
        { constructor; [lia|]. constructor; [exact I|].
          constructor; [exact I | constructor]. }
        split.
        { exists (skipn k (batch s ++ [r]) ++ rest)%list.
          unfold flush. rewrite app_assoc, firstn_skipn, <- app_assoc.
          reflexivity. }
        split; [discriminate | intros _; exact Edone].
      * apply geb_false_lt in Edone.
        assert (Hall : flush = (batch s ++ [r])%list).
        { unfold flush. apply firstn_all2. unfold total, k in *. lia. }
        apply IH in H; [|simpl; lia | right; reflexivity].
        destruct H as [new [Hc [Ht [Hle [Hl [Hi [Hs [[dropped Hd] [Hnb Hbr]]]]]]]]].
        cbn [calls total_pushed batch app] in Hc, Ht, Hle, Hd, Hnb.
        exists ([PushData flush; SaveTotalPushed total; msg] ++ new)%list.
        rewrite pushed_items_app.
        cbn [pushed_items flat_map List.length app]. rewrite app_nil_r.
        fold (pushed_items new).
        split; [rewrite Hc, <- !app_assoc; reflexivity|].
        split; [rewrite Ht, length_app; unfold total; lia|].
        split; [unfold total in *; lia|].
        split; [exact Hl|]. split; [exact Hi|].
        split.
        { constructor; [lia|]. constructor; [exact I|].
          constructor; [exact I | exact Hs]. }
        split.
        { exists dropped. rewrite <- !app_assoc. rewrite Hd, Hall.
          rewrite <- app_assoc. reflexivity. }
        split; [|exact Hbr].
        intro Eb. destruct (Hnb Eb) as [Heq Hex]. split.
        { rewrite <- app_assoc, Heq, Hall, <- app_assoc. reflexivity. }
        constructor; [lia|]. constructor; [exact I|].
        constructor; [exact I | exact Hex].
    + apply geb_false_lt in Efull. unfold _BATCH_SIZE in Efull.
      apply IH in H; [|simpl; lia | left; exact Ecap].
      destruct H as [new [Hc [Ht [Hle [Hl [Hi [Hs [[dropped Hd] [Hnb Hbr]]]]]]]]].
      cbn [calls total_pushed batch] in Hc, Ht, Hle, Hd, Hnb.
      exists new.
      split; [exact Hc|]. split; [exact Ht|]. split; [exact Hle|].
      split; [exact Hl|]. split; [exact Hi|]. split; [exact Hs|].
      split.
      { exists dropped. rewrite Hd, <- app_assoc. reflexivity. }
      split; [|exact Hbr].
      intro Eb. destruct (Hnb Eb) as [Heq Hex]. split; [|exact Hex].
      rewrite Heq, <- app_assoc. reflexivity.
Qed.

End PushLoop.

(** Settles a goal on the sizes of the pushes of a list of calls. *)
Ltac sizes :=
  unfold push_sizes in *;
  repeat first [ apply Forall_nil | apply Forall_cons
               | apply Forall_app; split | exact I | assumption | lia ].

Section Main.

Context {host : Host}.
Variable p : Platform.
Variable w : World.

(** What [main] pushes once the configuration is accepted. *)
Lemma scrape_and_push_spec (config : ScraperInput.t) (e : ending)
  (cs : list actor_effect) :
  scrape_and_push p w config = (e, cs) ->
  push_sizes (fun n => (n <= 25)%nat) cs
  /\ (exists dropped, (pushed_items cs ++ dropped)%list = scraped w config)
  /\ (List.length (pushed_items cs) <= room p config)%nat
  /\ (e = Finished ->
      pushed_items cs = firstn (room p config) (scraped w config))
  /\ (e <> Finished ->
      e = fst (run w config initial)
      /\ push_sizes (fun n => n = 25%nat) cs
      /\ exists lost,
           (pushed_items cs ++ lost)%list = scraped w config
           /\ (List.length lost < 25)%nat).
Proof.
  unfold scrape_and_push, scraped, room.
  set (limit := result_limit p config). set (total0 := resumed_total p).
  set (start := SetStatusMessage _).
  destruct (run w config initial) as [ended st] eqn:Hrun. cbn [snd fst].
  destruct (push_loop config limit (yielded st)
              {| total_pushed := total0; batch := []; calls := [start] |})
    as [broke s'] eqn:Hloop.
  apply push_loop_spec in Hloop; [|simpl; lia | right; reflexivity].
  destruct Hloop as [new [Hc [Ht [Hle [Hl [Hi [Hs [[dropped Hd] [Hnb Hbr]]]]]]]]].
  cbn [calls total_pushed batch app] in Hc, Ht, Hle, Hd, Hnb.
  set (done := SetStatusMessage _).
  assert (Hstart : pushed_items (start :: new) = pushed_items new) by reflexivity.
  assert (Hfin :
    (broke = true \/ ended = Finished) ->
    ((Finished,
      (calls (if (match batch s' with [] => false | _ => true end)
                 && (total_pushed s' <? limit)
              then push_batch limit s' else s') ++ [done])%list) = (e, cs)) ->
    push_sizes (fun n => (n <= 25)%nat) cs
    /\ (exists dropped0, (pushed_items cs ++ dropped0)%list = yielded st)
    /\ (List.length (pushed_items cs) <= Z.to_nat (limit - total0))%nat
    /\ (e = Finished ->
        pushed_items cs = firstn (Z.to_nat (limit - total0)) (yielded st))
    /\ (e <> Finished ->
        e = ended
        /\ push_sizes (fun n => n = 25%nat) cs
        /\ exists lost,
             (pushed_items cs ++ lost)%list = yielded st
             /\ (List.length lost < 25)%nat)).
  { intros Hwhy H.
    destruct (batch s') as [|b0 bs] eqn:Eb.
    - cbn [andb] in H. inversion H; subst e cs. rewrite Hc.
      rewrite pushed_items_app, Hstart.
      cbn [pushed_items flat_map app]. rewrite app_nil_r.
      fold (pushed_items new).
      rewrite app_nil_l in Hd.
      assert (Hroom : (List.length (pushed_items new)
                       <= Z.to_nat (limit - total0))%nat) by lia.
      split; [sizes|].
      split; [exists dropped; exact Hd|].
      split; [exact Hroom|].
      split; [|congruence].
      intros _. destruct Hwhy as [Hb | He].
      + specialize (Hbr Hb).
        assert (Hn : Z.to_nat (limit - total0)
                     = List.length (pushed_items new)) by lia.
        rewrite Hn. symmetry. exact (firstn_prefix _ _ _ Hd).
      + destruct broke; [specialize (Hbr eq_refl);
          assert (Hn : Z.to_nat (limit - total0)
                       = List.length (pushed_items new)) by lia;
          rewrite Hn; symmetry; exact (firstn_prefix _ _ _ Hd)|].
        destruct (Hnb eq_refl) as [Heq _]. rewrite app_nil_r in Heq.
        simpl in Heq. rewrite <- Heq. symmetry. apply firstn_all2. exact Hroom.
    - assert (Hlt : total_pushed s' < limit)
        by (destruct Hi as [Hi | Hi]; [exact Hi | discriminate]).
      assert (Ecmp : (total_pushed s' <? limit) = true) by (apply Z.ltb_lt; lia).
      rewrite Ecmp in H. cbn [andb] in H.
      destruct broke; [specialize (Hbr eq_refl); lia|].
      destruct (Hnb eq_refl) as [Heq _]. simpl in Heq.
      unfold push_batch, slice_to in H. rewrite Eb in H.
      assert (Hpos : (0 <=? limit - total_pushed s') = true)
        by (apply Z.leb_le; lia).
      rewrite Hpos in H. cbn [calls] in H.
      set (k := Z.to_nat (limit - total_pushed s')) in *.
      set (flush := firstn k (b0 :: bs)) in *.
      assert (Hfl : (List.length flush <= k)%nat
                    /\ (List.length flush <= List.length (b0 :: bs))%nat).
      { unfold flush. rewrite length_firstn. lia. }
      inversion H; subst e cs. rewrite Hc.
      rewrite !pushed_items_app, Hstart.
      cbn [pushed_items flat_map app]. rewrite !app_nil_r.
      fold (pushed_items new).
      assert (Hn : Z.to_nat (limit - total0)
                   = (List.length (pushed_items new) + k)%nat)
        by (unfold k; lia).
      split; [sizes|].
      split.
      { exists (skipn k (b0 :: bs)). rewrite <- app_assoc.
        unfold flush. rewrite firstn_skipn. exact Heq. }
      split; [rewrite length_app; lia|].
      split; [|congruence].
      intros _. rewrite Hn, <- Heq, firstn_app_2. reflexivity. }
  intro H. cbv beta iota zeta in H.
  destruct broke; [apply Hfin; [left; reflexivity | exact H]|].
  destruct ended;
    try (apply Hfin; [right; reflexivity | exact H]);
    (inversion H; subst e cs; rewrite Hc, Hstart;
     destruct (Hnb eq_refl) as [Heq Hex]; simpl in Heq;
     (split; [constructor; [exact I | exact Hs] |]);
     (split; [exists (batch s'); exact Heq |]);
     (split; [lia |]);
     (split; [discriminate |]);
     intros _;
     (split; [reflexivity |]);
     (split; [constructor; [exact I | exact Hex] |]);
     exists (batch s'); split; [exact Heq | exact Hl]).
Qed.

End Main.

(** Every error string of [validate_input] is non-empty, so that [main]
    takes it for an error. *)
Lemma validation_error_truthy (c : ScraperInput.t) (err : string) :
  ScraperInput.validate_input c = Some err -> Str.truthy err = true.
Proof.
  unfold ScraperInput.validate_input. intro H.
  repeat match type of H with
         | (if ?b then _ else _) = _ => destruct b
         end;
    inversion H; reflexivity.
Qed.

Section MainProperties.

Context {host : Host}.
Variable p : Platform.
Variable w : World.

Lemma main_configured (config : ScraperInput.t) :
  configured p config ->
  main p w
  = match ScraperInput.validate_input config with
    | Some err => (Finished, [SetStatusMessage ("Error: " ++ err); Fail err])
    | None => scrape_and_push p w config
    end.
Proof.
  unfold configured, main. intro H. rewrite H.
  destruct (ScraperInput.validate_input config) as [err|] eqn:Ev; [|reflexivity].
  rewrite (validation_error_truthy _ _ Ev). reflexivity.
Qed.

(** X8: a configuration that [validate_input] rejects never reaches the
    scraper.  Whatever the platform and the provider, [main] sets the status
    message to the error, fails the run with it and returns: nothing is
    pushed and no state is saved. *)
Theorem main_rejects_invalid_input (config : ScraperInput.t) (err : string) :
  configured p config ->
  ScraperInput.validate_input config = Some err ->
  main p w = (Finished, [SetStatusMessage ("Error: " ++ err); Fail err]).
Proof.
  intros Hc Hv. rewrite (main_configured _ Hc), Hv. reflexivity.
Qed.

Lemma main_spec (config : ScraperInput.t) (e : ending)
  (cs : list actor_effect) :
  configured p config ->
  main p w = (e, cs) ->
  push_sizes (fun n => (n <= 25)%nat) cs
  /\ (exists dropped, (pushed_items cs ++ dropped)%list = scraped w config)
  /\ (List.length (pushed_items cs) <= room p config)%nat
  /\ (ScraperInput.validate_input config = None -> e = Finished ->
      pushed_items cs = firstn (room p config) (scraped w config))
  /\ (e <> Finished ->
      e = fst (run w config initial)
      /\ push_sizes (fun n => n = 25%nat) cs
      /\ exists lost,
           (pushed_items cs ++ lost)%list = scraped w config
           /\ (List.length lost < 25)%nat).
Proof.
  intros Hc H. rewrite (main_configured _ Hc) in H.
  destruct (ScraperInput.validate_input config) as [err|].
  - inversion H; subst e cs. cbn [pushed_items flat_map app List.length].
    split; [sizes|]. split; [eexists; reflexivity|]. split; [lia|].
    split; [discriminate | congruence].
  - destruct (scrape_and_push_spec p w config e cs H)
      as [H1 [H2 [H3 [H4 H5]]]].
    split; [exact H1|]. split; [exact H2|]. split; [exact H3|].
    split; [intros _; exact H4 | exact H5].
Qed.

(** X9: [main] never pushes more than it may.  Whatever the provider
    answers, every push holds at most 25 records, the records pushed are, in
    order, the first ones the scraper yields, and their number is at most the
    result limit less the count an earlier run of the actor saved. *)
Theorem main_pushes_within_limit (config : ScraperInput.t) (e : ending)
  (cs : list actor_effect) :
  configured p config ->
  main p w = (e, cs) ->
  push_sizes (fun n => (n <= 25)%nat) cs
  /\ (exists dropped, (pushed_items cs ++ dropped)%list = scraped w config)
  /\ (List.length (pushed_items cs) <= room p config)%nat.
Proof.
  intros Hc H. destruct (main_spec config e cs Hc H) as [H1 [H2 [H3 _]]].
  split; [exact H1|]. split; [exact H2 | exact H3].
Qed.

(** X10: when [main] runs a valid configuration to its end, the dataset
    holds exactly the first records the scraper yields, as many as the result
    limit less the saved count allows, and all of them when they are fewer:
    the last, incomplete batch is flushed, cut to the room left. *)
Theorem main_delivers_up_to_limit (config : ScraperInput.t)
  (cs : list actor_effect) :
  configured p config ->
  ScraperInput.validate_input config = None ->
  main p w = (Finished, cs) ->
  pushed_items cs = firstn (room p config) (scraped w config).
Proof.
  intros Hc Hv H. destruct (main_spec config Finished cs Hc H) as [_ [_ [_ [H4 _]]]].
  exact (H4 Hv eq_refl).
Qed.


(** X12: the free tier.  On the platform, for a user who does not pay and
    a run that does not resume an earlier one with a negative count, [main]
    pushes at most 25 records whatever [maxResults] asks for. *)
Theorem main_free_tier_cap (config : ScraperInput.t) (e : ending)
  (cs : list actor_effect) :
  configured p config ->
  env_flag p "APIFY_IS_AT_HOME" = true ->
  env_flag p "APIFY_USER_IS_PAYING" = false ->
  0 <= resumed_total p ->
  main p w = (e, cs) ->
  (List.length (pushed_items cs) <= 25)%nat.
Proof.
  intros Hc Hhome Hpay Hres H.
  destruct (main_spec config e cs Hc H) as [_ [_ [H3 _]]].
  unfold room, result_limit in H3. rewrite Hhome, Hpay in H3.
  cbn [andb negb] in H3. unfold _FREE_TIER_LIMIT in H3. lia.
Qed.

End MainProperties.

(** An input without an API key is turned down before any request. *)
Lemma main_rejects_invalid_input_witness :
  main (local_platform keyless_input) (constant_world HTTPError)
  = (Finished,
     [ SetStatusMessage
         ("Error: Ticketmaster API key is required. "
          ++ "Get one for free at https://developer.ticketmaster.com/");
       Fail ("Ticketmaster API key is required. "
             ++ "Get one for free at https://developer.ticketmaster.com/") ]).
Proof.
  apply (main_rejects_invalid_input (local_platform keyless_input)
           (constant_world HTTPError) keyless_rock).
  - vm_compute. reflexivity.
  - vm_compute. reflexivity.
Defined.

(** A search capped at 30 against a provider whose pages hold 40 events:
    30 records are pushed, in batches of at most 25. *)
Lemma main_pushes_within_limit_witness :
  let cs := snd (main (local_platform rock_30_input)
                   (constant_world (Reply (page_of 40 1)))) in
  push_sizes (fun n => (n <= 25)%nat) cs
  /\ (List.length (pushed_items cs) <= 30)%nat.
Proof.
  intro cs.
  destruct (main (local_platform rock_30_input)
              (constant_world (Reply (page_of 40 1)))) as [e cs0] eqn:E.
  destruct (main_pushes_within_limit (local_platform rock_30_input)
              (constant_world (Reply (page_of 40 1))) rock_30 e cs0)
    as [H1 [_ H3]].
  - vm_compute. reflexivity.
  - exact E.
  - split; [exact H1 | exact H3].
Defined.

(** The same run delivers the 30 records of the cap: 25 in the loop and 5 in
    the last flush. *)
Lemma main_delivers_up_to_limit_witness :
  let w := constant_world (Reply (page_of 40 1)) in
  exists cs,
    main (local_platform rock_30_input) w = (Finished, cs)
    /\ pushed_items cs = firstn 30 (scraped w rock_30)
    /\ List.length (pushed_items cs) = 30%nat.
Proof.
  intro w.
  destruct (main (local_platform rock_30_input) w) as [e cs] eqn:E.
  assert (He : e = Finished) by (vm_compute in E; congruence).
  subst e. exists cs. split; [reflexivity|].
  assert (H : pushed_items cs
              = firstn (room (local_platform rock_30_input) rock_30)
                  (scraped w rock_30)).
  { apply (main_delivers_up_to_limit (local_platform rock_30_input) w rock_30 cs).
    - vm_compute. reflexivity.
    - vm_compute. reflexivity.
    - exact E. }
  split; [exact H|]. rewrite H. vm_compute. reflexivity.
Defined.


(** On the free tier a search capped at 30 pushes 25 records at most. *)
Lemma main_free_tier_cap_witness :
  (List.length
     (pushed_items (snd (main (free_platform rock_30_input)
                           (constant_world (Reply (page_of 40 1))))))
   <= 25)%nat.
Proof.
  destruct (main (free_platform rock_30_input)
              (constant_world (Reply (page_of 40 1)))) as [e cs] eqn:E.
  apply (main_free_tier_cap (free_platform rock_30_input)
           (constant_world (Reply (page_of 40 1))) rock_30 e cs).
  - vm_compute. reflexivity.
  - reflexivity.
  - reflexivity.
  - vm_compute. discriminate.
  - exact E.
Defined.

(** ** models.py: from_actor_input *)

Section ActorInput.

Context {host : Host}.

Lemma validate_str_inv (v : json) (s : string) :
  validate_str v = Ok s -> v = JStr s.
Proof. destruct v; simpl; intro H; inversion H; reflexivity. Qed.

(** X13: the configuration is read from the camelCase keys of the actor
    input.  For every input object that [from_actor_input] accepts, each
    string field of the configuration is the string found under its key
    ("apiKey", "eventId", "stateCode", ...) and the default of the class when
    the key is missing; a value that is not a string, a null included, is not
    accepted. *)
Theorem from_actor_input_reads_camel_case (kvs : list (string * json))
  (c : ScraperInput.t) :
  from_actor_input (JObj kvs) = Ok c ->
  Forall (read_from kvs c) string_fields.
Proof.
  intro H. unfold from_actor_input in H. cbn [Py.get bind] in H.
  invert_binds H. inversion H; subst c; clear H.
  unfold string_fields.
  repeat constructor; cbn [read_from ScraperInput.api_key ScraperInput.mode
    ScraperInput.keyword ScraperInput.event_id ScraperInput.city
    ScraperInput.state_code ScraperInput.country_code ScraperInput.postal_code
    ScraperInput.latlong ScraperInput.unit ScraperInput.classification_name
    ScraperInput.start_date_time ScraperInput.end_date_time ScraperInput.sort
    ScraperInput.source ScraperInput.include_family];
    match goal with
    | |- match lookup ?k kvs with _ => _ end =>
        match goal with
        | E : validate_str (match lookup k kvs with _ => _ end) = Ok _ |- _ =>
            apply validate_str_inv in E;
            destruct (lookup k kvs); [exact E | inversion E; reflexivity]
        end
    end.
Qed.

Lemma validate_max_results_bounds (v : json) (z : Z) :
  validate_max_results v = Ok z -> 1 <= z <= 1000.
Proof.
  unfold validate_max_results. intro H. apply bind_Ok in H.
  destruct H as [z' [_ H]].
  destruct ((1 <=? z') && (z' <=? 1000)) eqn:E; [|discriminate].
  inversion H; subst z'. apply andb_true_iff in E.
  destruct E as [E1 E2]. apply Z.leb_le in E1. apply Z.leb_le in E2. lia.
Qed.

Lemma validate_interval_bounds (v : json) (f : float) :
  validate_interval v = Ok f ->
  PrimFloat.leb 0x1.999999999999ap-3%float f = true
  /\ PrimFloat.leb f 5%float = true.
Proof.
  unfold validate_interval. intro H. apply bind_Ok in H.
  destruct H as [f' [_ H]].
  destruct (PrimFloat.leb 0x1.999999999999ap-3%float f'
            && PrimFloat.leb f' 5%float) eqn:E; [|discriminate].
  inversion H; subst f'. apply andb_true_iff in E. exact E.
Qed.

(** X14: the bounds of an accepted input hold for the run.  A
    configuration that [from_actor_input] returns has [max_results] between 1
    and 1000 and a request interval between 0.2 and 5 seconds (a NaN is not
    accepted), and a run of the scraper on it yields at most [max_results]
    records in every mode and against every provider. *)
Theorem accepted_input_is_bounded (raw : json) (c : ScraperInput.t) :
  from_actor_input raw = Ok c ->
  1 <= ScraperInput.max_results c <= 1000
  /\ PrimFloat.leb 0x1.999999999999ap-3%float
       (ScraperInput.request_interval_secs c) = true
  /\ PrimFloat.leb (ScraperInput.request_interval_secs c) 5%float = true
  /\ forall w : World,
       Z.of_nat (List.length (scraped w c)) <= ScraperInput.max_results c.
Proof.
  intro H. unfold from_actor_input in H. invert_binds H.
  inversion H; subst c; clear H.
  cbn [ScraperInput.max_results ScraperInput.request_interval_secs].
  match goal with
  | E : validate_max_results _ = Ok _ |- _ =>
      apply validate_max_results_bounds in E; rename E into Hmax
  end.
  match goal with
  | E : validate_interval _ = Ok _ |- _ =>
      apply validate_interval_bounds in E; destruct E as [Hlo Hhi]
  end.
  split; [exact Hmax|]. split; [exact Hlo|]. split; [exact Hhi|].
  intro w. unfold scraped, run. cbn [ScraperInput.mode ScraperInput.max_results].
  repeat match goal with
         | |- context [if ?b then _ else _] => destruct b
         end.
  - etransitivity; [apply search_loop_bounded|].
    cbn [ScraperInput.max_results]. lia.
  - match goal with
    | |- context [_get_event w ?cfg initial] =>
        pose proof (get_event_yields_at_most_one w cfg)
    end. lia.
  - etransitivity; [apply search_loop_bounded|].
    cbn [ScraperInput.max_results]. lia.
  - simpl. lia.
Qed.

End ActorInput.

(** The sample search input is read as a search for "rock" capped at 30. *)
Lemma from_actor_input_reads_camel_case_witness :
  Forall (read_from [("apiKey", JStr "key"); ("keyword", JStr "rock");
                     ("maxResults", JInt 30)] rock_30)
    string_fields.
Proof.
  apply from_actor_input_reads_camel_case. vm_compute. reflexivity.
Defined.

(** The sample search input yields at most 30 records. *)
Lemma accepted_input_is_bounded_witness :
  1 <= 30 <= 1000
  /\ forall w : World, Z.of_nat (List.length (scraped w rock_30)) <= 30.
Proof.
  destruct (accepted_input_is_bounded rock_30_input rock_30) as [H1 [_ [_ H4]]].
  - vm_compute. reflexivity.
  - split; [exact H1 | exact H4].
Defined.

(** ** The filters of a search request *)

Lemma lookup_add_filter_same (k value : string) (ps : params) :
  lookup k (add_filter k value ps)
  = if Str.truthy (Str.strip value) then Some (PStr (Str.strip value))
    else lookup k ps.
Proof.
  unfold add_filter. destruct (Str.truthy (Str.strip value)); [|reflexivity].
  apply lookup_dict_set_same.
Qed.

(** Reads a key through the filters set after it. *)
Ltac peel_filters config :=
  repeat first [ rewrite (lookup_dict_set_other _ "apikey") by discriminate
               | rewrite (lookup_add_filter config) by discriminate
               | rewrite (lookup_add_radius config) by discriminate ].

Ltac filter_sent config :=
  unfold sent_trimmed, not_sent; cbn [fst snd];
  peel_filters config;
  first [ reflexivity
        | rewrite lookup_add_filter_same;
          destruct (Str.truthy (Str.strip _));
          [reflexivity | peel_filters config; reflexivity] ].

Section Filters.

Context {host : Host}.
Variable world : World.
Variable config : ScraperInput.t.

Let with_key (ps : params) : params :=
  dict_set "apikey" (PStr (ScraperInput.api_key config)) ps.

Lemma radius_sent_location (size page : Z) :
  radius_sent config (location_params config size page).
Proof.
  unfold radius_sent, location_params, add_radius.
  destruct (ScraperInput.radius config) as [r|].
  - rewrite (lookup_dict_set_other "radius" "unit") by discriminate.
    rewrite !lookup_dict_set_same. split; reflexivity.
  - split; peel_filters config; reflexivity.
Qed.

Lemma radius_sent_ext (ps ps' : params) :
  lookup "radius" ps' = lookup "radius" ps ->
  lookup "unit" ps' = lookup "unit" ps ->
  radius_sent config ps -> radius_sent config ps'.
Proof.
  unfold radius_sent. intros Hr Hu. rewrite Hr, Hu. exact (fun H => H).
Qed.

Lemma venue_params_filtered (size page : Z) :
  filtered config false
    (HttpGet (_TM_BASE ++ "/" ++ "venues.json")
       (with_key (venue_params config size page))).
Proof.
  unfold filtered, with_key, venue_params. split; [|split].
  - unfold location_filters, location_params.
    repeat constructor; filter_sent config.
  - apply (radius_sent_ext (location_params config size page));
      [peel_filters config; reflexivity.. | apply radius_sent_location].
  - unfold event_filters, location_params.
    repeat constructor; filter_sent config.
Qed.

Lemma event_params_filtered (size page : Z) :
  filtered config true
    (HttpGet (_TM_BASE ++ "/" ++ "events.json")
       (with_key (event_params config size page))).
Proof.
  unfold filtered, with_key, event_params. split; [|split].
  - unfold location_filters, location_params.
    repeat constructor; filter_sent config.
  - apply (radius_sent_ext (location_params config size page));
      [peel_filters config; reflexivity.. | apply radius_sent_location].
  - unfold event_filters, location_params.
    repeat constructor; filter_sent config.
Qed.

Lemma search_loop_filtered (events : bool) (endpoint key : string)
  (build : Z -> Z -> params) (normalize : string -> json -> result record) :
  (forall size page,
     filtered config events
       (HttpGet (_TM_BASE ++ "/" ++ endpoint) (with_key (build size page)))) ->
  Forall (filtered config events)
    (trace (snd (search_loop world config search_fuel endpoint key build
                   normalize 0 0 initial))).
Proof.
  intro Hbuild.
  destruct (search_loop world config search_fuel endpoint key build
              normalize 0 0 initial) as [e st'] eqn:Hrun.
  pose (Inv := fun (_ : Z) (s : state) =>
                 Forall (filtered config events) (trace s)).
  cut (exists t, Inv t st'); [intros [t Ht]; exact Ht|].
  apply (search_loop_invariant world config endpoint key build normalize Inv)
    with (fuel := search_fuel) (page := 0) (total := 0) (st := initial) (e := e).
  - intros pg tot s r s' HI _ page_size _ Hreq.
    apply api_request_effects in Hreq. destruct Hreq as [_ [es [Ht Hes]]].
    unfold Inv. rewrite Ht. apply Forall_app. split; [exact HI|].
    constructor; [exact I|]. constructor; [apply Hbuild|].
    eapply Forall_impl; [|exact Hes].
    intros e0 [E | [E | [ws E]]]; subst; [exact I | apply Hbuild | exact I].
  - intros tot s item r HI _ _. exact HI.
  - constructor.
  - exact Hrun.
Qed.

(** X15: every request of a search carries the configured filters.  In
    each GET of the event search, every text filter is present exactly when
    its configured value is non-empty after trimming, and then holds the
    trimmed value; the radius is sent with the unit as configured, and both
    are left out without a radius.  The venue search sends the location
    filters in the same way and never the filters of events (classification,
    dates, sort, source, family). *)
Theorem search_requests_carry_filters :
  Forall (filtered config true) (trace (snd (_search_events world config initial)))
  /\ Forall (filtered config false)
       (trace (snd (_search_venues world config initial))).
Proof.
  split.
  - apply search_loop_filtered. exact event_params_filtered.
  - apply search_loop_filtered. exact venue_params_filtered.
Qed.

End Filters.

(** ** The fields of the records *)

Lemma descend_default (d : json) (s : step) (p : list step) :
  d = JObj [] \/ d = JArr [] ->
  descend d (s :: p) = descend JNull (s :: p).
Proof. intros [E | E]; subst d; destruct s; reflexivity. Qed.

(** Reading [v.get(k, d)] with an empty default is a step down [k]. *)
Lemma descend_get (v : json) (k : string) (d o : json) (s : step)
  (p : list step) :
  d = JObj [] \/ d = JArr [] ->
  Py.get v k d = Ok o ->
  descend o (s :: p) = descend v (Key k :: s :: p).
Proof.
  intros Hd H. destruct v; simpl in H; try discriminate.
  inversion H; subst o; clear H.
  change (descend (JObj kvs) (Key k :: s :: p))
    with (descend (child (JObj kvs) k) (s :: p)).
  unfold child. destruct (lookup k kvs); [reflexivity|].
  apply descend_default. exact Hd.
Qed.

Lemma string_at_get (v : json) (k : string) (d o : json) (p : list step) :
  d = JObj [] \/ d = JArr [] ->
  Py.get v k d = Ok o ->
  string_at o p = string_at v (Key k :: p).
Proof.
  intros Hd H. destruct p as [|s p].
  - destruct v; simpl in H; try discriminate.
    inversion H; subst o; clear H. unfold string_at. simpl.
    destruct (lookup k kvs); [reflexivity|].
    destruct Hd as [E | E]; subst d; reflexivity.
  - unfold string_at. rewrite (descend_get _ _ _ _ _ _ Hd H). reflexivity.
Qed.

Lemma elements_at_get (v : json) (k : string) (d o : json) (p : list step) :
  d = JObj [] \/ d = JArr [] ->
  Py.get v k d = Ok o ->
  elements_at o p = elements_at v (Key k :: p).
Proof.
  intros Hd H. destruct p as [|s p].
  - destruct v; simpl in H; try discriminate.
    inversion H; subst o; clear H. unfold elements_at. simpl.
    destruct (lookup k kvs); [reflexivity|].
    destruct Hd as [E | E]; subst d; reflexivity.
  - unfold elements_at. rewrite (descend_get _ _ _ _ _ _ Hd H). reflexivity.
Qed.

(** [x or {}] reads like [x] under any key. *)
Lemma string_at_or (x : json) (k : string) (p : list step) :
  string_at (Py.or_ x (JObj [])) (Key k :: p) = string_at x (Key k :: p).
Proof.
  unfold Py.or_. destruct (Py.truthy x) eqn:E; [reflexivity|].
  destruct x as [| | | | | |kvs]; try reflexivity.
  destruct kvs; [reflexivity | discriminate].
Qed.

(** [xs[0] if xs else {}] reads like the first element of [xs]. *)
Lemma descend_first (xs x : json) (k : string) (p : list step) :
  (if Py.truthy xs then Py.index0 xs else Ok (JObj [])) = Ok x ->
  descend x (Key k :: p) = descend xs (First :: Key k :: p).
Proof.
  intro H. destruct (Py.truthy xs) eqn:E.
  - destruct xs as [| | | |s|l|kvs]; simpl in H; try discriminate.
    + destruct s; inversion H; reflexivity.
    + destruct l; inversion H; reflexivity.
  - inversion H; subst x; clear H.
    destruct xs as [| | | |s|l|kvs]; try reflexivity.
    destruct l; [reflexivity | discriminate].
Qed.

Lemma string_at_first (xs x : json) (k : string) (p : list step) :
  (if Py.truthy xs then Py.index0 xs else Ok (JObj [])) = Ok x ->
  string_at x (Key k :: p) = string_at xs (First :: Key k :: p).
Proof.
  intro H. unfold string_at. rewrite (descend_first _ _ _ _ H). reflexivity.
Qed.

Section Fields.

Context {host : Host}.

(** A text field read with [obj.get(k, "") or ""] is the string under
    [k], or empty. *)
Lemma get_or_str_read (obj : json) (k : string) (x : json) (s : string) :
  Py.get_or_str obj k = Ok x ->
  validate_str x = Ok s ->
  s = string_at obj [Key k].
Proof.
  unfold Py.get_or_str. intros Hg Hv. apply bind_Ok in Hg.
  destruct Hg as [x0 [Hx0 Hx]]. inversion Hx; subst x; clear Hx.
  destruct obj; simpl in Hx0; try discriminate.
  inversion Hx0; subst x0; clear Hx0.
  unfold string_at. simpl. unfold Py.or_ in Hv.
  destruct (lookup k kvs) as [v|]; [|inversion Hv; reflexivity].
  destruct (Py.truthy v) eqn:Et.
  - apply validate_str_inv in Hv. subst v. reflexivity.
  - inversion Hv; subst s.
    destruct v as [| | | |s'| |]; try reflexivity.
    destruct s'; [reflexivity | discriminate].
Qed.

End Fields.

(** Follows a text field of a record back to the document: the field is the
    string under the last key read, and each object on the way was read from
    the one before it. *)
Ltac follow_path :=
  match goal with
  | Hv : validate_str ?x = Ok ?s |- ?s = _ =>
      match goal with
      | Hg : Py.get_or_str ?o ?k = Ok x |- _ =>
          rewrite (get_or_str_read _ _ _ _ Hg Hv)
      end
  end;
  repeat match goal with
         | |- string_at (Py.or_ ?x (JObj [])) (Key ?k :: ?p) = _ =>
             rewrite (string_at_or x k p)
         | Hg : Py.get ?v ?k (JObj []) = Ok ?o |- string_at ?o ?p = _ =>
             rewrite (string_at_get v k (JObj []) o p (or_introl eq_refl) Hg)
         | Hv : (if Py.truthy ?xs then Py.index0 ?xs else Ok (JObj [])) = Ok ?o
           |- string_at ?o (Key ?k :: ?p) = _ =>
             rewrite (string_at_first xs o k p Hv)
         | Hg : Py.get ?v ?k (JArr []) = Ok ?o |- string_at ?o ?p = _ =>
             rewrite (string_at_get v k (JArr []) o p (or_intror eq_refl) Hg)
         end;
  reflexivity.

Section RecordFields.

Context {host : Host}.

(** X16: each text field of an event record is the string at its place in
    the provider's document: the name, id and URL at the top, the dates under
    "dates", the venue fields in the first entry of "_embedded.venues" and
    no other, the sale dates under "sales.public", and so on.  Where the
    place is missing, null or otherwise empty, the field is the empty
    string. *)
Theorem event_fields_follow_paths (now : string) (event : json)
  (r : EventRecord.t) :
  _event_to_record now event = Ok r ->
  Forall (follows event r) event_paths.
Proof.
  intro H. unfold _event_to_record in H. invert_binds H.
  inversion H; subst r; clear H.
  unfold event_paths.
  repeat constructor; unfold follows;
    cbn [fst snd app EventRecord.event_name EventRecord.event_id
         EventRecord.event_url EventRecord.local_date EventRecord.local_time
         EventRecord.datetime_utc EventRecord.timezone EventRecord.status
         EventRecord.venue_name EventRecord.venue_id EventRecord.venue_city
         EventRecord.venue_state EventRecord.venue_country
         EventRecord.venue_address EventRecord.venue_postal_code
         EventRecord.public_sale_start EventRecord.public_sale_end
         EventRecord.promoter EventRecord.seatmap_url EventRecord.info
         EventRecord.please_note EventRecord.ticket_limit
         EventRecord.accessibility_info];
    follow_path.
Qed.

(** X17: each text field of a venue record is the string at its place in
    the provider's document, and the empty string where the place is
    missing, null or otherwise empty; the "general_info" of the record is the
    "generalRule" of the document. *)
Theorem venue_fields_follow_paths (now : string) (venue : json)
  (r : VenueRecord.t) :
  _venue_to_record now venue = Ok r ->
  Forall (follows venue r) venue_paths.
Proof.
  intro H. unfold _venue_to_record in H. invert_binds H.
  inversion H; subst r; clear H.
  unfold venue_paths.
  repeat constructor; unfold follows;
    cbn [fst snd VenueRecord.venue_name VenueRecord.venue_id
         VenueRecord.venue_url VenueRecord.city VenueRecord.state
         VenueRecord.country VenueRecord.address VenueRecord.postal_code
         VenueRecord.timezone VenueRecord.parking_detail
         VenueRecord.general_info VenueRecord.child_rule
         VenueRecord.accessible_seating_detail];
    follow_path.
Qed.

End RecordFields.

(** The event of the sample: its fields are found where the table says. *)
Lemma event_fields_follow_paths_witness :
  exists r,
    _event_to_record "2024-01-01T00:00:00+00:00" concert = Ok r
    /\ Forall (follows concert r) event_paths
    /\ EventRecord.venue_name r = "Arena"
    /\ EventRecord.venue_city r = "Oslo"
    /\ EventRecord.timezone r = "".
Proof.
  destruct (_event_to_record "2024-01-01T00:00:00+00:00" concert)
    as [r| | |] eqn:E; [|vm_compute in E; discriminate..].
  exists r. split; [reflexivity|].
  pose proof (event_fields_follow_paths _ _ _ E) as H.
  split; [exact H|].
  vm_compute in E. inversion E. repeat split.
Defined.

(** The venue of the sample. *)
Lemma venue_fields_follow_paths_witness :
  exists r,
    _venue_to_record "2024-01-01T00:00:00+00:00" arena = Ok r
    /\ Forall (follows arena r) venue_paths
    /\ VenueRecord.city r = "Oslo"
    /\ VenueRecord.general_info r = "No bags".
Proof.
  destruct (_venue_to_record "2024-01-01T00:00:00+00:00" arena)
    as [r| | |] eqn:E; [|vm_compute in E; discriminate..].
  exists r. split; [reflexivity|].
  pose proof (venue_fields_follow_paths _ _ _ E) as H.
  split; [exact H|].
  vm_compute in E. inversion E. repeat split.
Defined.

(** ** Lists of the records *)

(** What [for x in d] runs over: the elements of a list; the characters of
    a string and the keys of an object are strings. *)
Lemma iter_elements (d : json) (items : list json) :
  Py.iter d = Ok items ->
  items = elements_at d [] \/ exists s rest, items = JStr s :: rest.
Proof.
  unfold elements_at. destruct d as [| | | |s|l|kvs]; simpl; intro H;
    try discriminate; inversion H; clear H.
  - destruct (list_ascii_of_string s); [left; reflexivity | right; simpl; eauto].
  - left. reflexivity.
  - destruct (dict_keys kvs); [left; reflexivity | right; simpl; eauto].
Qed.

Section Lists.

Context {host : Host}.

Lemma collect_truthy_strings (k : string) (items : list json) :
  forall names l,
    collect_truthy k items = Ok names ->
    validate_str_list names = Ok l ->
    l = strings_under k items.
Proof.
  induction items as [|x rest IH]; intros names l Hc Hv.
  - simpl in Hc. inversion Hc; subst names. simpl in Hv. inversion Hv.
    reflexivity.
  - cbn [collect_truthy] in Hc.
    destruct x as [| | | | | |kvs]; try discriminate.
    cbn [Py.get bind] in Hc.
    unfold strings_under. cbn [flat_map child]. fold (strings_under k rest).
    destruct (lookup k kvs) as [v|].
    + destruct (Py.truthy v) eqn:Et.
      * apply bind_Ok in Hc. destruct Hc as [vs [Hvs Hc]].
        inversion Hc; subst names; clear Hc.
        unfold validate_str_list in Hv. cbn [mapM] in Hv.
        apply bind_Ok in Hv. destruct Hv as [s [Hs Hv]].
        apply bind_Ok in Hv. destruct Hv as [ss [Hss Hv]].
        inversion Hv; subst l; clear Hv.
        apply validate_str_inv in Hs. subst v. simpl in Et. rewrite Et.
        simpl. f_equal. exact (IH _ _ Hvs Hss).
      * rewrite (IH _ _ Hc Hv).
        destruct v as [| | | |s| |]; try reflexivity.
        simpl in Et. rewrite Et. reflexivity.
    + cbn [Py.truthy] in Hc. exact (IH _ _ Hc Hv).
Qed.

Lemma collect_truthy_elements (k : string) (d : json) (items names : list json)
  (l : list string) :
  Py.iter d = Ok items ->
  collect_truthy k items = Ok names ->
  validate_str_list names = Ok l ->
  l = strings_under k (elements_at d []).
Proof.
  intros Hi Hc Hv. destruct (iter_elements _ _ Hi) as [E | [s [rest E]]].
  - rewrite <- E. exact (collect_truthy_strings _ _ _ _ Hc Hv).
  - subst items. discriminate.
Qed.

Lemma presale_of_read (ps : json) (r : PresaleRecord.t) :
  presale_of ps = Ok r -> r = presale_at ps.
Proof.
  intro H. unfold presale_of in H. invert_binds H.
  inversion H; subst r; clear H. unfold presale_at.
  f_equal; follow_path.
Qed.

Lemma presales_read (items : list json) :
  forall l, mapM presale_of items = Ok l -> l = map presale_at items.
Proof.
  induction items as [|x rest IH]; intros l H.
  - simpl in H. inversion H. reflexivity.
  - cbn [mapM] in H. apply bind_Ok in H. destruct H as [r [Hr H]].
    apply bind_Ok in H. destruct H as [rs [Hrs H]].
    inversion H; subst l. simpl. f_equal.
    + exact (presale_of_read _ _ Hr).
    + exact (IH _ Hrs).
Qed.

(** X18: the attractions of an event record are the names of the entries
    of "_embedded.attractions", in the provider's order; an entry without a
    name, or with an empty one, leaves no trace, and nothing is
    de-duplicated. *)
Theorem event_attractions_are_named (now : string) (event : json)
  (r : EventRecord.t) :
  _event_to_record now event = Ok r ->
  EventRecord.attractions r
  = strings_under "name"
      (elements_at event [Key "_embedded"; Key "attractions"]).
Proof.
  intro H. unfold _event_to_record in H. invert_binds H.
  inversion H; subst r; clear H. cbn [EventRecord.attractions].
  match goal with
  | Hc : collect_truthy "name" ?items = Ok ?names,
    Hi : Py.iter ?d = Ok ?items,
    Hv : validate_str_list ?names = Ok _,
    Hd : Py.get ?emb "attractions" (JArr []) = Ok ?d,
    He : Py.get event "_embedded" (JObj []) = Ok ?emb |- _ =>
      rewrite (collect_truthy_elements _ _ _ _ _ Hi Hc Hv);
      rewrite (elements_at_get _ _ _ _ [] (or_intror eq_refl) Hd);
      rewrite (elements_at_get _ _ _ _ [Key "attractions"]
                 (or_introl eq_refl) He)
  end.
  reflexivity.
Qed.

(** X19: the images of a venue record are the URLs of all the entries of
    "images" that have one, in the provider's order: unlike the images of an
    event they are neither sorted by width nor reduced to one per ratio, and
    a URL that occurs twice is listed twice. *)
Theorem venue_images_keep_every_url (now : string) (venue : json)
  (r : VenueRecord.t) :
  _venue_to_record now venue = Ok r ->
  VenueRecord.images r = strings_under "url" (elements_at venue [Key "images"]).
Proof.
  intro H. unfold _venue_to_record in H. invert_binds H.
  inversion H; subst r; clear H. cbn [VenueRecord.images].
  match goal with
  | Hc : collect_truthy "url" ?items = Ok ?names,
    Hi : Py.iter ?d = Ok ?items,
    Hv : validate_str_list ?names = Ok _,
    Hd : Py.get venue "images" (JArr []) = Ok ?d |- _ =>
      rewrite (collect_truthy_elements _ _ _ _ _ Hi Hc Hv);
      rewrite (elements_at_get _ _ _ _ [] (or_intror eq_refl) Hd)
  end.
  reflexivity.
Qed.

(** X20: an event record has one presale window for each entry of
    "sales.presales", in the provider's order, and each of its five fields is
    the string under the entry's key ("name", "startDateTime",
    "endDateTime", "description", "url"), empty where that is missing or
    null. *)
Theorem event_presales_follow_entries (now : string) (event : json)
  (r : EventRecord.t) :
  _event_to_record now event = Ok r ->
  EventRecord.presales r
  = map presale_at (elements_at event [Key "sales"; Key "presales"]).
Proof.
  intro H. unfold _event_to_record in H. invert_binds H.
  inversion H; subst r; clear H. cbn [EventRecord.presales].
  match goal with
  | Hm : mapM presale_of ?items = Ok ?l,
    Hi : Py.iter ?d = Ok ?items,
    Hd : Py.get ?sales "presales" (JArr []) = Ok ?d,
    Hs : Py.get event "sales" (JObj []) = Ok ?sales |- _ =>
      rewrite (presales_read _ _ Hm);
      let Hel := fresh "Hel" in
      destruct (iter_elements _ _ Hi) as [Hel | [? [? Hel]]];
      [ rewrite Hel;
        rewrite (elements_at_get _ _ _ _ [] (or_intror eq_refl) Hd);
        rewrite (elements_at_get _ _ _ _ [Key "presales"]
                   (or_introl eq_refl) Hs)
      | rewrite Hel in Hm; simpl in Hm; discriminate ]
  end.
  reflexivity.
Qed.

End Lists.

(** The attractions of the sample event: the entry with an empty name and
    the one without a name are left out. *)
Lemma event_attractions_are_named_witness :
  exists r,
    _event_to_record "2024-01-01T00:00:00+00:00" concert = Ok r
    /\ EventRecord.attractions r = ["Band"; "Guest"].
Proof.
  destruct (_event_to_record "2024-01-01T00:00:00+00:00" concert)
    as [r| | |] eqn:E; [|vm_compute in E; discriminate..].
  exists r. split; [reflexivity|].
  rewrite (event_attractions_are_named _ _ _ E). reflexivity.
Defined.

(** The images of the sample venue: the URL that occurs twice is kept
    twice. *)
Lemma venue_images_keep_every_url_witness :
  exists r,
    _venue_to_record "2024-01-01T00:00:00+00:00" arena = Ok r
    /\ VenueRecord.images r = ["a.jpg"; "a.jpg"].
Proof.
  destruct (_venue_to_record "2024-01-01T00:00:00+00:00" arena)
    as [r| | |] eqn:E; [|vm_compute in E; discriminate..].
  exists r. split; [reflexivity|].
  rewrite (venue_images_keep_every_url _ _ _ E). reflexivity.
Defined.

(** The presale of the sample event: its null URL is read as empty. *)
Lemma event_presales_follow_entries_witness :
  exists r,
    _event_to_record "2024-01-01T00:00:00+00:00" concert = Ok r
    /\ EventRecord.presales r
       = [ {| PresaleRecord.name := "Fans";
              PresaleRecord.start_date_time := "";
              PresaleRecord.end_date_time := "";
              PresaleRecord.description := "";
              PresaleRecord.url := "" |} ].
Proof.
  destruct (_event_to_record "2024-01-01T00:00:00+00:00" concert)
    as [r| | |] eqn:E; [|vm_compute in E; discriminate..].
  exists r. split; [reflexivity|].
  rewrite (event_presales_follow_entries _ _ _ E). reflexivity.
Defined.

(** ** Numbers of the records *)

Section Numbers.

Context {host : Host}.

Lemma price_or_zero (kvs : list (string * json)) (k : string) :
  (forall f, child (JObj kvs) k = JFloat f ->
     Py.or_ (match lookup k kvs with Some x => x | None => JFloat 0 end)
       (JFloat 0) = JFloat (price_of f))
  /\ (child (JObj kvs) k = JNull ->
      Py.or_ (match lookup k kvs with Some x => x | None => JFloat 0 end)
        (JFloat 0) = JFloat 0).
Proof.
  unfold child, Py.or_, price_of. destruct (lookup k kvs) as [v|].
  - split.
    + intros f E. subst v. cbn [Py.truthy].
      destruct (PrimFloat.eqb f 0); reflexivity.
    + intro E. subst v. reflexivity.
  - split; [discriminate | reflexivity].
Qed.

(** The price block reads the first price range. *)
Lemma price_fields_read (event mn mx cur : json) :
  price_fields event = Ok (mn, mx, cur) ->
  let pr := descend event [Key "priceRanges"; First] in
  (forall f, child pr "min" = JFloat f -> mn = JFloat (price_of f))
  /\ (child pr "min" = JNull -> mn = JFloat 0)
  /\ (forall f, child pr "max" = JFloat f -> mx = JFloat (price_of f))
  /\ (child pr "max" = JNull -> mx = JFloat 0)
  /\ (forall s, validate_str cur = Ok s -> s = string_at pr [Key "currency"]).
Proof.
  intro H. unfold price_fields in H.
  destruct event as [| | | | | |fields]; try discriminate.
  cbn [Py.get bind] in H. cbn [descend child].
  destruct (lookup "priceRanges" fields) as [x|].
  2:{ cbn [Py.truthy] in H. inversion H; subst mn mx cur.
      cbn [first_of child].
      split; [discriminate|]. split; [reflexivity|].
      split; [discriminate|]. split; [reflexivity|].
      intros s Hs. inversion Hs. reflexivity. }
  destruct (Py.truthy x) eqn:Et.
  - destruct x as [| | | |s|l|kvs]; simpl in H; try discriminate.
    + destruct s; discriminate.
    + destruct l as [|y l]; [discriminate|].
      destruct y as [| | | | | |p]; try discriminate.
      cbn [Py.get bind] in H. inversion H; subst mn mx cur; clear H.
      cbn [first_of].
      destruct (price_or_zero p "min") as [Hmin Hmin0].
      destruct (price_or_zero p "max") as [Hmax Hmax0].
      split; [exact Hmin|]. split; [exact Hmin0|].
      split; [exact Hmax|]. split; [exact Hmax0|].
      intros s Hs.
      exact (get_or_str_read (JObj p) "currency"
               (Py.or_ (match lookup "currency" p with
                        | Some x => x
                        | None => JStr ""
                        end) (JStr "")) s eq_refl Hs).
  - inversion H; subst mn mx cur; clear H.
    assert (Hn : first_of x = JNull).
    { destruct x as [| | | | |l|]; try reflexivity.
      destruct l; [reflexivity | discriminate]. }
    rewrite Hn. cbn [child].
    split; [discriminate|]. split; [reflexivity|].
    split; [discriminate|]. split; [reflexivity|].
    intros s Hs. inversion Hs. reflexivity.
Qed.

(** X21: the prices of an event record are those of the first entry of
    "priceRanges" and of no other: a "min" or "max" that is a float is
    taken as it is, except that a zero of either sign becomes 0.0; a missing
    or null one is 0.0, as when there is no price range at all; the currency
    is the string under "currency" of that entry, or empty. *)
Theorem event_price_is_first_range (now : string) (event : json)
  (r : EventRecord.t) :
  _event_to_record now event = Ok r ->
  let pr := descend event [Key "priceRanges"; First] in
  (forall f, child pr "min" = JFloat f -> EventRecord.price_min r = price_of f)
  /\ (child pr "min" = JNull -> EventRecord.price_min r = 0%float)
  /\ (forall f, child pr "max" = JFloat f -> EventRecord.price_max r = price_of f)
  /\ (child pr "max" = JNull -> EventRecord.price_max r = 0%float)
  /\ EventRecord.price_currency r = string_at pr [Key "currency"].
Proof.
  intros H pr. unfold _event_to_record in H. invert_binds H.
  inversion H; subst r; clear H.
  cbn [EventRecord.price_min EventRecord.price_max EventRecord.price_currency].
  match goal with
  | Hp : price_fields event = Ok (?mn, ?mx, ?cur),
    Hmn : validate_float ?mn = Ok _,
    Hmx : validate_float ?mx = Ok _,
    Hcur : validate_str ?cur = Ok _ |- _ =>
      destruct (price_fields_read _ _ _ _ Hp) as [H1 [H2 [H3 [H4 H5]]]];
      fold pr in H1, H2, H3, H4, H5;
      split; [intros f Hf; rewrite (H1 f Hf) in Hmn; inversion Hmn; reflexivity|];
      split; [intro Hf; rewrite (H2 Hf) in Hmn; inversion Hmn; reflexivity|];
      split; [intros f Hf; rewrite (H3 f Hf) in Hmx; inversion Hmx; reflexivity|];
      split; [intro Hf; rewrite (H4 Hf) in Hmx; inversion Hmx; reflexivity|];
      exact (H5 _ Hcur)
  end.
Qed.

Lemma upcoming_count_read (venue up n : json) (count : Z) :
  Py.get venue "upcomingEvents" (JObj []) = Ok up ->
  (if Py.is_dict up then Py.get up "_total" (JInt 0) else Ok (JInt 0)) = Ok n ->
  validate_int n = Ok count ->
  (Py.is_dict (child venue "upcomingEvents") = false -> count = 0)
  /\ (forall z, descend venue [Key "upcomingEvents"; Key "_total"] = JInt z ->
                count = z).
Proof.
  intros Hu Hc Hv.
  destruct venue as [| | | | | |fields]; try discriminate.
  simpl in Hu. inversion Hu; subst up; clear Hu. cbn [descend child].
  destruct (lookup "upcomingEvents" fields) as [u|].
  - destruct (Py.is_dict u) eqn:Ed.
    + destruct u as [| | | | | |kvs]; try discriminate.
      simpl in Hc. inversion Hc; subst n; clear Hc.
      split; [discriminate|]. intros z Hz. cbn [descend child] in Hz.
      destruct (lookup "_total" kvs); [|discriminate].
      subst. inversion Hv. reflexivity.
    + inversion Hc; subst n; clear Hc. inversion Hv; subst count.
      split; [reflexivity|]. intros z Hz.
      destruct u; cbn [descend child] in Hz; discriminate.
  - simpl in Hc. inversion Hc; subst n; clear Hc. inversion Hv; subst count.
    split; [reflexivity | discriminate].
Qed.

(** X22: the numbers of a venue record.  The coordinates are what
    [_safe_float] makes of "location.latitude" and "location.longitude", so a
    missing or null one is 0.0; the count of upcoming events is the integer
    "upcomingEvents._total", and 0 when "upcomingEvents" is missing or is not
    an object: a null there does not make the normalizer fail. *)
Theorem venue_numbers_follow_paths (now : string) (venue : json)
  (r : VenueRecord.t) :
  _venue_to_record now venue = Ok r ->
  _safe_float (descend venue [Key "location"; Key "latitude"])
  = Ok (VenueRecord.latitude r)
  /\ _safe_float (descend venue [Key "location"; Key "longitude"])
     = Ok (VenueRecord.longitude r)
  /\ (Py.is_dict (child venue "upcomingEvents") = false ->
      VenueRecord.upcoming_events_count r = 0)
  /\ (forall z, descend venue [Key "upcomingEvents"; Key "_total"] = JInt z ->
                VenueRecord.upcoming_events_count r = z).
Proof.
  intro H. unfold _venue_to_record in H. invert_binds H.
  inversion H; subst r; clear H.
  cbn [VenueRecord.latitude VenueRecord.longitude
       VenueRecord.upcoming_events_count].
  assert (Hleaf : forall loc k x,
            Py.get venue "location" (JObj []) = Ok loc ->
            Py.get loc k JNull = Ok x ->
            x = descend venue [Key "location"; Key k]).
  { intros loc k x Hl Hx.
    rewrite <- (descend_get venue "location" (JObj []) loc (Key k) []
                  (or_introl eq_refl) Hl).
    destruct loc; simpl in Hx; try discriminate.
    inversion Hx. reflexivity. }
  match goal with
  | Hl : Py.get venue "location" (JObj []) = Ok ?loc,
    Hlat : Py.get ?loc "latitude" JNull = Ok ?lat,
    Hlon : Py.get ?loc "longitude" JNull = Ok ?lon,
    Hflat : _safe_float ?lat = Ok _,
    Hflon : _safe_float ?lon = Ok _ |- _ =>
      rewrite <- (Hleaf _ _ _ Hl Hlat), <- (Hleaf _ _ _ Hl Hlon);
      split; [exact Hflat|]; split; [exact Hflon|]
  end.
  match goal with
  | Hu : Py.get venue "upcomingEvents" (JObj []) = Ok ?up,
    Hc : (if Py.is_dict ?up then _ else _) = Ok ?n,
    Hv : validate_int ?n = Ok _ |- _ =>
      exact (upcoming_count_read _ _ _ _ Hu Hc Hv)
  end.
Qed.

End Numbers.

(** The prices of the sample event are those of its first price range. *)
Lemma event_price_is_first_range_witness :
  exists r,
    _event_to_record "2024-01-01T00:00:00+00:00" concert = Ok r
    /\ EventRecord.price_min r = 35%float
    /\ EventRecord.price_max r = 120%float
    /\ EventRecord.price_currency r = "USD".
Proof.
  destruct (_event_to_record "2024-01-01T00:00:00+00:00" concert)
    as [r| | |] eqn:E; [|vm_compute in E; discriminate..].
  exists r. split; [reflexivity|].
  destruct (event_price_is_first_range _ _ _ E) as [H1 [_ [H3 [_ H5]]]].
  rewrite (H1 35%float eq_refl), (H3 120%float eq_refl), H5.
  vm_compute. repeat split.
Defined.

(** The sample venue has no location and a null "upcomingEvents". *)
Lemma venue_numbers_follow_paths_witness :
  exists r,
    _venue_to_record "2024-01-01T00:00:00+00:00" arena = Ok r
    /\ VenueRecord.latitude r = 0%float
    /\ VenueRecord.upcoming_events_count r = 0.
Proof.
  destruct (_venue_to_record "2024-01-01T00:00:00+00:00" arena)
    as [r| | |] eqn:E; [|vm_compute in E; discriminate..].
  exists r. split; [reflexivity|].
  destruct (venue_numbers_follow_paths _ _ _ E) as [H1 [_ [H3 _]]].
  split; [|exact (H3 eq_refl)].
  assert (Hz : _safe_float (descend arena [Key "location"; Key "latitude"])
               = Ok 0%float) by (vm_compute; reflexivity).
  rewrite Hz in H1. inversion H1. reflexivity.
Defined.

(** ** The request of a lookup *)

Section LookupRequest.

Context {host : Host}.
Variable world : World.
Variable config : ScraperInput.t.

(** X23: a lookup asks for one document.  Every GET of [_get_event] goes
    to "events/<id>.json" under the provider's base, with the event id
    trimmed, and carries the API key as its only parameter; the first effects
    are the wait for the rate limiter and that GET, and nothing but retries
    of it follows. *)
Theorem get_event_requests_one_document :
  let url := _TM_BASE ++ "/" ++ "events/"
             ++ Str.strip (ScraperInput.event_id config) ++ ".json" in
  let ps := [("apikey", PStr (ScraperInput.api_key config))] in
  exists es,
    trace (snd (_get_event world config initial))
    = RateLimitWait :: HttpGet url ps :: es
    /\ Forall (of_request url ps) es.
Proof.
  intros url ps. unfold _get_event.
  destruct (_api_request world config _ [] initial) as [r st1] eqn:Hreq.
  apply api_request_effects in Hreq. destruct Hreq as [_ [es [Ht Hes]]].
  simpl in Ht. exists es.
  assert (H1 : trace st1 = RateLimitWait :: HttpGet url ps :: es /\
               Forall (of_request url ps) es).
  { split; [exact Ht | exact Hes]. }
  destruct r as [[resp|]| | |]; try exact H1.
  destruct (status_code resp =? 404); [exact H1|].
  destruct (negb (status_code resp =? 200)); [exact H1|].
  destruct (event_data <- resp_json resp;;
            event_record (clock world (List.length (yielded st1))) event_data);
    exact H1.
Qed.

End LookupRequest.

(** ** _safe_float *)

Section SafeFloat.

Context {host : Host}.

(** X24: [_safe_float] fails in one case only.  It returns a float as it
    is, the parsed number for a string that [float] reads, and 0.0 for
    [None], for a string that does not parse, for a list and for an object;
    but the handler names [ValueError] and [TypeError] only, so the
    [OverflowError] of an integer too large for a float leaves the function,
    and an integer is the only value on which it raises. *)
Theorem safe_float_fails_only_on_overflow :
  (forall v,
     match v with
     | JNull | JArr _ | JObj _ => _safe_float v = Ok 0%float
     | JFloat f => _safe_float v = Ok f
     | JStr s => _safe_float v
                 = Ok (match float_of_str s with Some f => f | None => 0%float end)
     | JBool _ | JInt _ => True
     end)
  /\ (forall v,
        (exists f, _safe_float v = Ok f)
        \/ (exists z, v = JInt z /\ _safe_float v = Raise OverflowError))
  /\ (exists z, _safe_float (JInt z) = Raise OverflowError).
Proof.
  split; [|split].
  - intros [| | | |s| |]; try reflexivity.
    simpl. destruct (float_of_str s); reflexivity.
  - exact safe_float_total.
  - exists (10 ^ 400). exact safe_float_overflow.
Qed.

End SafeFloat.
